(** * Multi-terminal synchronisation of the POS application

    A shallow embedding of the relay (sync-server/src/server.ts) and of the
    terminal-side sync client (electron/services/SyncService.ts), with the
    SQLite tables they read and write represented as lists of rows and the
    constraints of their schemas (database/migrations) checked by the
    statements that write them.

    Conventions of the embedding:
    - JavaScript numbers are integers ([Z]); fractions and the 2^53 precision
      limit are outside the model.
    - [datetime('now')] is an explicit argument [now] (seconds, as [Z]).
    - A string that holds JSON text is represented by the value it
      serialises ([JSer v] is the string [JSON.stringify(v)]); a string given
      by its characters ([JStr s]) is taken not to be JSON text.
    - SQLite column type affinity (the coercion of numeric-looking text into
      INTEGER columns and of numbers into TEXT columns) is not modelled: a
      column keeps the value that was bound.
    - Statements fail by their constraints only; faults of the storage
      engine itself are outside the model.
    - The length in bytes of a request body, which decides whether the
      relay's body parser lets it through, is an input of the model
      ([content_length]). *)

From Stdlib Require Import ZArith String Bool Lia Permutation Sorted List.
Import ListNotations.
Open Scope string_scope.
Open Scope list_scope.
Open Scope Z_scope.

(** ** JavaScript values and exceptions *)

#[local] Unset Elimination Schemes.
Inductive json : Type :=
| JNull
| JBool (b : bool)
| JNum (n : Z)
| JStr (s : string)
| JSer (v : json)
| JArr (items : list json)
| JObj (fields : list (string * json)).
#[local] Set Elimination Schemes.

Inductive exn : Type :=
| TypeError
| SyntaxError
| SqliteError
| HttpError
| NetworkError.

Inductive result (A : Type) : Type :=
| Ok (a : A)
| Throw (e : exn).
Arguments Ok {A} a.
Arguments Throw {A} e.

Definition bind {A B : Type} (c : result A) (k : A -> result B) : result B :=
  match c with
  | Ok a => k a
  | Throw e => Throw e
  end.

Notation "x <- c ;; k" := (bind c (fun x => k))
  (at level 61, c at next level, right associativity).
Notation "' p <- c ;; k" := (bind c (fun p => k))
  (at level 61, p pattern, c at next level, right associativity).

(** [None] is [undefined]. *)
Definition truthy (v : option json) : bool :=
  match v with
  | None => false
  | Some JNull => false
  | Some (JBool b) => b
  | Some (JNum n) => negb (n =? 0)
  | Some (JStr s) => negb (String.eqb s "")
  | Some (JSer _) => true
  | Some (JArr _) => true
  | Some (JObj _) => true
  end.

(** [Array.isArray] *)
Definition isArray (v : option json) : bool :=
  match v with
  | Some (JArr _) => true
  | _ => false
  end.

Fixpoint assoc (k : string) (fields : list (string * json)) : option json :=
  match fields with
  | [] => None
  | (k', v) :: rest => if String.eqb k k' then Some v else assoc k rest
  end.

(** Property read [o.k] for the column names the sync code reads: it throws on
    [null], finds the field of an object, and is [undefined] on primitives and
    arrays. *)
Definition prop (o : json) (k : string) : result (option json) :=
  match o with
  | JNull => Throw TypeError
  | JObj fields => Ok (assoc k fields)
  | _ => Ok None
  end.

(** ** SQLite values, parameter binding and queries *)

Inductive sqlval : Type :=
| SNull
| SInt (n : Z)
| SText (s : string)
| SSer (v : json).

(** better-sqlite3 binds numbers and strings as they are and [null] and
    [undefined] as NULL; a boolean is a TypeError, and so is here an array or
    an object. (The library spreads an array argument of [run] over the
    positional parameters and reads a plain object as named parameters, so
    that a statement with such an argument fails or not by the number of
    values it ends up with; statements about which requests are accepted
    are therefore made for arguments that are not arrays.) *)
Definition bind_param (v : option json) : result sqlval :=
  match v with
  | None => Ok SNull
  | Some JNull => Ok SNull
  | Some (JNum n) => Ok (SInt n)
  | Some (JStr s) => Ok (SText s)
  | Some (JSer j) => Ok (SSer j)
  | Some (JBool _) => Throw TypeError
  | Some (JArr _) => Throw TypeError
  | Some (JObj _) => Throw TypeError
  end.

(** A NOT NULL column without a usable default. *)
Definition require_value (v : sqlval) : result sqlval :=
  match v with
  | SNull => Throw SqliteError
  | _ => Ok v
  end.

(** [ORDER BY key ASC]: insertion sort, rows with equal key stay in table
    order. *)
Section OrderBy.
Context {A : Type} (key : A -> Z).

Fixpoint insert_by (x : A) (l : list A) : list A :=
  match l with
  | [] => [x]
  | y :: l' => if key x <=? key y then x :: l else y :: insert_by x l'
  end.

Fixpoint order_by (l : list A) : list A :=
  match l with
  | [] => []
  | x :: l' => insert_by x (order_by l')
  end.
End OrderBy.

(** ** The relay: sync-server/src/server.ts *)

Module Relay.

(** A row of [sync_changes]. *)
Record sync_change : Type := {
  id : Z;
  store_id : sqlval;
  terminal_id : sqlval;
  entity_type : sqlval;
  entity_id : sqlval;
  action : sqlval;
  data : sqlval;
  version : Z;
  created_at : Z
}.

(** The relay database: the change log, its AUTOINCREMENT counter, and the
    [latest_version] entry of [sync_metadata] (kept as the integer that
    [parseInt] reads back from its text). *)
Record db : Type := {
  sync_changes : list sync_change;
  sync_changes_seq : Z;
  latest_version : Z
}.

Definition empty : db :=
  {| sync_changes := []; sync_changes_seq := 0; latest_version := 0 |}.

(** [req.body] after [const { terminal_id, store_id, changes } = req.body]. *)
Record push_body : Type := {
  body_terminal_id : option json;
  body_store_id : option json;
  body_changes : option json
}.

Inductive push_response : Type :=
| PushOk (changes_received : Z) (latest : Z)   (* 200 *)
| PushInvalid                                   (* 400 *)
| PushError.                                    (* 500 *)

(** [insertStmt.run(store_id, terminal_id, change.entity_type, ...,
    currentVersion)] against the schema of [sync_changes]. *)
Definition insert_change (now : Z) (sid tid : option json) (change : json)
    (currentVersion : Z) (st : db) : result db :=
  et <- prop change "entity_type" ;;
  ei <- prop change "entity_id" ;;
  ac <- prop change "action" ;;
  da <- prop change "data" ;;
  c_store <- bind_param sid ;;
  c_term <- bind_param tid ;;
  c_et <- bind_param et ;;
  c_ei <- bind_param ei ;;
  c_ac <- bind_param ac ;;
  c_da <- bind_param da ;;
  c_store <- require_value c_store ;;
  c_et <- require_value c_et ;;
  c_ei <- require_value c_ei ;;
  c_ac <- require_value c_ac ;;
  c_da <- require_value c_da ;;
  let rowid := sync_changes_seq st + 1 in
  Ok {| sync_changes := sync_changes st ++
          [ {| id := rowid; store_id := c_store; terminal_id := c_term;
               entity_type := c_et; entity_id := c_ei; action := c_ac;
               data := c_da; version := currentVersion;
               created_at := now |} ];
        sync_changes_seq := rowid;
        latest_version := latest_version st |}.

(** [for (const change of changes) { currentVersion++; insertStmt.run(...) }] *)
Fixpoint insert_loop (now : Z) (sid tid : option json) (changes : list json)
    (currentVersion : Z) (st : db) : result (Z * db) :=
  match changes with
  | [] => Ok (currentVersion, st)
  | change :: rest =>
      let currentVersion := currentVersion + 1 in
      st' <- insert_change now sid tid change currentVersion st ;;
      insert_loop now sid tid rest currentVersion st'
  end.

(** The body of [db.transaction(() => { ... })]. *)
Definition transaction (now : Z) (sid tid : option json) (changes : list json)
    (st : db) : result (Z * db) :=
  let currentVersion := latest_version st in
  '(currentVersion, st') <- insert_loop now sid tid changes currentVersion st ;;
  Ok (currentVersion,
      {| sync_changes := sync_changes st';
         sync_changes_seq := sync_changes_seq st';
         latest_version := currentVersion |}).

(** [app.post('/api/sync/push', ...)]: a thrown transaction is rolled back
    and answered with 500. *)
Definition push (now : Z) (st : db) (body : push_body) : db * push_response :=
  let tid := body_terminal_id body in
  let sid := body_store_id body in
  let changes := body_changes body in
  if negb (truthy tid) || negb (truthy sid) || negb (truthy changes)
     || negb (isArray changes)
  then (st, PushInvalid)
  else
    match changes with
    | Some (JArr cs) =>
        match transaction now sid tid cs st with
        | Ok (latestVersion, st') =>
            (st', PushOk (Z.of_nat (length cs)) latestVersion)
        | Throw _ => (st, PushError)
        end
    | _ => (st, PushInvalid)
    end.

(** The query string after [parseInt]: [None] is NaN. *)
Record pull_query : Type := {
  q_terminal_id : option Z;
  q_since_version : option Z
}.

Inductive pull_response : Type :=
| PullOk (changes : list sync_change) (latest : Z) (count : Z)  (* 200 *)
| PullInvalid.                                                    (* 400 *)

(** [terminal_id IS NULL OR terminal_id != ?] with an integer parameter. *)
Definition not_from (terminalId : Z) (r : sync_change) : bool :=
  match terminal_id r with
  | SNull => true
  | SInt n => negb (n =? terminalId)
  | SText _ => true
  | SSer _ => true
  end.

Definition select_changes (sinceVersion terminalId : Z) (st : db)
    : list sync_change :=
  firstn 1000
    (order_by version
       (filter (fun r => (sinceVersion <? version r) && not_from terminalId r)
               (sync_changes st))).

(** [app.get('/api/sync/pull', ...)] *)
Definition pull (st : db) (q : pull_query) : pull_response :=
  let sinceVersion :=
    match q_since_version q with
    | Some n => if n =? 0 then 0 else n
    | None => 0
    end in
  match q_terminal_id q with
  | None => PullInvalid
  | Some terminalId =>
      if terminalId =? 0 then PullInvalid
      else
        let changes := select_changes sinceVersion terminalId st in
        PullOk changes (latest_version st) (Z.of_nat (length changes))
  end.

End Relay.

(** ** The terminal's entity tables: database/migrations 001 and 003 *)

Fixpoint json_eqb (a b : json) {struct a} : bool :=
  match a, b with
  | JNull, JNull => true
  | JBool x, JBool y => Bool.eqb x y
  | JNum x, JNum y => x =? y
  | JStr x, JStr y => String.eqb x y
  | JSer x, JSer y => json_eqb x y
  | JArr xs, JArr ys =>
      (fix items (xs ys : list json) {struct xs} : bool :=
         match xs, ys with
         | [], [] => true
         | x :: xs', y :: ys' => json_eqb x y && items xs' ys'
         | _, _ => false
         end) xs ys
  | JObj xs, JObj ys =>
      (fix fields (xs ys : list (string * json)) {struct xs} : bool :=
         match xs, ys with
         | [], [] => true
         | (k, x) :: xs', (k', y) :: ys' =>
             String.eqb k k' && json_eqb x y && fields xs' ys'
         | _, _ => false
         end) xs ys
  | _, _ => false
  end.

Definition sqlval_eqb (a b : sqlval) : bool :=
  match a, b with
  | SNull, SNull => true
  | SInt x, SInt y => x =? y
  | SText x, SText y => String.eqb x y
  | SSer x, SSer y => json_eqb x y
  | _, _ => false
  end.

Definition is_null (v : sqlval) : bool :=
  match v with
  | SNull => true
  | _ => false
  end.

(** [v === s] for a column value read back as a JavaScript string. *)
Definition is_text (v : sqlval) (s : string) : bool :=
  match v with
  | SText s' => String.eqb s' s
  | _ => false
  end.

(** [JSON.parse] of a column value: text that serialises [v] parses to [v],
    other text is a SyntaxError; a number or [null] is first converted to its
    text and parses to itself. *)
Definition JSON_parse (v : sqlval) : result json :=
  match v with
  | SNull => Ok JNull
  | SInt n => Ok (JNum n)
  | SText _ => Throw SyntaxError
  | SSer j => Ok j
  end.

(** The arguments [data.k1, data.k2, ...] of a statement, bound in order. *)
Fixpoint params (data : json) (names : list string) : result (list sqlval) :=
  match names with
  | [] => Ok []
  | k :: rest =>
      v <- prop data k ;;
      p <- bind_param v ;;
      ps <- params data rest ;;
      Ok (p :: ps)
  end.

(** A table with an [INTEGER PRIMARY KEY AUTOINCREMENT] column [id], the
    columns an INSERT lists, and [created_at]/[updated_at] defaulting to
    [datetime('now')]. *)
Module SqlTable.

Record column : Type := {
  name : string;
  not_null : bool;
  default : option sqlval;
  unique : bool;
  check : sqlval -> bool
}.

Record row : Type := {
  id : Z;
  values : list sqlval;
  created_at : Z;
  updated_at : Z
}.

Record t : Type := {
  rows : list row;
  seq : Z          (* sqlite_sequence *)
}.

Definition col (i : nat) (r : row) : sqlval := nth i (values r) SNull.

Definition ids (tb : t) : list Z := map id (rows tb).

(** NOT NULL under the REPLACE conflict algorithm takes the column default
    when there is one and aborts otherwise; a CHECK violation aborts. *)
Definition constrain (c : column) (v : sqlval) : result sqlval :=
  v' <- match v with
        | SNull =>
            if not_null c
            then match default c with
                 | Some d => Ok d
                 | None => Throw SqliteError
                 end
            else Ok SNull
        | _ => Ok v
        end ;;
  if check c v' then Ok v' else Throw SqliteError.

Fixpoint constrain_all (cols : list column) (vals : list sqlval)
    : result (list sqlval) :=
  match cols, vals with
  | c :: cols', v :: vals' =>
      v' <- constrain c v ;;
      rest <- constrain_all cols' vals' ;;
      Ok (v' :: rest)
  | _, _ => Ok []
  end.

(** A UNIQUE column holds the same non-null value in both rows. *)
Fixpoint unique_clash (cols : list column) (vals other : list sqlval) : bool :=
  match cols, vals, other with
  | c :: cols', v :: vals', o :: other' =>
      (unique c && negb (is_null v) && sqlval_eqb v o)
      || unique_clash cols' vals' other'
  | _, _, _ => false
  end.

Definition conflicts (cols : list column) (rowid : Z) (vals : list sqlval)
    (r : row) : bool :=
  (id r =? rowid) || unique_clash cols vals (values r).

Definition max_rowid (rs : list row) : Z :=
  fold_right (fun r m => Z.max (id r) m) 0 rs.

(** A null key takes the next AUTOINCREMENT value; the rowid column accepts
    integers only. *)
Definition new_rowid (idv : sqlval) (tb : t) : result Z :=
  match idv with
  | SNull => Ok (Z.max (seq tb) (max_rowid (rows tb)) + 1)
  | SInt n => Ok n
  | _ => Throw SqliteError
  end.

Record replaced : Type := {
  new_row : row;
  deleted : list row;
  table : t
}.

(** [INSERT OR REPLACE INTO tb (id, cols...) VALUES (idv, vals...)]: the
    rows that collide on the key or on a UNIQUE column are deleted, then the
    new row is inserted. *)
Definition insert_or_replace (cols : list column) (now : Z) (idv : sqlval)
    (vals : list sqlval) (tb : t) : result replaced :=
  vals' <- constrain_all cols vals ;;
  rowid <- new_rowid idv tb ;;
  let r := {| id := rowid; values := vals';
              created_at := now; updated_at := now |} in
  Ok {| new_row := r;
        deleted := filter (conflicts cols rowid vals') (rows tb);
        table := {| rows := filter (fun x => negb (conflicts cols rowid vals' x))
                                   (rows tb) ++ [r];
                    seq := Z.max (seq tb) rowid |} |}.

(** [DELETE FROM tb WHERE id = ?]: the deleted rows and the table left. *)
Definition delete_by_id (idv : sqlval) (tb : t) : list row * t :=
  match idv with
  | SInt n =>
      (filter (fun r => id r =? n) (rows tb),
       {| rows := filter (fun r => negb (id r =? n)) (rows tb);
          seq := seq tb |})
  | _ => ([], tb)
  end.

Fixpoint set_nth (i : nat) (v : sqlval) (l : list sqlval) : list sqlval :=
  match i, l with
  | _, [] => []
  | O, _ :: l' => v :: l'
  | S i', x :: l' => x :: set_nth i' v l'
  end.

(** [ON DELETE SET NULL] on column [i] for the deleted parent keys. *)
Definition set_null (i : nat) (parents : list Z) (r : row) : row :=
  match col i r with
  | SInt k =>
      if existsb (Z.eqb k) parents
      then {| id := id r; values := set_nth i SNull (values r);
              created_at := created_at r; updated_at := updated_at r |}
      else r
  | _ => r
  end.

(** A child column satisfies its foreign key: null, or a parent key. *)
Definition references (parents : list Z) (v : sqlval) : bool :=
  match v with
  | SNull => true
  | SInt k => existsb (Z.eqb k) parents
  | _ => false
  end.

(** No deleted row other than the one re-inserted is still referenced. *)
Definition unreferenced (refs : list Z) (rowid : Z) (del : list row) : bool :=
  forallb (fun r => (id r =? rowid) || negb (existsb (Z.eqb (id r)) refs)) del.

End SqlTable.

Module Local.
Import SqlTable.

Definition plain (n : string) : column :=
  {| name := n; not_null := false; default := None; unique := false;
     check := fun _ => true |}.

Definition required (n : string) : column :=
  {| name := n; not_null := true; default := None; unique := false;
     check := fun _ => true |}.

Definition required_default (n : string) (d : sqlval) : column :=
  {| name := n; not_null := true; default := Some d; unique := false;
     check := fun _ => true |}.

Definition unique_key (n : string) (nn : bool) : column :=
  {| name := n; not_null := nn; default := None; unique := true;
     check := fun _ => true |}.

Definition products_columns : list column :=
  [ required "name"; unique_key "sku" true; unique_key "barcode" false;
    plain "category_id"; required "price";
    required_default "cost" (SInt 0);
    required_default "stock_quantity" (SInt 0);
    plain "min_stock_level"; plain "description"; plain "image_url";
    plain "is_active"; plain "store_id" ].

Definition categories_columns : list column :=
  [ unique_key "name" true; plain "description"; plain "store_id" ].

Definition role_check (v : sqlval) : bool :=
  match v with
  | SNull => true
  | SText s => String.eqb s "admin" || String.eqb s "cashier"
               || String.eqb s "manager"
  | _ => false
  end.

Definition users_columns : list column :=
  [ unique_key "username" true; required "password_hash";
    required "full_name";
    {| name := "role"; not_null := true; default := None; unique := false;
       check := role_check |};
    plain "is_active"; plain "store_id" ].

(** Positions of the foreign-key columns in the lists above. *)
Definition product_category_id : nat := 3.
Definition product_store_id : nat := 11.
Definition category_store_id : nat := 2.
Definition user_store_id : nat := 5.

(** The entity tables that replay writes, and the keys other tables hold on
    them: [stores.id], [sale_items.product_id], and the [user_id] of [sales]
    and [audit_logs]. Foreign keys are enforced ([foreign_keys = ON]). *)
Record store : Type := {
  products : SqlTable.t;
  categories : SqlTable.t;
  users : SqlTable.t;
  stores : list Z;
  sale_items_product_id : list Z;
  user_refs : list Z
}.

Definition with_products (tb : SqlTable.t) (st : store) : store :=
  {| products := tb; categories := categories st; users := users st;
     stores := stores st;
     sale_items_product_id := sale_items_product_id st;
     user_refs := user_refs st |}.

Definition with_categories (tb prods : SqlTable.t) (st : store) : store :=
  {| products := prods; categories := tb; users := users st;
     stores := stores st;
     sale_items_product_id := sale_items_product_id st;
     user_refs := user_refs st |}.

Definition with_users (tb : SqlTable.t) (st : store) : store :=
  {| products := products st; categories := categories st; users := tb;
     stores := stores st;
     sale_items_product_id := sale_items_product_id st;
     user_refs := user_refs st |}.

Definition guard (b : bool) : result unit :=
  if b then Ok tt else Throw SqliteError.

(** [applyProductChange] *)
Definition applyProductChange (now : Z) (change : Relay.sync_change)
    (st : store) : result store :=
  data <- JSON_parse (Relay.data change) ;;
  let action := Relay.action change in
  if is_text action "create" || is_text action "update" then
    idv <- (v <- prop data "id" ;; bind_param v) ;;
    vals <- params data (map name products_columns) ;;
    r <- insert_or_replace products_columns now idv vals (products st) ;;
    _ <- guard (references (ids (categories st))
                  (col product_category_id (new_row r))) ;;
    _ <- guard (references (stores st) (col product_store_id (new_row r))) ;;
    _ <- guard (unreferenced (sale_items_product_id st) (id (new_row r))
                  (deleted r)) ;;
    Ok (with_products (table r) st)
  else if is_text action "delete" then
    idv <- (v <- prop data "id" ;; bind_param v) ;;
    let '(del, tb) := delete_by_id idv (products st) in
    _ <- guard (forallb (fun r => negb (existsb (Z.eqb (id r))
                                          (sale_items_product_id st))) del) ;;
    Ok (with_products tb st)
  else Ok st.

(** [applyCategoryChange]; deleting a category row, also as part of a
    REPLACE, clears [products.category_id] ([ON DELETE SET NULL]). *)
Definition applyCategoryChange (now : Z) (change : Relay.sync_change)
    (st : store) : result store :=
  data <- JSON_parse (Relay.data change) ;;
  let action := Relay.action change in
  if is_text action "create" || is_text action "update" then
    idv <- (v <- prop data "id" ;; bind_param v) ;;
    vals <- params data (map name categories_columns) ;;
    r <- insert_or_replace categories_columns now idv vals (categories st) ;;
    _ <- guard (references (stores st) (col category_store_id (new_row r))) ;;
    let prods :=
      {| rows := map (set_null product_category_id (map id (deleted r)))
                     (rows (products st));
         seq := seq (products st) |} in
    Ok (with_categories (table r) prods st)
  else if is_text action "delete" then
    idv <- (v <- prop data "id" ;; bind_param v) ;;
    let '(del, tb) := delete_by_id idv (categories st) in
    let prods :=
      {| rows := map (set_null product_category_id (map id del))
                     (rows (products st));
         seq := seq (products st) |} in
    Ok (with_categories tb prods st)
  else Ok st.

(** [applyUserChange] *)
Definition applyUserChange (now : Z) (change : Relay.sync_change)
    (st : store) : result store :=
  data <- JSON_parse (Relay.data change) ;;
  let action := Relay.action change in
  if is_text action "create" || is_text action "update" then
    idv <- (v <- prop data "id" ;; bind_param v) ;;
    vals <- params data (map name users_columns) ;;
    r <- insert_or_replace users_columns now idv vals (users st) ;;
    _ <- guard (references (stores st) (col user_store_id (new_row r))) ;;
    _ <- guard (unreferenced (user_refs st) (id (new_row r)) (deleted r)) ;;
    Ok (with_users (table r) st)
  else if is_text action "delete" then
    idv <- (v <- prop data "id" ;; bind_param v) ;;
    let '(del, tb) := delete_by_id idv (users st) in
    _ <- guard (forallb (fun r => negb (existsb (Z.eqb (id r))
                                          (user_refs st))) del) ;;
    Ok (with_users tb st)
  else Ok st.

(** The [switch (change.entity_type)] of [applyRemoteChanges]: [None] when
    no case matches. *)
Definition apply_change (now : Z) (change : Relay.sync_change) (st : store)
    : option (result store) :=
  let entity_type := Relay.entity_type change in
  if is_text entity_type "product" then
    Some (applyProductChange now change st)
  else if is_text entity_type "category" then
    Some (applyCategoryChange now change st)
  else if is_text entity_type "user" then
    Some (applyUserChange now change st)
  else None.

End Local.

(** ** The terminal: electron/services/SyncService.ts *)

Inductive action_t : Type := create | update | delete.

Definition action_name (a : action_t) : string :=
  match a with
  | create => "create"
  | update => "update"
  | delete => "delete"
  end.

Definition opt_num (o : option Z) : json :=
  match o with
  | Some n => JNum n
  | None => JNull
  end.

(** Rows of [sync_outbox]; [data] is the value whose JSON text the column
    holds. *)
Module Outbox.

Record row : Type := {
  id : Z;
  entity_type : string;
  entity_id : Z;
  action : action_t;
  data : json;
  store_id : Z;
  terminal_id : option Z;
  synced : bool;
  sync_attempts : Z;
  last_sync_attempt : option Z;
  created_at : Z
}.

(** The row as [JSON.stringify] sends it. *)
Definition to_json (r : row) : json :=
  JObj [ ("id", JNum (id r));
         ("entity_type", JStr (entity_type r));
         ("entity_id", JNum (entity_id r));
         ("action", JStr (action_name (action r)));
         ("data", JSer (data r));
         ("store_id", JNum (store_id r));
         ("terminal_id", opt_num (terminal_id r));
         ("synced", JNum (if synced r then 1 else 0));
         ("sync_attempts", JNum (sync_attempts r));
         ("last_sync_attempt", opt_num (last_sync_attempt r));
         ("created_at", JNum (created_at r)) ].

(** [SET synced = 1] *)
Definition mark_synced (r : row) : row :=
  {| id := id r; entity_type := entity_type r; entity_id := entity_id r;
     action := action r; data := data r; store_id := store_id r;
     terminal_id := terminal_id r; synced := true;
     sync_attempts := sync_attempts r;
     last_sync_attempt := last_sync_attempt r;
     created_at := created_at r |}.

(** [SET sync_attempts = sync_attempts + 1, last_sync_attempt = datetime('now')] *)
Definition mark_attempt (now : Z) (r : row) : row :=
  {| id := id r; entity_type := entity_type r; entity_id := entity_id r;
     action := action r; data := data r; store_id := store_id r;
     terminal_id := terminal_id r; synced := synced r;
     sync_attempts := sync_attempts r + 1;
     last_sync_attempt := Some now;
     created_at := created_at r |}.

(** [UPDATE sync_outbox SET ... WHERE id IN (ids)] *)
Definition update_in (ids : list Z) (f : row -> row) (rows : list row)
    : list row :=
  map (fun r => if existsb (Z.eqb (id r)) ids then f r else r) rows.

End Outbox.

(** Rows of [sync_state]. *)
Module SyncState.

Record row : Type := {
  id : Z;
  terminal_id : Z;
  last_pull_at : option Z;
  last_push_at : option Z;
  last_sync_version : Z
}.

(** [WHERE terminal_id = ?]; a null parameter matches no row. *)
Definition of_terminal (terminalId : option Z) (r : row) : bool :=
  match terminalId with
  | Some t => terminal_id r =? t
  | None => false
  end.

Definition pushed (now : Z) (r : row) : row :=
  {| id := id r; terminal_id := terminal_id r;
     last_pull_at := last_pull_at r; last_push_at := Some now;
     last_sync_version := last_sync_version r |}.

Definition pulled (now latest : Z) (r : row) : row :=
  {| id := id r; terminal_id := terminal_id r;
     last_pull_at := Some now; last_push_at := last_push_at r;
     last_sync_version := latest |}.

Definition update_where (terminalId : option Z) (f : row -> row)
    (rows : list row) : list row :=
  map (fun r => if of_terminal terminalId r then f r else r) rows.

End SyncState.

(** A row of [terminals], as far as sync touches it. *)
Record terminal : Type := {
  terminal_rowid : Z;
  last_sync_at : option Z
}.

(** What [await fetch(...)] gives: a rejected promise, or a response. *)
Inductive fetched (A : Type) : Type :=
| Rejected
| Responded (status : Z) (body : A).
Arguments Rejected {A}.
Arguments Responded {A} status body.

(** [response.ok] *)
Definition ok (status : Z) : bool := (200 <=? status) && (status <=? 299).

(** [{ changes?: any[]; latest_version?: number }], the rows being those of
    the relay's [SELECT * FROM sync_changes]. *)
Record pull_result : Type := {
  changes : option (list Relay.sync_change);
  latest_version : option Z
}.

Inductive log_event : Type :=
| LogNotConfigured
| LogStarting
| LogPushing (n : nat)
| LogApplying (n : nat)
| LogApplyFailed (change_id : Z) (e : exn)
| LogCompleted
| LogSyncFailed (e : exn)
| LogOutboxError.

Module SyncService.

(** The service object together with the tables of its database. *)
Record t : Type := {
  terminalId : option Z;
  storeId : Z;
  serverUrl : string;
  sync_outbox : list Outbox.row;
  sync_outbox_seq : Z;
  sync_state : list SyncState.row;
  terminals : list terminal;
  db : Local.store;
  console : list log_event
}.

Definition log (e : log_event) (c : t) : t :=
  {| terminalId := terminalId c; storeId := storeId c;
     serverUrl := serverUrl c; sync_outbox := sync_outbox c;
     sync_outbox_seq := sync_outbox_seq c; sync_state := sync_state c;
     terminals := terminals c; db := db c;
     console := console c ++ [e] |}.

Definition with_outbox (rows : list Outbox.row) (seq : Z) (c : t) : t :=
  {| terminalId := terminalId c; storeId := storeId c;
     serverUrl := serverUrl c; sync_outbox := rows;
     sync_outbox_seq := seq; sync_state := sync_state c;
     terminals := terminals c; db := db c; console := console c |}.

Definition with_sync_state (rows : list SyncState.row) (c : t) : t :=
  {| terminalId := terminalId c; storeId := storeId c;
     serverUrl := serverUrl c; sync_outbox := sync_outbox c;
     sync_outbox_seq := sync_outbox_seq c; sync_state := rows;
     terminals := terminals c; db := db c; console := console c |}.

Definition with_terminals (rows : list terminal) (c : t) : t :=
  {| terminalId := terminalId c; storeId := storeId c;
     serverUrl := serverUrl c; sync_outbox := sync_outbox c;
     sync_outbox_seq := sync_outbox_seq c; sync_state := sync_state c;
     terminals := rows; db := db c; console := console c |}.

Definition with_db (st : Local.store) (c : t) : t :=
  {| terminalId := terminalId c; storeId := storeId c;
     serverUrl := serverUrl c; sync_outbox := sync_outbox c;
     sync_outbox_seq := sync_outbox_seq c; sync_state := sync_state c;
     terminals := terminals c; db := st; console := console c |}.

(** [addToOutbox]: the insert fails, and is only logged, when [store_id] or
    [terminal_id] breaks its foreign key. *)
Definition addToOutbox (now : Z) (entityType : string) (entityId : Z)
    (action : action_t) (data : json) (c : t) : t :=
  if existsb (Z.eqb (storeId c)) (Local.stores (db c))
     && match terminalId c with
        | Some tid => existsb (Z.eqb tid) (map terminal_rowid (terminals c))
        | None => true
        end
  then
    let rowid := sync_outbox_seq c + 1 in
    with_outbox
      (sync_outbox c ++
         [ {| Outbox.id := rowid; Outbox.entity_type := entityType;
              Outbox.entity_id := entityId; Outbox.action := action;
              Outbox.data := data; Outbox.store_id := storeId c;
              Outbox.terminal_id := terminalId c; Outbox.synced := false;
              Outbox.sync_attempts := 0; Outbox.last_sync_attempt := None;
              Outbox.created_at := now |} ])
      rowid c
  else log LogOutboxError c.

(** [SELECT * FROM sync_outbox WHERE synced = 0 ORDER BY created_at ASC
    LIMIT 100] *)
Definition unsyncedItems (c : t) : list Outbox.row :=
  firstn 100
    (order_by Outbox.created_at
       (filter (fun r => negb (Outbox.synced r)) (sync_outbox c))).

(** The body of the push request. *)
Definition push_request (c : t) (items : list Outbox.row) : Relay.push_body :=
  {| Relay.body_terminal_id := Some (opt_num (terminalId c));
     Relay.body_store_id := Some (JNum (storeId c));
     Relay.body_changes := Some (JArr (map Outbox.to_json items)) |}.

(** [applyRemoteChanges]: one transaction, each entry in its own
    [try]/[catch]; a failed statement leaves the tables as they were. *)
Fixpoint applyRemoteChanges (now : Z) (changes : list Relay.sync_change)
    (c : t) : t :=
  match changes with
  | [] => c
  | change :: rest =>
      let c' :=
        match Local.apply_change now change (db c) with
        | None => c
        | Some (Ok st') => with_db st' c
        | Some (Throw e) => log (LogApplyFailed (Relay.id change) e) c
        end in
      applyRemoteChanges now rest c'
  end.

Section Network.
(** The rest of the world, reached through [fetch]. *)
Context {W : Type}.
Variable fetch_push : Relay.push_body -> W -> W * fetched unit.
Variable fetch_pull : Relay.pull_query -> W -> W * fetched (option pull_result).

(** The [catch] of [pushChanges]. *)
Definition push_failed (now : Z) (ids : list Z) (c : t) : t :=
  with_outbox (Outbox.update_in ids (Outbox.mark_attempt now) (sync_outbox c))
              (sync_outbox_seq c) c.

(** [pushChanges] *)
Definition pushChanges (now : Z) (c : t) (w : W) : t * W * result unit :=
  let items := unsyncedItems c in
  match items with
  | [] => (c, w, Ok tt)
  | _ :: _ =>
      let c := log (LogPushing (length items)) c in
      let ids := map Outbox.id items in
      let '(w', response) := fetch_push (push_request c items) w in
      match response with
      | Rejected => (push_failed now ids c, w', Throw NetworkError)
      | Responded status _ =>
          if ok status then
            let c := with_outbox
                       (Outbox.update_in ids Outbox.mark_synced (sync_outbox c))
                       (sync_outbox_seq c) c in
            let c := with_sync_state
                       (SyncState.update_where (terminalId c)
                          (SyncState.pushed now) (sync_state c)) c in
            (c, w', Ok tt)
          else (push_failed now ids c, w', Throw HttpError)
      end
  end.

(** [pullChanges] *)
Definition pullChanges (now : Z) (c : t) (w : W) : t * W * result unit :=
  match find (SyncState.of_terminal (terminalId c)) (sync_state c) with
  | None => (c, w, Throw TypeError)
  | Some syncState =>
      let q := {| Relay.q_terminal_id := terminalId c;
                  Relay.q_since_version :=
                    Some (SyncState.last_sync_version syncState) |} in
      let '(w', response) := fetch_pull q w in
      match response with
      | Rejected => (c, w', Throw NetworkError)
      | Responded status body =>
          if ok status then
            match body with
            | None => (c, w', Throw SyntaxError)
            | Some result =>
                let changes :=
                  match changes result with
                  | Some l => l
                  | None => []
                  end in
                let latest_version :=
                  match latest_version result with
                  | Some v =>
                      if v =? 0
                      then SyncState.last_sync_version syncState
                      else v
                  | None => SyncState.last_sync_version syncState
                  end in
                let c :=
                  match changes with
                  | [] => c
                  | _ :: _ =>
                      applyRemoteChanges now changes
                        (log (LogApplying (length changes)) c)
                  end in
                let c := with_sync_state
                           (SyncState.update_where (terminalId c)
                              (SyncState.pulled now latest_version)
                              (sync_state c)) c in
                (c, w', Ok tt)
            end
          else (c, w', Throw HttpError)
      end
  end.

(** [UPDATE terminals SET last_sync_at = datetime('now') WHERE id = ?] *)
Definition touch_terminal (now : Z) (c : t) : t :=
  with_terminals
    (map (fun r =>
            match terminalId c with
            | Some tid =>
                if terminal_rowid r =? tid
                then {| terminal_rowid := terminal_rowid r;
                        last_sync_at := Some now |}
                else r
            | None => r
            end) (terminals c)) c.

(** [sync] *)
Definition sync (now : Z) (c : t) (w : W) : t * W * result unit :=
  if String.eqb (serverUrl c) "" then (log LogNotConfigured c, w, Ok tt)
  else
    let c := log LogStarting c in
    match pushChanges now c w with
    | (c, w, Throw e) => (log (LogSyncFailed e) c, w, Throw e)
    | (c, w, Ok _) =>
        match pullChanges now c w with
        | (c, w, Throw e) => (log (LogSyncFailed e) c, w, Throw e)
        | (c, w, Ok _) =>
            (log LogCompleted (touch_terminal now c), w, Ok tt)
        end
    end.

(** The outbox ids of the batch that [pushChanges] sends from [c], when
    the relay answers that request with a 2xx response; empty otherwise. *)
Definition acknowledged (c : t) (w : W) : list Z :=
  match unsyncedItems c with
  | [] => []
  | items =>
      match snd (fetch_push (push_request c items) w) with
      | Responded status _ =>
          if ok status then map Outbox.id items else []
      | Rejected => []
      end
  end.

(** States of a terminal reached by enqueueing, pushing, pulling and whole
    sync cycles against any world, with the ids acknowledged so far. *)
Inductive reachable : t -> list Z -> Prop :=
| reach_init c :
    (forall r, In r (sync_outbox c) -> Outbox.synced r = false) ->
    reachable c []
| reach_enqueue c acked now entityType entityId action data :
    reachable c acked ->
    reachable (addToOutbox now entityType entityId action data c) acked
| reach_push c acked now w :
    reachable c acked ->
    reachable (fst (fst (pushChanges now c w))) (acked ++ acknowledged c w)
| reach_pull c acked now w :
    reachable c acked ->
    reachable (fst (fst (pullChanges now c w))) acked
| reach_sync c acked now w :
    reachable c acked ->
    reachable (fst (fst (sync now c w)))
              (acked ++ if String.eqb (serverUrl c) "" then []
                        else acknowledged c w).

End Network.

(** The relay as the world: every request is delivered. *)
Definition push_status (r : Relay.push_response) : Z :=
  match r with
  | Relay.PushOk _ _ => 200
  | Relay.PushInvalid => 400
  | Relay.PushError => 500
  end.

(** [express.json({ limit: '10mb' })]: the largest request body, in bytes,
    that the relay parses. *)
Definition body_limit : Z := 10 * 1024 * 1024.

(** A push request as the relay serves it: the body parser answers 413 to a
    body longer than [body_limit] and the handler is not run; otherwise the
    handler answers. [content_length] gives the length in bytes of the body
    as it was sent, which the embedding, holding the parsed body only, does
    not determine. *)
Definition relay_push (content_length : Relay.push_body -> Z) (now : Z)
    (body : Relay.push_body) (r : Relay.db) : Relay.db * fetched unit :=
  if body_limit <? content_length body then (r, Responded 413 tt)
  else
    let '(r', response) := Relay.push now r body in
    (r', Responded (push_status response) tt).

Definition relay_pull (q : Relay.pull_query) (r : Relay.db)
    : Relay.db * fetched (option pull_result) :=
  match Relay.pull r q with
  | Relay.PullOk rows latest _ =>
      (r, Responded 200 (Some {| changes := Some rows;
                                 latest_version := Some latest |}))
  | Relay.PullInvalid =>
      (r, Responded 400 (Some {| changes := None; latest_version := None |}))
  end.

(** An unreachable relay. *)
Definition offline_push (body : Relay.push_body) (r : Relay.db)
    : Relay.db * fetched unit := (r, Rejected).

Definition offline_pull (q : Relay.pull_query) (r : Relay.db)
    : Relay.db * fetched (option pull_result) := (r, Rejected).

End SyncService.

(** ** Notions used to state the properties *)

(** A push request as the interface describes a malformed one: a required
    field is absent from the body, or [changes] is not a list. *)
Definition missing_field_or_not_list (body : Relay.push_body) : bool :=
  match Relay.body_terminal_id body, Relay.body_store_id body,
        Relay.body_changes body with
  | Some _, Some _, Some (JArr _) => false
  | _, _, _ => true
  end.

(** The column a statement argument ends up in. *)
Definition bound_to (v : option json) (c : sqlval) : Prop :=
  bind_param v = Ok c.

(** Row [r] of the change log was inserted for element [change] of a batch
    pushed with [terminal_id = tid] and [store_id = sid]. *)
Definition inserted_for (sid tid : option json) (change : json)
    (r : Relay.sync_change) : Prop :=
  bound_to sid (Relay.store_id r) /\
  bound_to tid (Relay.terminal_id r) /\
  (exists v, prop change "entity_type" = Ok v /\ bound_to v (Relay.entity_type r)) /\
  (exists v, prop change "entity_id" = Ok v /\ bound_to v (Relay.entity_id r)) /\
  (exists v, prop change "action" = Ok v /\ bound_to v (Relay.action r)) /\
  (exists v, prop change "data" = Ok v /\ bound_to v (Relay.data r)).

(** The versions [from + 1, ..., from + k]. *)
Definition versions_after (from : Z) (k : nat) : list Z :=
  map (fun i => from + Z.of_nat i) (seq 1 k).

(** The rows a pull by [terminalId] above [sinceVersion] is entitled to. *)
Definition pullable (sinceVersion terminalId : Z) (st : Relay.db)
    : list Relay.sync_change :=
  filter (fun r => (sinceVersion <? Relay.version r)
                   && Relay.not_from terminalId r)
         (Relay.sync_changes st).

(** Ascending order on a key. *)
Definition le_by {A : Type} (key : A -> Z) (a b : A) : Prop := key a <= key b.

(** The effect on the entity tables of one iteration of the replay loop: an
    entry that matches no case or whose apply throws leaves them as they were. *)
Definition replay (now : Z) (change : Relay.sync_change) (st : Local.store)
    : Local.store :=
  match Local.apply_change now change st with
  | Some (Ok st') => st'
  | Some (Throw _) => st
  | None => st
  end.



(** The payload key of an entry, when it is an integer. *)
Definition payload_key (change : Relay.sync_change) (n : Z) : Prop :=
  exists data, JSON_parse (Relay.data change) = Ok data /\
               prop data "id" = Ok (Some (JNum n)).



(** No case of the replay switch matches the entry's [entity_type]. *)
Definition unrecognised (change : Relay.sync_change) : Prop :=
  is_text (Relay.entity_type change) "product" = false /\
  is_text (Relay.entity_type change) "category" = false /\
  is_text (Relay.entity_type change) "user" = false.

(** A local mutation handed to [addToOutbox] at some time. *)
Record mutation : Type := {
  at_time : Z;
  m_entity_type : string;
  m_entity_id : Z;
  m_action : action_t;
  m_data : json
}.

Definition enqueue (c : SyncService.t) (m : mutation) : SyncService.t :=
  SyncService.addToOutbox (at_time m) (m_entity_type m) (m_entity_id m)
    (m_action m) (m_data m) c.

Definition enqueue_all (ms : list mutation) (c : SyncService.t) : SyncService.t :=
  fold_left enqueue ms c.

(** The cursor value [pullChanges] writes for a reported [latest_version]. *)
Definition cursor_after (reported : option Z) (previous : Z) : Z :=
  match reported with
  | Some v => if v =? 0 then previous else v
  | None => previous
  end.

(** The relay confirmed the request: a response with a 2xx status. *)
Definition confirmed {A : Type} (response : fetched A) : bool :=
  match response with
  | Responded status _ => ok status
  | Rejected => false
  end.

(** Every outbox row marked synced has its id among [acked]. *)
Definition synced_only_if_acked (c : SyncService.t) (acked : list Z) : Prop :=
  forall r, In r (SyncService.sync_outbox c) ->
            Outbox.synced r = true -> In (Outbox.id r) acked.

(** ** Sample requests and states *)

(** The lengths of the sample requests: each of their entries is shorter
    than 512 bytes when serialised. *)
Definition sample_length (body : Relay.push_body) : Z :=
  match Relay.body_changes body with
  | Some (JArr cs) => 64 + 512 * Z.of_nat (length cs)
  | _ => 64
  end.

Definition two_changes : Relay.push_body :=
  {| Relay.body_terminal_id := Some (JNum 4);
     Relay.body_store_id := Some (JNum 1);
     Relay.body_changes :=
       Some (JArr [ JObj [ ("entity_type", JStr "product");
                           ("entity_id", JNum 1);
                           ("action", JStr "update");
                           ("data", JSer (JObj [("id", JNum 1)])) ];
                    JObj [ ("entity_type", JStr "category");
                           ("entity_id", JNum 2);
                           ("action", JStr "delete");
                           ("data", JSer (JObj [("id", JNum 2)])) ] ]) |}.

Definition zero_terminal_push : Relay.push_body :=
  {| Relay.body_terminal_id := Some (JNum 0);
     Relay.body_store_id := Some (JNum 1);
     Relay.body_changes := Some (JArr []) |}.

Definition empty_push (terminalId storeId : Z) : Relay.push_body :=
  {| Relay.body_terminal_id := Some (JNum terminalId);
     Relay.body_store_id := Some (JNum storeId);
     Relay.body_changes := Some (JArr []) |}.

Definition log_row (rowid : Z) (terminalId : sqlval) (v : Z) : Relay.sync_change :=
  {| Relay.id := rowid; Relay.store_id := SInt 1;
     Relay.terminal_id := terminalId; Relay.entity_type := SText "product";
     Relay.entity_id := SInt 1; Relay.action := SText "delete";
     Relay.data := SSer (JObj [("id", JNum 1)]);
     Relay.version := v; Relay.created_at := 0 |}.

(** A change log stored out of version order, with rows of terminals 4 and 5
    and one row without a terminal. *)
Definition mixed_log : Relay.db :=
  {| Relay.sync_changes :=
       [ log_row 1 (SInt 5) 3; log_row 2 (SInt 4) 1;
         log_row 3 SNull 2; log_row 4 (SInt 4) 4 ];
     Relay.sync_changes_seq := 4;
     Relay.latest_version := 4 |}.

Definition no_rows : SqlTable.t := {| SqlTable.rows := []; SqlTable.seq := 0 |}.

(** A terminal database with the default store and no entities. *)
Definition fresh_store : Local.store :=
  {| Local.products := no_rows; Local.categories := no_rows;
     Local.users := no_rows; Local.stores := [1];
     Local.sale_items_product_id := []; Local.user_refs := [] |}.

Definition tea (key : json) : json :=
  JObj [ ("id", key); ("name", JStr "Tea"); ("sku", JStr "T-1");
         ("barcode", JNull); ("category_id", JNull); ("price", JNum 5);
         ("cost", JNum 3); ("stock_quantity", JNum 10);
         ("min_stock_level", JNum 1); ("description", JNull);
         ("image_url", JNull); ("is_active", JNum 1); ("store_id", JNum 1) ].

Definition entry (rowid : Z) (entityType action : string) (payload : sqlval)
    (v : Z) : Relay.sync_change :=
  {| Relay.id := rowid; Relay.store_id := SInt 1; Relay.terminal_id := SInt 5;
     Relay.entity_type := SText entityType; Relay.entity_id := SInt 1;
     Relay.action := SText action; Relay.data := payload;
     Relay.version := v; Relay.created_at := 0 |}.


Definition update_tea : Relay.sync_change :=
  entry 2 "product" "update" (SSer (tea (JNum 3))) 2.

(** Terminal 5 of store 1, configured for a relay, with an empty outbox and
    its cursor at [cursor]. *)
Definition terminal5 (cursor : Z) : SyncService.t :=
  {| SyncService.terminalId := Some 5;
     SyncService.storeId := 1;
     SyncService.serverUrl := "http://relay:3001";
     SyncService.sync_outbox := [];
     SyncService.sync_outbox_seq := 0;
     SyncService.sync_state :=
       [ {| SyncState.id := 1; SyncState.terminal_id := 5;
            SyncState.last_pull_at := None; SyncState.last_push_at := None;
            SyncState.last_sync_version := cursor |} ];
     SyncService.terminals :=
       [ {| terminal_rowid := 5; last_sync_at := None |} ];
     SyncService.db := fresh_store;
     SyncService.console := [] |}.

Definition sale_entry : Relay.sync_change :=
  entry 9 "sale" "create" (SSer (JObj [("id", JNum 1)])) 9.

Definition garbled_entry : Relay.sync_change :=
  entry 8 "product" "update" (SText "{not json") 8.

Definition price_change (n : nat) : mutation :=
  {| at_time := 100 + Z.of_nat n; m_entity_type := "product";
     m_entity_id := Z.of_nat n; m_action := update;
     m_data := tea (JNum (Z.of_nat n)) |}.

(** [n] mutations, one per second. *)
Definition price_changes (n : nat) : list mutation :=
  map price_change (seq 1 n).

(** ** The relay's dashboard routes: sync-server/src/server.ts *)

Module Dashboard.

(** The three counters of [GET /api/dashboard/stats]. *)
Record stats : Type := {
  total_syncs : Z;
  latest_version : Z;
  syncs_today : Z
}.

(** [DATE(t)] of a timestamp in seconds: its day number. *)
Definition date (t : Z) : Z := t / 86400.

(** [app.get('/api/dashboard/stats', ...)] *)
Definition get_stats (now : Z) (st : Relay.db) : stats :=
  {| total_syncs := Z.of_nat (length (Relay.sync_changes st));
     latest_version := Relay.latest_version st;
     syncs_today :=
       Z.of_nat (length (filter (fun r => date (Relay.created_at r) =? date now)
                                (Relay.sync_changes st))) |}.


End Dashboard.

(** ** Notions used to state further properties of the relay *)

(** The argument binds to a non-null column value. *)
Definition binds_value (v : option json) : bool :=
  match bind_param v with
  | Ok SNull => false
  | Ok _ => true
  | Throw _ => false
  end.

Definition binds (v : option json) : bool :=
  match bind_param v with
  | Ok _ => true
  | Throw _ => false
  end.

(** An element of [changes] that the INSERT of the push loop takes: not
    [null], with [entity_type], [entity_id], [action] and [data] each a number
    or a string. *)
Definition insertable (change : json) : bool :=
  forallb (fun k => match prop change k with
                    | Ok v => binds_value v
                    | Throw _ => false
                    end)
          ["entity_type"; "entity_id"; "action"; "data"].

(** A push body that passes the guard and whose inserts all go through. *)
Definition acceptable (body : Relay.push_body) : bool :=
  truthy (Relay.body_terminal_id body)
  && truthy (Relay.body_store_id body)
  && match Relay.body_changes body with
     | Some (JArr []) => true
     | Some (JArr cs) =>
         binds (Relay.body_terminal_id body)
         && binds (Relay.body_store_id body)
         && forallb insertable cs
     | _ => false
     end.

(** The relay databases that arise from the initial one by push requests. *)
Inductive relay_reachable : Relay.db -> Prop :=
| relay_initial : relay_reachable Relay.empty
| relay_pushed now st body :
    relay_reachable st -> relay_reachable (fst (Relay.push now st body)).

(** The change log is numbered: the i-th row has rowid and version i, and
    [latest_version] and the AUTOINCREMENT counter are the number of rows. *)
Definition numbered (st : Relay.db) : Prop :=
  map Relay.version (Relay.sync_changes st)
  = versions_after 0 (length (Relay.sync_changes st)) /\
  map Relay.id (Relay.sync_changes st)
  = versions_after 0 (length (Relay.sync_changes st)) /\
  Relay.latest_version st = Z.of_nat (length (Relay.sync_changes st)) /\
  Relay.sync_changes_seq st = Z.of_nat (length (Relay.sync_changes st)).

(** No argument of the push loop's [insertStmt.run] is an array: neither
    [store_id] nor [terminal_id], nor the [entity_type], [entity_id], [action]
    or [data] of an element of [changes]. *)
Definition is_array (v : option json) : bool :=
  match v with
  | Some (JArr _) => true
  | _ => false
  end.

Definition scalar_arguments (change : json) : bool :=
  forallb (fun k => match prop change k with
                    | Ok v => negb (is_array v)
                    | Throw _ => true
                    end)
          ["entity_type"; "entity_id"; "action"; "data"].

Definition spread_free (body : Relay.push_body) : bool :=
  negb (is_array (Relay.body_store_id body))
  && negb (is_array (Relay.body_terminal_id body))
  && match Relay.body_changes body with
     | Some (JArr cs) => forallb scalar_arguments cs
     | _ => true
     end.



(** ** Notions used to state further properties of the sync client *)

(** Two states of one outbox row: the columns that only [addToOutbox] writes
    agree. *)
Definition same_entry (r r' : Outbox.row) : Prop :=
  Outbox.id r' = Outbox.id r /\
  Outbox.entity_type r' = Outbox.entity_type r /\
  Outbox.entity_id r' = Outbox.entity_id r /\
  Outbox.action r' = Outbox.action r /\
  Outbox.data r' = Outbox.data r /\
  Outbox.store_id r' = Outbox.store_id r /\
  Outbox.terminal_id r' = Outbox.terminal_id r /\
  Outbox.created_at r' = Outbox.created_at r.

(** The later state of a row: same entry, still synced if it was, and not
    fewer attempts. *)
Definition advanced (r r' : Outbox.row) : Prop :=
  same_entry r r' /\
  (Outbox.synced r = true -> Outbox.synced r' = true) /\
  Outbox.sync_attempts r <= Outbox.sync_attempts r'.

(** The rows of the outbox that are not yet synced, in table order. *)
Definition pending (c : SyncService.t) : list Outbox.row :=
  filter (fun r => negb (Outbox.synced r)) (SyncService.sync_outbox c).

(** The primary key of the outbox: rowids are distinct and none exceeds the
    AUTOINCREMENT counter. *)
Definition outbox_keyed (c : SyncService.t) : Prop :=
  NoDup (map Outbox.id (SyncService.sync_outbox c)) /\
  forall r, In r (SyncService.sync_outbox c) ->
            Outbox.id r <= SyncService.sync_outbox_seq c.

(** Row [r] of the change log carries outbox entry [e] as pushed by terminal
    [t] of store [s]. *)
Definition carries (t s : Z) (e : Outbox.row) (r : Relay.sync_change) : Prop :=
  Relay.entity_type r = SText (Outbox.entity_type e) /\
  Relay.entity_id r = SInt (Outbox.entity_id e) /\
  Relay.action r = SText (action_name (Outbox.action e)) /\
  Relay.data r = SSer (Outbox.data e) /\
  Relay.terminal_id r = SInt t /\
  Relay.store_id r = SInt s.

(** The row of [terminals] that belongs to the service. *)
Definition own_terminal (terminalId : option Z) (r : terminal) : bool :=
  match terminalId with
  | Some t => terminal_rowid r =? t
  | None => false
  end.

(** Between [rows] and [rows'] the terminal's own row got [last_sync_at = now]
    and nothing else changed. *)
Definition stamped (now : Z) (terminalId : option Z) (rows rows' : list terminal)
    : Prop :=
  Forall2 (fun r r' =>
             terminal_rowid r' = terminal_rowid r /\
             last_sync_at r'
             = if own_terminal terminalId r then Some now else last_sync_at r)
          rows rows'.

(** ** The terminal: electron/services/ProductService.ts, deletions *)

Module ProductService.

(** [{ success: boolean; message: string }] *)
Record reply : Type := {
  success : bool;
  message : string
}.

(** [DELETE FROM products WHERE id = ?], under the foreign key of
    [sale_items.product_id]. *)
Definition delete_product (key : Z) (st : Local.store) : result Local.store :=
  let '(del, tb) := SqlTable.delete_by_id (SInt key) (Local.products st) in
  _ <- Local.guard
         (forallb (fun r => negb (existsb (Z.eqb (SqlTable.id r))
                                    (Local.sale_items_product_id st))) del) ;;
  Ok (Local.with_products tb st).

(** [deleteProduct] *)
Definition deleteProduct (key : Z) (st : Local.store) : Local.store * reply :=
  let salesCount :=
    Z.of_nat (length (filter (fun k => k =? key)
                             (Local.sale_items_product_id st))) in
  if 0 <? salesCount then
    (st, {| success := false;
            message := "Cannot delete product with existing sales records" |})
  else
    match delete_product key st with
    | Ok st' => (st', {| success := true;
                         message := "Product deleted successfully" |})
    | Throw _ =>
        (st, {| success := false;
                message := "An error occurred while deleting product" |})
    end.

(** [DELETE FROM categories WHERE id = ?]; [products.category_id] is
    [ON DELETE SET NULL]. *)
Definition delete_category (key : Z) (st : Local.store) : result Local.store :=
  let '(del, tb) := SqlTable.delete_by_id (SInt key) (Local.categories st) in
  let prods :=
    {| SqlTable.rows :=
         map (SqlTable.set_null Local.product_category_id
                (map SqlTable.id del))
             (SqlTable.rows (Local.products st));
       SqlTable.seq := SqlTable.seq (Local.products st) |} in
  Ok (Local.with_categories tb prods st).

(** [deleteCategory] *)
Definition deleteCategory (key : Z) (st : Local.store) : Local.store * reply :=
  let productCount :=
    Z.of_nat (length (filter
                        (fun p => sqlval_eqb
                                    (SqlTable.col Local.product_category_id p)
                                    (SInt key))
                        (SqlTable.rows (Local.products st)))) in
  if 0 <? productCount then
    (st, {| success := false;
            message := "Cannot delete category with existing products" |})
  else
    match delete_category key st with
    | Ok st' => (st', {| success := true;
                         message := "Category deleted successfully" |})
    | Throw _ =>
        (st, {| success := false;
                message := "An error occurred while deleting category" |})
    end.

End ProductService.

(** ** Notions used to state further properties of replay *)

(** The foreign keys of the entity tables hold: products reference existing
    categories and stores, categories and users existing stores, and the
    keys that sale items, sales and audit logs hold exist. *)
Definition integrity (st : Local.store) : Prop :=
  (forall p, In p (SqlTable.rows (Local.products st)) ->
     SqlTable.references (SqlTable.ids (Local.categories st))
       (SqlTable.col Local.product_category_id p) = true /\
     SqlTable.references (Local.stores st)
       (SqlTable.col Local.product_store_id p) = true) /\
  (forall c, In c (SqlTable.rows (Local.categories st)) ->
     SqlTable.references (Local.stores st)
       (SqlTable.col Local.category_store_id c) = true) /\
  (forall u, In u (SqlTable.rows (Local.users st)) ->
     SqlTable.references (Local.stores st)
       (SqlTable.col Local.user_store_id u) = true) /\
  (forall k, In k (Local.sale_items_product_id st) ->
     In k (SqlTable.ids (Local.products st))) /\
  (forall k, In k (Local.user_refs st) ->
     In k (SqlTable.ids (Local.users st))).

(** The primary key of a table: rowids are distinct. *)
Definition keyed (tb : SqlTable.t) : Prop := NoDup (SqlTable.ids tb).

(** Two states of a product row that differ at most in [category_id], which
    is kept or cleared. *)
Definition same_but_category (p p' : SqlTable.row) : Prop :=
  SqlTable.id p' = SqlTable.id p /\
  SqlTable.created_at p' = SqlTable.created_at p /\
  SqlTable.updated_at p' = SqlTable.updated_at p /\
  (forall j, j <> Local.product_category_id ->
             SqlTable.col j p' = SqlTable.col j p) /\
  (SqlTable.col Local.product_category_id p'
   = SqlTable.col Local.product_category_id p \/
   SqlTable.col Local.product_category_id p' = SNull).

(** A replay entry that deletes the entity with key [key]. *)
Definition delete_entry (entityType : string) (key : Z) : Relay.sync_change :=
  {| Relay.id := 1; Relay.store_id := SInt 1; Relay.terminal_id := SInt 5;
     Relay.entity_type := SText entityType; Relay.entity_id := SInt key;
     Relay.action := SText "delete";
     Relay.data := SSer (JObj [("id", JNum key)]);
     Relay.version := 1; Relay.created_at := 0 |}.

(** ** The terminal: SyncService.initialize *)

(** An entry of [os.networkInterfaces()[name]]. *)
Record iface : Type := {
  family : string;
  internal : bool;
  address : string
}.

(** The inner loop of [getLocalIP]. *)
Fixpoint first_external (l : list iface) : option string :=
  match l with
  | [] => None
  | i :: rest =>
      if String.eqb (family i) "IPv4" && negb (internal i)
      then Some (address i)
      else first_external rest
  end.

(** [getLocalIP], over [os.networkInterfaces()] in key order. *)
Fixpoint getLocalIP (interfaces : list (string * list iface)) : string :=
  match interfaces with
  | [] => "127.0.0.1"
  | (_, l) :: rest =>
      match first_external l with
      | Some a => a
      | None => getLocalIP rest
      end
  end.

Module Installation.

(** The columns of a [terminals] row that [initialize] writes and reads;
    the row itself, with [last_sync_at], is in [SyncService.terminals] under
    the same rowid. *)
Record identity : Type := {
  rowid : Z;
  terminal_code : string;
  store_id : Z;
  device_name : string;
  ip_address : string
}.

(** The service with the rest of what [initialize] touches: the AUTOINCREMENT
    counters of [terminals] and [sync_state], and the lines
    [Terminal initialized: code (ID: id)] it prints. *)
Record t : Type := {
  service : SyncService.t;
  identities : list identity;
  terminals_seq : Z;
  sync_state_seq : Z;
  announced : list (string * option Z)
}.

Definition max_id (ids : list Z) : Z := fold_right Z.max 0 ids.

(** [this.serverUrl = serverUrl] *)
Definition set_serverUrl (u : string) (c : SyncService.t) : SyncService.t :=
  {| SyncService.terminalId := SyncService.terminalId c;
     SyncService.storeId := SyncService.storeId c;
     SyncService.serverUrl := u;
     SyncService.sync_outbox := SyncService.sync_outbox c;
     SyncService.sync_outbox_seq := SyncService.sync_outbox_seq c;
     SyncService.sync_state := SyncService.sync_state c;
     SyncService.terminals := SyncService.terminals c;
     SyncService.db := SyncService.db c;
     SyncService.console := SyncService.console c |}.

(** [this.terminalId = id; this.storeId = store] *)
Definition set_terminal (id : Z) (store : Z) (c : SyncService.t)
    : SyncService.t :=
  {| SyncService.terminalId := Some id;
     SyncService.storeId := store;
     SyncService.serverUrl := SyncService.serverUrl c;
     SyncService.sync_outbox := SyncService.sync_outbox c;
     SyncService.sync_outbox_seq := SyncService.sync_outbox_seq c;
     SyncService.sync_state := SyncService.sync_state c;
     SyncService.terminals := SyncService.terminals c;
     SyncService.db := SyncService.db c;
     SyncService.console := SyncService.console c |}.

(** [initialize]; [hostname] is [os.hostname()] and [interfaces] is
    [os.networkInterfaces()]. The INSERT into [terminals] fails when the
    service's store does not exist. *)
Definition initialize (serverUrl : option string) (hostname : string)
    (interfaces : list (string * list iface)) (i : t) : t * result unit :=
  let c :=
    match serverUrl with
    | Some u => if String.eqb u "" then service i else set_serverUrl u (service i)
    | None => service i
    end in
  let terminalCode := ("TERM-" ++ hostname)%string in
  match find (fun e => String.eqb (terminal_code e) terminalCode)
             (identities i) with
  | None =>
      if existsb (Z.eqb (SyncService.storeId c))
                 (Local.stores (SyncService.db c))
      then
        let id := Z.max (terminals_seq i)
                        (max_id (map rowid (identities i))) + 1 in
        let state_id :=
          Z.max (sync_state_seq i)
                (max_id (map SyncState.id (SyncService.sync_state c))) + 1 in
        let c :=
          SyncService.with_terminals
            (SyncService.terminals c
             ++ [ {| terminal_rowid := id; last_sync_at := None |} ]) c in
        let c := set_terminal id (SyncService.storeId c) c in
        let c :=
          SyncService.with_sync_state
            (SyncService.sync_state c
             ++ [ {| SyncState.id := state_id; SyncState.terminal_id := id;
                     SyncState.last_pull_at := None;
                     SyncState.last_push_at := None;
                     SyncState.last_sync_version := 0 |} ]) c in
        ({| service := c;
            identities :=
              identities i
              ++ [ {| rowid := id; terminal_code := terminalCode;
                      store_id := SyncService.storeId c;
                      device_name := hostname;
                      ip_address := getLocalIP interfaces |} ];
            terminals_seq := id;
            sync_state_seq := state_id;
            announced := announced i ++ [ (terminalCode, Some id) ] |},
         Ok tt)
      else
        ({| service := c; identities := identities i;
            terminals_seq := terminals_seq i;
            sync_state_seq := sync_state_seq i;
            announced := announced i |},
         Throw SqliteError)
  | Some terminal =>
      ({| service := set_terminal (rowid terminal) (store_id terminal) c;
          identities := identities i;
          terminals_seq := terminals_seq i;
          sync_state_seq := sync_state_seq i;
          announced := announced i ++ [ (terminalCode, Some (rowid terminal)) ] |},
       Ok tt)
  end.

(** [getTerminalInfo] *)
Definition getTerminalInfo (i : t) : option Z * Z :=
  (SyncService.terminalId (service i), SyncService.storeId (service i)).

End Installation.

(** The two halves of the [terminals] table list the same rows, and every
    cursor row belongs to a terminal ([sync_state.terminal_id] is a foreign
    key). *)
Definition registered (i : Installation.t) : Prop :=
  map Installation.rowid (Installation.identities i)
  = map terminal_rowid (SyncService.terminals (Installation.service i)) /\
  forall r, In r (SyncService.sync_state (Installation.service i)) ->
            In (SyncState.terminal_id r)
               (map Installation.rowid (Installation.identities i)).

(** No terminal is registered under the code of [hostname]. *)
Definition unknown_host (hostname : string) (i : Installation.t) : Prop :=
  forall e, In e (Installation.identities i) ->
            Installation.terminal_code e <> ("TERM-" ++ hostname)%string.

(** The test of the inner loop of [getLocalIP]: an IPv4 address that is not
    internal. *)
Definition external (i : iface) : bool :=
  String.eqb (family i) "IPv4" && negb (internal i).

(** ** Further sample data *)



(** A numbered change log of 1001 rows, all of terminal 4. *)
Definition long_log : Relay.db :=
  {| Relay.sync_changes :=
       map (fun i => log_row (Z.of_nat i) (SInt 4) (Z.of_nat i)) (seq 1 1001);
     Relay.sync_changes_seq := 1001;
     Relay.latest_version := 1001 |}.

(** Terminal 5 with three mutations waiting in its outbox. *)
Definition terminal5_busy : SyncService.t :=
  enqueue_all (price_changes 3) (terminal5 0).

(** A terminal database with store 1, category 1 holding product 1, which
    was sold once, and user 1, who made a sale. *)
Definition shop : Local.store :=
  {| Local.products :=
       {| SqlTable.rows :=
            [ {| SqlTable.id := 1;
                 SqlTable.values :=
                   [ SText "Tea"; SText "T-1"; SNull; SInt 1; SInt 5; SInt 3;
                     SInt 10; SInt 1; SNull; SNull; SInt 1; SInt 1 ];
                 SqlTable.created_at := 0; SqlTable.updated_at := 0 |} ];
          SqlTable.seq := 1 |};
     Local.categories :=
       {| SqlTable.rows :=
            [ {| SqlTable.id := 1;
                 SqlTable.values := [ SText "Drinks"; SNull; SInt 1 ];
                 SqlTable.created_at := 0; SqlTable.updated_at := 0 |} ];
          SqlTable.seq := 1 |};
     Local.users :=
       {| SqlTable.rows :=
            [ {| SqlTable.id := 1;
                 SqlTable.values :=
                   [ SText "ann"; SText "hash"; SText "Ann"; SText "cashier";
                     SInt 1; SInt 1 ];
                 SqlTable.created_at := 0; SqlTable.updated_at := 0 |} ];
          SqlTable.seq := 1 |};
     Local.stores := [1];
     Local.sale_items_product_id := [1];
     Local.user_refs := [1] |}.

(** The shop before anything was sold. *)
Definition new_shop : Local.store :=
  {| Local.products := Local.products shop;
     Local.categories := Local.categories shop;
     Local.users := Local.users shop;
     Local.stores := [1];
     Local.sale_items_product_id := [];
     Local.user_refs := [] |}.

(** A rename of category 1. *)
Definition rename_drinks : Relay.sync_change :=
  entry 3 "category" "update"
    (SSer (JObj [ ("id", JNum 1); ("name", JStr "Beverages");
                  ("description", JNull); ("store_id", JNum 1) ])) 3.

(** An entry for a product with an action that replay does not know. *)
Definition archive_tea : Relay.sync_change :=
  entry 4 "product" "archive" (SSer (tea (JNum 3))) 4.

(** A terminal database straight after the migrations: the default store,
    no terminal, and a service that has not been initialised. *)
Definition fresh_install : Installation.t :=
  {| Installation.service :=
       {| SyncService.terminalId := None;
          SyncService.storeId := 1;
          SyncService.serverUrl := "";
          SyncService.sync_outbox := [];
          SyncService.sync_outbox_seq := 0;
          SyncService.sync_state := [];
          SyncService.terminals := [];
          SyncService.db := fresh_store;
          SyncService.console := [] |};
     Installation.identities := [];
     Installation.terminals_seq := 0;
     Installation.sync_state_seq := 0;
     Installation.announced := [] |}.

(** A terminal row for host [till] of store 1 that has no cursor row. *)
Definition half_registered : Installation.t :=
  {| Installation.service :=
       {| SyncService.terminalId := None;
          SyncService.storeId := 1;
          SyncService.serverUrl := "";
          SyncService.sync_outbox := [];
          SyncService.sync_outbox_seq := 0;
          SyncService.sync_state := [];
          SyncService.terminals :=
            [ {| terminal_rowid := 1; last_sync_at := None |} ];
          SyncService.db := fresh_store;
          SyncService.console := [] |};
     Installation.identities :=
       [ {| Installation.rowid := 1;
            Installation.terminal_code := "TERM-till";
            Installation.store_id := 1;
            Installation.device_name := "till";
            Installation.ip_address := "127.0.0.1" |} ];
     Installation.terminals_seq := 1;
     Installation.sync_state_seq := 0;
     Installation.announced := [] |}.

(** Two fresh installations, on hosts [tillA] and [tillB], configured for
    the same relay; the first has three mutations waiting in its outbox. *)
Definition till_A : SyncService.t :=
  enqueue_all (price_changes 3)
    (Installation.service
       (fst (Installation.initialize (Some "http://relay:3001") "tillA" []
               fresh_install))).

Definition till_B : SyncService.t :=
  Installation.service
    (fst (Installation.initialize (Some "http://relay:3001") "tillB" []
            fresh_install)).

(** A loopback interface and a wired one with two addresses. *)
Definition two_interfaces : list (string * list iface) :=
  [ ("lo", [ {| family := "IPv4"; internal := true; address := "127.0.0.1" |} ]);
    ("eth0", [ {| family := "IPv6"; internal := false; address := "fe80::1" |};
               {| family := "IPv4"; internal := false;
                  address := "192.168.1.20" |} ]) ].

(** * Properties *)

(** ** Ordering *)

Section OrderByFacts.
Context {A : Type} (key : A -> Z).

Lemma insert_by_perm (x : A) (l : list A) :
  Permutation (insert_by key x l) (x :: l).
Proof.
  induction l as [|y l IH]; cbn [insert_by].
  - apply Permutation_refl.
  - destruct (key x <=? key y).
    + apply Permutation_refl.
    + apply perm_trans with (y :: x :: l).
      * now apply perm_skip.
      * apply perm_swap.
Qed.

Lemma order_by_perm (l : list A) : Permutation (order_by key l) l.
Proof.
  induction l as [|x l IH]; simpl.
  - apply perm_nil.
  - apply perm_trans with (x :: order_by key l).
    + apply insert_by_perm.
    + now apply perm_skip.
Qed.

Lemma order_by_length (l : list A) : length (order_by key l) = length l.
Proof. apply Permutation_length, order_by_perm. Qed.

Lemma order_by_In (l : list A) (x : A) : In x (order_by key l) <-> In x l.
Proof.
  split; apply Permutation_in.
  - apply order_by_perm.
  - apply Permutation_sym, order_by_perm.
Qed.

Lemma insert_by_sorted (x : A) (l : list A) :
  StronglySorted (le_by key) l -> StronglySorted (le_by key) (insert_by key x l).
Proof.
  induction 1 as [|y l Hs IH Hall]; cbn [insert_by].
  - constructor; constructor.
  - destruct (key x <=? key y) eqn:E.
    + apply Z.leb_le in E.
      constructor.
      * now constructor.
      * constructor; [unfold le_by; lia|].
        eapply Forall_impl; [|exact Hall].
        unfold le_by; intros; lia.
    + apply Z.leb_gt in E.
      constructor; [exact IH|].
      eapply Permutation_Forall.
      * apply Permutation_sym, insert_by_perm.
      * constructor; [unfold le_by; lia | exact Hall].
Qed.

Lemma order_by_sorted (l : list A) : StronglySorted (le_by key) (order_by key l).
Proof.
  induction l; simpl.
  - constructor.
  - now apply insert_by_sorted.
Qed.

Lemma sorted_firstn (n : nat) (l : list A) :
  StronglySorted (le_by key) l -> StronglySorted (le_by key) (firstn n l).
Proof.
  revert l; induction n as [|n IH]; intros l Hs; simpl.
  - constructor.
  - destruct Hs as [|y l Hs Hall]; [constructor|].
    constructor; [now apply IH|].
    rewrite Forall_forall in *.
    intros z Hz; apply Hall.
    rewrite <- (firstn_skipn n l); apply in_or_app; now left.
Qed.

Lemma sorted_firstn_skipn (n : nat) (l : list A) :
  StronglySorted (le_by key) l ->
  forall a b, In a (firstn n l) -> In b (skipn n l) -> key a <= key b.
Proof.
  revert l; induction n as [|n IH]; intros l Hs a b Ha Hb; simpl in *.
  - contradiction.
  - destruct Hs as [|y l Hs Hall]; simpl in *; [contradiction|].
    destruct Ha as [->|Ha].
    + rewrite Forall_forall in Hall.
      apply Hall.
      rewrite <- (firstn_skipn n l); apply in_or_app; now right.
    + now apply (IH l).
Qed.
End OrderByFacts.

(** ** The relay *)

Lemma bind_ok {A B : Type} (c : result A) (k : A -> result B) (b : B) :
  bind c k = Ok b -> exists a, c = Ok a /\ k a = Ok b.
Proof. destruct c as [a|e]; simpl; [eauto | discriminate]. Qed.

Ltac bind_inv H :=
  let a := fresh "a" in
  let E := fresh "E" in
  apply bind_ok in H; destruct H as (a & E & H).

Lemma require_value_ok (v c : sqlval) : require_value v = Ok c -> c = v.
Proof. destruct v; simpl; congruence. Qed.

Lemma insert_change_ok now sid tid change v st st' :
  Relay.insert_change now sid tid change v st = Ok st' ->
  exists r,
    Relay.sync_changes st' = Relay.sync_changes st ++ [r] /\
    Relay.version r = v /\
    Relay.latest_version st' = Relay.latest_version st /\
    inserted_for sid tid change r.
Proof.
  unfold Relay.insert_change; intros H.
  do 15 bind_inv H.
  injection H as <-.
  repeat match goal with
         | X : require_value _ = Ok _ |- _ => apply require_value_ok in X; subst
         end.
  eexists; simpl; repeat split; unfold bound_to; simpl; eauto.
Qed.

Lemma versions_after_cons (from : Z) (k : nat) :
  versions_after from (S k) = (from + 1) :: versions_after (from + 1) k.
Proof.
  unfold versions_after; simpl; f_equal.
  rewrite <- seq_shift, map_map.
  apply map_ext; intros; lia.
Qed.

Lemma insert_loop_ok now sid tid changes :
  forall v st v' st',
    Relay.insert_loop now sid tid changes v st = Ok (v', st') ->
    v' = v + Z.of_nat (length changes) /\
    Relay.latest_version st' = Relay.latest_version st /\
    exists rows,
      Relay.sync_changes st' = Relay.sync_changes st ++ rows /\
      map Relay.version rows = versions_after v (length changes) /\
      Forall2 (inserted_for sid tid) changes rows.
Proof.
  induction changes as [|change rest IH]; intros v st v' st' H.
  - simpl in H; injection H as <- <-.
    repeat split; [simpl; lia|].
    exists []; rewrite app_nil_r; repeat split; constructor.
  - cbn [Relay.insert_loop] in H.
    bind_inv H.
    apply insert_change_ok in E; destruct E as (r & Hr & Hv & Hl & Hins).
    apply IH in H; destruct H as (-> & Hl' & rows & Hrows & Hvs & Hall).
    repeat split.
    + cbn [length]; lia.
    + congruence.
    + exists (r :: rows); repeat split.
      * rewrite Hrows, Hr, <- app_assoc; reflexivity.
      * cbn [length]; rewrite versions_after_cons; simpl; now rewrite Hv, Hvs.
      * now constructor.
Qed.

Lemma push_ok_inv now st body st' k v :
  Relay.push now st body = (st', Relay.PushOk k v) ->
  exists cs,
    Relay.body_changes body = Some (JArr cs) /\
    k = Z.of_nat (length cs) /\
    Relay.transaction now (Relay.body_store_id body)
      (Relay.body_terminal_id body) cs st = Ok (v, st').
Proof.
  unfold Relay.push; intros H.
  destruct (negb (truthy (Relay.body_terminal_id body))
            || negb (truthy (Relay.body_store_id body))
            || negb (truthy (Relay.body_changes body))
            || negb (isArray (Relay.body_changes body))); [discriminate|].
  destruct (Relay.body_changes body) as [[| | | | |cs|]|]; try discriminate.
  destruct (Relay.transaction _ _ _ cs st) as [[v0 st0]|e] eqn:T;
    [|discriminate].
  injection H as <- <- <-.
  exists cs; auto.
Qed.

(** C1: an accepted push of k changes appends k rows whose versions are
    latest_version + 1, ..., latest_version + k in array order, each carrying
    the request's terminal_id and store_id; the stored latest_version ends k
    higher, and the response reports k and that final version. *)
Theorem push_assigns_contiguous_versions now st body st' k v :
  Relay.push now st body = (st', Relay.PushOk k v) ->
  exists cs rows,
    Relay.body_changes body = Some (JArr cs) /\
    k = Z.of_nat (length cs) /\
    Relay.sync_changes st' = Relay.sync_changes st ++ rows /\
    map Relay.version rows
      = versions_after (Relay.latest_version st) (length cs) /\
    Forall2 (inserted_for (Relay.body_store_id body)
               (Relay.body_terminal_id body)) cs rows /\
    Relay.latest_version st' = Relay.latest_version st + k /\
    v = Relay.latest_version st'.
Proof.
  intros H.
  apply push_ok_inv in H; destruct H as (cs & Hcs & -> & T).
  unfold Relay.transaction in T.
  bind_inv T; destruct a as [v0 st0]; injection T as <- <-.
  apply insert_loop_ok in E; destruct E as (-> & _ & rows & Hrows & Hvs & Hall).
  exists cs, rows; simpl; repeat split; auto.
Qed.

Lemma push_assigns_contiguous_versions_witness :
  let st := Relay.empty in
  let st' := fst (Relay.push 7 st two_changes) in
  Relay.push 7 st two_changes = (st', Relay.PushOk 2 2) /\
  exists cs rows,
    Relay.body_changes two_changes = Some (JArr cs) /\
    2 = Z.of_nat (length cs) /\
    Relay.sync_changes st' = Relay.sync_changes st ++ rows /\
    map Relay.version rows
      = versions_after (Relay.latest_version st) (length cs) /\
    Forall2 (inserted_for (Relay.body_store_id two_changes)
               (Relay.body_terminal_id two_changes)) cs rows /\
    Relay.latest_version st' = Relay.latest_version st + 2 /\
    2 = Relay.latest_version st'.
Proof.
  split; [reflexivity|].
  apply (push_assigns_contiguous_versions 7 Relay.empty two_changes
           (fst (Relay.push 7 Relay.empty two_changes)) 2 2).
  reflexivity.
Defined.

Lemma push_invalid_iff now st body :
  snd (Relay.push now st body) = Relay.PushInvalid <->
  truthy (Relay.body_terminal_id body) = false \/
  truthy (Relay.body_store_id body) = false \/
  isArray (Relay.body_changes body) = false.
Proof.
  unfold Relay.push.
  destruct (truthy (Relay.body_terminal_id body)) eqn:Et; simpl;
    [|split; auto].
  destruct (truthy (Relay.body_store_id body)) eqn:Es; simpl;
    [|split; auto].
  destruct (Relay.body_changes body) as [[|b|n|s|j|cs|fs]|]; simpl;
    rewrite ?orb_true_r; simpl;
    try (split; auto; fail).
  destruct (Relay.transaction _ _ _ cs st) as [[v0 st0]|e]; simpl;
    split; try discriminate; intros [H|[H|H]]; discriminate.
Qed.

Lemma push_rejected_unchanged now st body :
  snd (Relay.push now st body) <> Relay.PushInvalid \/
  fst (Relay.push now st body) = st.
Proof.
  unfold Relay.push.
  destruct (negb (truthy (Relay.body_terminal_id body))
            || negb (truthy (Relay.body_store_id body))
            || negb (truthy (Relay.body_changes body))
            || negb (isArray (Relay.body_changes body))); [now right|].
  destruct (Relay.body_changes body) as [[| | | | |cs|]|]; try now right.
  destruct (Relay.transaction _ _ _ cs st) as [[v0 st0]|e]; [left|right];
    simpl; congruence.
Qed.

(** C8, as stated, fails: a body with all three fields present and a list in
    [changes] is rejected with 400 when [terminal_id] is 0. *)
Lemma push_rejects_present_zero_terminal_id :
  missing_field_or_not_list zero_terminal_push = false /\
  snd (Relay.push 7 Relay.empty zero_terminal_push) = Relay.PushInvalid.
Proof. split; reflexivity. Qed.

(** C8, amended: the push is answered 400 exactly when [terminal_id] or
    [store_id] is absent or falsy (null, 0, false, the empty string) or
    [changes] is not a list; so every body with a missing field or a non-list
    [changes] is rejected, and a rejected request leaves the change log and
    latest_version as they were. *)
Theorem push_invalid_exactly_when_falsy_or_not_list now st body :
  (snd (Relay.push now st body) = Relay.PushInvalid <->
   truthy (Relay.body_terminal_id body) = false \/
   truthy (Relay.body_store_id body) = false \/
   isArray (Relay.body_changes body) = false) /\
  (missing_field_or_not_list body = true ->
   snd (Relay.push now st body) = Relay.PushInvalid) /\
  (snd (Relay.push now st body) = Relay.PushInvalid ->
   fst (Relay.push now st body) = st).
Proof.
  split; [apply push_invalid_iff|split].
  - intros M; apply push_invalid_iff.
    unfold missing_field_or_not_list in M.
    destruct (Relay.body_terminal_id body); [|now left].
    destruct (Relay.body_store_id body); [|now right; left].
    right; right.
    destruct (Relay.body_changes body) as [[| | | | |cs|]|];
      try reflexivity; discriminate.
  - intros H; destruct (push_rejected_unchanged now st body); congruence.
Qed.

Lemma push_invalid_exactly_when_falsy_or_not_list_witness :
  (snd (Relay.push 7 mixed_log zero_terminal_push) = Relay.PushInvalid <->
   truthy (Relay.body_terminal_id zero_terminal_push) = false \/
   truthy (Relay.body_store_id zero_terminal_push) = false \/
   isArray (Relay.body_changes zero_terminal_push) = false) /\
  (missing_field_or_not_list zero_terminal_push = true ->
   snd (Relay.push 7 mixed_log zero_terminal_push) = Relay.PushInvalid) /\
  (snd (Relay.push 7 mixed_log zero_terminal_push) = Relay.PushInvalid ->
   fst (Relay.push 7 mixed_log zero_terminal_push) = mixed_log).
Proof.
  apply (push_invalid_exactly_when_falsy_or_not_list 7 mixed_log
           zero_terminal_push).
Defined.

(** C10: a push with non-zero terminal_id and store_id and an empty list of
    changes is answered 200 with changes_received = 0 and the stored
    latest_version, and the relay's state is unchanged. *)
Theorem push_empty_batch_is_noop now st terminalId storeId :
  terminalId <> 0 -> storeId <> 0 ->
  Relay.push now st (empty_push terminalId storeId)
  = (st, Relay.PushOk 0 (Relay.latest_version st)).
Proof.
  intros Ht Hs.
  unfold Relay.push, empty_push; simpl.
  apply Z.eqb_neq in Ht, Hs; rewrite Ht, Hs; simpl.
  destruct st; reflexivity.
Qed.

Lemma push_empty_batch_is_noop_witness :
  4 <> 0 /\ 1 <> 0 /\
  Relay.push 7 mixed_log (empty_push 4 1)
  = (mixed_log, Relay.PushOk 0 (Relay.latest_version mixed_log)).
Proof.
  split; [lia|split; [lia|]].
  apply (push_empty_batch_is_noop 7 mixed_log 4 1); lia.
Defined.

Lemma since_default (n : Z) : (if n =? 0 then 0 else n) = n.
Proof. destruct (Z.eqb_spec n 0); congruence. Qed.

Lemma not_from_spec terminalId r :
  Relay.not_from terminalId r = true <->
  Relay.terminal_id r = SNull \/ Relay.terminal_id r <> SInt terminalId.
Proof.
  unfold Relay.not_from.
  destruct (Relay.terminal_id r) as [|n|s|j]; simpl.
  - split; auto.
  - rewrite negb_true_iff, Z.eqb_neq; split.
    + intros H; right; congruence.
    + intros [H|H]; [discriminate|congruence].
  - split; auto; intros _; right; discriminate.
  - split; auto; intros _; right; discriminate.
Qed.

(** C2, as stated, fails: a pull with terminal id 0 is answered 400, although
    the change log holds rows above the cursor that are not of terminal 0. *)
Lemma pull_with_terminal_id_zero_is_rejected :
  Relay.pull mixed_log {| Relay.q_terminal_id := Some 0;
                          Relay.q_since_version := Some 0 |}
  = Relay.PullInvalid /\
  length (pullable 0 0 mixed_log) = 4%nat.
Proof. split; reflexivity. Qed.

(** C2, amended: a pull by a non-zero terminal id t above sinceVersion (0
    when the parameter is absent) returns the change-log rows with a higher
    version whose terminal_id is null or differs from t, in ascending version
    order, at most 1000 of them (those with the lowest versions), and reports
    the stored latest_version whatever the rows are. *)
Theorem pull_returns_foreign_changes st terminalId since :
  terminalId <> 0 ->
  exists rows,
    Relay.pull st {| Relay.q_terminal_id := Some terminalId;
                     Relay.q_since_version := since |}
    = Relay.PullOk rows (Relay.latest_version st) (Z.of_nat (length rows)) /\
    let sinceVersion := match since with Some n => n | None => 0 end in
    let entitled := pullable sinceVersion terminalId st in
    rows = firstn 1000 (order_by Relay.version entitled) /\
    StronglySorted (le_by Relay.version) rows /\
    (length rows <= 1000)%nat /\
    (forall r, In r rows ->
       In r (Relay.sync_changes st) /\ sinceVersion < Relay.version r /\
       (Relay.terminal_id r = SNull \/ Relay.terminal_id r <> SInt terminalId)) /\
    ((length entitled <= 1000)%nat -> Permutation rows entitled) /\
    (forall r r', In r entitled -> ~ In r rows -> In r' rows ->
       Relay.version r' <= Relay.version r).
Proof.
  intros Ht.
  exists (firstn 1000 (order_by Relay.version
            (pullable (match since with Some n => n | None => 0 end)
                      terminalId st))).
  split.
  - unfold Relay.pull; simpl.
    apply Z.eqb_neq in Ht; rewrite Ht.
    unfold Relay.select_changes, pullable.
    destruct since as [n|]; [rewrite since_default|]; reflexivity.
  - cbv zeta.
    set (sv := match since with Some n => n | None => 0 end).
    set (entitled := pullable sv terminalId st).
    split; [reflexivity|].
    split; [apply sorted_firstn, order_by_sorted|].
    split; [apply firstn_le_length|].
    split; [|split].
    + intros r Hr.
      assert (Hin : In r entitled).
      { apply (order_by_In Relay.version).
        rewrite <- (firstn_skipn 1000 (order_by Relay.version entitled)).
        apply in_or_app; now left. }
      unfold entitled, pullable in Hin.
      apply filter_In in Hin; destruct Hin as (Hin & Hc).
      apply andb_true_iff in Hc; destruct Hc as (Hv & Hn).
      apply Z.ltb_lt in Hv; apply not_from_spec in Hn; auto.
    + intros Hlen.
      rewrite firstn_all2 by (rewrite order_by_length; exact Hlen).
      apply order_by_perm.
    + intros r r' Hr Hnot Hr'.
      apply (sorted_firstn_skipn Relay.version 1000
               (order_by Relay.version entitled)); auto.
      * apply order_by_sorted.
      * apply (order_by_In Relay.version) in Hr.
        rewrite <- (firstn_skipn 1000 (order_by Relay.version entitled)) in Hr.
        apply in_app_or in Hr; destruct Hr; [contradiction|assumption].
Qed.

Lemma pull_returns_foreign_changes_witness :
  4 <> 0 /\
  exists rows,
    Relay.pull mixed_log {| Relay.q_terminal_id := Some 4;
                            Relay.q_since_version := Some 1 |}
    = Relay.PullOk rows (Relay.latest_version mixed_log)
        (Z.of_nat (length rows)) /\
    let sinceVersion := 1 in
    let entitled := pullable sinceVersion 4 mixed_log in
    rows = firstn 1000 (order_by Relay.version entitled) /\
    StronglySorted (le_by Relay.version) rows /\
    (length rows <= 1000)%nat /\
    (forall r, In r rows ->
       In r (Relay.sync_changes mixed_log) /\ sinceVersion < Relay.version r /\
       (Relay.terminal_id r = SNull \/ Relay.terminal_id r <> SInt 4)) /\
    ((length entitled <= 1000)%nat -> Permutation rows entitled) /\
    (forall r r', In r entitled -> ~ In r rows -> In r' rows ->
       Relay.version r' <= Relay.version r).
Proof.
  split; [lia|].
  apply (pull_returns_foreign_changes mixed_log 4 (Some 1)); lia.
Defined.

(** The rows of that pull: versions 2 and 3, none of terminal 4. *)
Example pull_mixed_log :
  Relay.pull mixed_log {| Relay.q_terminal_id := Some 4;
                          Relay.q_since_version := Some 1 |}
  = Relay.PullOk [log_row 3 SNull 2; log_row 1 (SInt 5) 3] 4 2.
Proof. reflexivity. Qed.

(** ** The entity tables *)

Section TableFacts.
Import SqlTable.
Variable cols : list column.

Lemma insert_or_replace_inv now idv vals tb r :
  insert_or_replace cols now idv vals tb = Ok r ->
  exists vals' rowid,
    constrain_all cols vals = Ok vals' /\
    new_rowid idv tb = Ok rowid /\
    new_row r = {| id := rowid; values := vals';
                   created_at := now; updated_at := now |} /\
    deleted r = filter (conflicts cols rowid vals') (rows tb) /\
    table r = {| rows := filter (fun x => negb (conflicts cols rowid vals' x))
                                (rows tb)
                         ++ [ {| id := rowid; values := vals';
                                 created_at := now; updated_at := now |} ];
                 seq := Z.max (seq tb) rowid |}.
Proof.
  unfold insert_or_replace; intros H.
  bind_inv H. bind_inv H.
  injection H as <-.
  exists a, a0; simpl; auto.
Qed.





Lemma col_set_nth_null i l :
  nth i (set_nth i SNull l) SNull = SNull.
Proof.
  revert l; induction i as [|i IH]; intros [|x l]; simpl; auto.
Qed.


End TableFacts.

(** ** Replay of one entry *)

Lemma guard_ok (b : bool) (u : unit) : Local.guard b = Ok u -> b = true.
Proof. destruct b; simpl; [reflexivity|discriminate]. Qed.


Ltac guards H :=
  repeat (let u := fresh "u" in
          let G := fresh "G" in
          apply bind_ok in H; destruct H as (u & G & H);
          apply guard_ok in G).







Lemma is_text_eq v s : is_text v s = true -> v = SText s.
Proof.
  destruct v as [|n|s'|j]; simpl; try discriminate.
  intros H; apply String.eqb_eq in H; now subst.
Qed.







Example replay_update_tea :
  SqlTable.ids (Local.products (replay 7 update_tea fresh_store)) = [3] /\
  SqlTable.seq (Local.products (replay 7 update_tea fresh_store)) = 3.
Proof. split; reflexivity. Qed.

(** ** Replay of a pulled batch *)

Lemma applyRemoteChanges_app now l1 l2 c :
  SyncService.applyRemoteChanges now (l1 ++ l2) c
  = SyncService.applyRemoteChanges now l2
      (SyncService.applyRemoteChanges now l1 c).
Proof.
  revert c; induction l1 as [|x l1 IH]; intros c; simpl; [reflexivity|].
  apply IH.
Qed.

(** The tables after a replay depend on the tables before it only. *)
Lemma applyRemoteChanges_db now l c c' :
  SyncService.db c = SyncService.db c' ->
  SyncService.db (SyncService.applyRemoteChanges now l c)
  = SyncService.db (SyncService.applyRemoteChanges now l c').
Proof.
  revert c c'; induction l as [|x l IH]; intros c c' H; simpl; [exact H|].
  apply IH; rewrite H.
  destruct (Local.apply_change now x (SyncService.db c')) as [[st|e]|];
    simpl; auto.
Qed.

Lemma applyRemoteChanges_db_is_replay now l c :
  SyncService.db (SyncService.applyRemoteChanges now l c)
  = fold_left (fun st change => replay now change st) l (SyncService.db c).
Proof.
  revert c; induction l as [|x l IH]; intros c; simpl; [reflexivity|].
  rewrite IH; f_equal.
  unfold replay.
  destruct (Local.apply_change now x (SyncService.db c)) as [[st|e]|];
    reflexivity.
Qed.

(** Replay touches the entity tables and the console only. *)
Lemma applyRemoteChanges_frame now l c :
  let c' := SyncService.applyRemoteChanges now l c in
  SyncService.sync_outbox c' = SyncService.sync_outbox c /\
  SyncService.sync_outbox_seq c' = SyncService.sync_outbox_seq c /\
  SyncService.sync_state c' = SyncService.sync_state c /\
  SyncService.terminals c' = SyncService.terminals c /\
  SyncService.terminalId c' = SyncService.terminalId c /\
  SyncService.storeId c' = SyncService.storeId c /\
  SyncService.serverUrl c' = SyncService.serverUrl c.
Proof.
  revert c; induction l as [|x l IH]; intros c; simpl; [tauto|].
  match goal with
  | |- context [SyncService.applyRemoteChanges now l ?c1] =>
      generalize (IH c1)
  end.
  destruct (Local.apply_change now x (SyncService.db c)) as [[st|e]|];
    simpl; tauto.
Qed.

Lemma unrecognised_no_case now change st :
  unrecognised change -> Local.apply_change now change st = None.
Proof.
  intros (Hp & Hc & Hu); unfold Local.apply_change.
  now rewrite Hp, Hc, Hu.
Qed.

(** C9, as stated, fails on the logging: an entry of an entity type that
    replay does not know leaves the console, like everything else, as it
    was. *)
Lemma replay_unknown_type_logs_nothing :
  unrecognised sale_entry /\
  SyncService.applyRemoteChanges 7 [sale_entry] (terminal5 0) = terminal5 0 /\
  SyncService.console
    (SyncService.applyRemoteChanges 7 [sale_entry] (terminal5 0)) = [].
Proof. repeat split; reflexivity. Qed.

(** C9, amended: in a pulled batch, an entry of an unrecognised entity type
    is skipped without any log line and without any change to the terminal's
    state; an entry whose apply throws is skipped with one logged error and
    leaves the entity tables as they were; either way the entries after it
    are applied as if the skipped entry had not been in the batch. *)
Theorem replay_skips_bad_entry now before bad after c :
  let c1 := SyncService.applyRemoteChanges now before c in
  (unrecognised bad ->
   SyncService.applyRemoteChanges now (before ++ bad :: after) c
   = SyncService.applyRemoteChanges now (before ++ after) c) /\
  (forall e,
     Local.apply_change now bad (SyncService.db c1) = Some (Throw e) ->
     SyncService.applyRemoteChanges now (before ++ [bad]) c
     = SyncService.log (LogApplyFailed (Relay.id bad) e) c1 /\
     SyncService.db (SyncService.applyRemoteChanges now (before ++ [bad]) c)
     = SyncService.db c1 /\
     SyncService.db
       (SyncService.applyRemoteChanges now (before ++ bad :: after) c)
     = SyncService.db
         (SyncService.applyRemoteChanges now (before ++ after) c)).
Proof.
  intros c1; split.
  - intros Hun.
    rewrite !applyRemoteChanges_app; simpl.
    now rewrite (unrecognised_no_case _ _ _ Hun).
  - intros e He.
    rewrite !applyRemoteChanges_app; simpl.
    fold c1; rewrite He; simpl.
    repeat split.
    apply applyRemoteChanges_db; reflexivity.
Qed.

Lemma replay_skips_bad_entry_witness :
  let c := terminal5 0 in
  let c1 := SyncService.applyRemoteChanges 7 [update_tea] c in
  unrecognised sale_entry /\
  Local.apply_change 7 garbled_entry (SyncService.db c1)
  = Some (Throw SyntaxError) /\
  SyncService.applyRemoteChanges 7 ([update_tea] ++ sale_entry :: [update_tea]) c
  = SyncService.applyRemoteChanges 7 ([update_tea] ++ [update_tea]) c /\
  SyncService.applyRemoteChanges 7 ([update_tea] ++ [garbled_entry]) c
  = SyncService.log (LogApplyFailed (Relay.id garbled_entry) SyntaxError) c1 /\
  SyncService.db
    (SyncService.applyRemoteChanges 7 ([update_tea] ++ [garbled_entry]) c)
  = SyncService.db c1 /\
  SyncService.db
    (SyncService.applyRemoteChanges 7
       ([update_tea] ++ garbled_entry :: [update_tea]) c)
  = SyncService.db
      (SyncService.applyRemoteChanges 7 ([update_tea] ++ [update_tea]) c).
Proof.
  assert (Hun : unrecognised sale_entry) by (repeat split; reflexivity).
  assert (Hbad : Local.apply_change 7 garbled_entry
                   (SyncService.db
                      (SyncService.applyRemoteChanges 7 [update_tea]
                         (terminal5 0)))
                 = Some (Throw SyntaxError)) by reflexivity.
  split; [exact Hun|split; [exact Hbad|]].
  split.
  - exact (proj1 (replay_skips_bad_entry 7 [update_tea] sale_entry
                    [update_tea] (terminal5 0)) Hun).
  - exact (proj2 (replay_skips_bad_entry 7 [update_tea] garbled_entry
                    [update_tea] (terminal5 0)) SyntaxError Hbad).
Defined.

(** A batch with a garbled product entry and an unknown entity type around a
    good entry: the good entry is applied, one error is logged. *)
Example replay_mixed_batch :
  let c := SyncService.applyRemoteChanges 7
             [garbled_entry; update_tea; sale_entry] (terminal5 0) in
  SqlTable.ids (Local.products (SyncService.db c)) = [3] /\
  SyncService.console c = [LogApplyFailed 8 SyntaxError].
Proof. split; reflexivity. Qed.

(** ** The sync client *)

Section ClientFacts.
Import SyncService.
Context {W : Type}.
Variable fetch_push : Relay.push_body -> W -> W * fetched unit.
Variable fetch_pull : Relay.pull_query -> W -> W * fetched (option pull_result).

Lemma pushChanges_skipped now c w :
  unsyncedItems c = [] -> pushChanges fetch_push now c w = (c, w, Ok tt).
Proof. unfold SyncService.pushChanges; now intros ->. Qed.

Lemma pushChanges_unconfirmed now c w w1 response :
  unsyncedItems c <> [] ->
  fetch_push (push_request c (unsyncedItems c)) w = (w1, response) ->
  confirmed response = false ->
  exists e,
    pushChanges fetch_push now c w
    = (push_failed now (map Outbox.id (unsyncedItems c))
         (log (LogPushing (length (unsyncedItems c))) c), w1, Throw e).
Proof.
  intros Hne Hf Hc.
  unfold SyncService.pushChanges.
  destruct (unsyncedItems c) as [|x items] eqn:E; [congruence|].
  change (push_request (log _ c) (x :: items))
    with (push_request c (x :: items)).
  rewrite Hf.
  destruct response as [|status body]; simpl in Hc.
  - eexists; reflexivity.
  - rewrite Hc; eexists; reflexivity.
Qed.

Lemma pushChanges_confirmed now c w w1 response :
  unsyncedItems c <> [] ->
  fetch_push (push_request c (unsyncedItems c)) w = (w1, response) ->
  confirmed response = true ->
  pushChanges fetch_push now c w
  = (with_sync_state
       (SyncState.update_where (terminalId c) (SyncState.pushed now)
          (sync_state c))
       (with_outbox
          (Outbox.update_in (map Outbox.id (unsyncedItems c))
             Outbox.mark_synced (sync_outbox c))
          (sync_outbox_seq c)
          (log (LogPushing (length (unsyncedItems c))) c)),
     w1, Ok tt).
Proof.
  intros Hne Hf Hc.
  unfold SyncService.pushChanges.
  destruct (unsyncedItems c) as [|x items] eqn:E; [congruence|].
  change (push_request (log _ c) (x :: items))
    with (push_request c (x :: items)).
  rewrite Hf.
  destruct response as [|status body]; simpl in Hc; [discriminate|].
  rewrite Hc; reflexivity.
Qed.

Lemma unsyncedItems_in c r :
  In r (unsyncedItems c) ->
  In r (sync_outbox c) /\ Outbox.synced r = false.
Proof.
  unfold unsyncedItems; intros H.
  assert (Hin : In r (filter (fun r => negb (Outbox.synced r))
                             (sync_outbox c))).
  { apply (order_by_In Outbox.created_at).
    rewrite <- (firstn_skipn 100 (order_by _ _)).
    apply in_or_app; now left. }
  apply filter_In in Hin; destruct Hin as (Hin & Hs).
  apply negb_true_iff in Hs; auto.
Qed.

Lemma update_in_member ids f rows r :
  In r rows -> In (Outbox.id r) ids ->
  In (f r) (Outbox.update_in ids f rows).
Proof.
  intros Hin Hid; unfold Outbox.update_in.
  apply in_map_iff; exists r; split; [|exact Hin].
  assert (E : existsb (Z.eqb (Outbox.id r)) ids = true).
  { apply existsb_exists; exists (Outbox.id r); split;
      [exact Hid|apply Z.eqb_refl]. }
  now rewrite E.
Qed.

(** C4: when the push of a non-empty batch is not confirmed (the request
    fails or the relay answers with an error status), the sync cycle
    throws; every row of the batch is still unsynced, with sync_attempts one
    higher and last_sync_attempt set; and no pull happens: the world is as
    the push request left it, and the cursor, the entity tables and the
    terminal row are untouched. *)
Theorem failed_push_aborts_cycle now c w w1 response :
  serverUrl c <> "" ->
  unsyncedItems c <> [] ->
  fetch_push (push_request c (unsyncedItems c)) w = (w1, response) ->
  confirmed response = false ->
  exists e c',
    sync fetch_push fetch_pull now c w = (c', w1, Throw e) /\
    sync_outbox c'
    = Outbox.update_in (map Outbox.id (unsyncedItems c))
        (Outbox.mark_attempt now) (sync_outbox c) /\
    (forall r, In r (unsyncedItems c) ->
       In r (sync_outbox c) /\
       Outbox.synced r = false /\
       In (Outbox.mark_attempt now r) (sync_outbox c') /\
       Outbox.synced (Outbox.mark_attempt now r) = false /\
       Outbox.sync_attempts (Outbox.mark_attempt now r)
       = Outbox.sync_attempts r + 1 /\
       Outbox.last_sync_attempt (Outbox.mark_attempt now r) = Some now) /\
    sync_state c' = sync_state c /\
    db c' = db c /\
    terminals c' = terminals c.
Proof.
  intros Hurl Hne Hf Hc.
  unfold SyncService.sync.
  apply String.eqb_neq in Hurl; rewrite Hurl.
  destruct (pushChanges_unconfirmed now (log LogStarting c) w w1 response)
    as (e & Hp); auto.
  change (unsyncedItems (log LogStarting c)) with (unsyncedItems c) in Hp.
  rewrite Hp.
  exists e; eexists; split; [reflexivity|].
  simpl; repeat split; auto.
  - now apply unsyncedItems_in in H.
  - now apply unsyncedItems_in in H.
  - apply update_in_member; [now apply unsyncedItems_in in H|].
    now apply in_map.
  - now apply unsyncedItems_in in H.
Qed.
(** What [pushChanges] leaves alone. *)
Lemma pushChanges_frame now c w c1 w1 r :
  pushChanges fetch_push now c w = (c1, w1, r) ->
  terminalId c1 = terminalId c /\
  storeId c1 = storeId c /\
  serverUrl c1 = serverUrl c /\
  db c1 = db c /\
  terminals c1 = terminals c /\
  length (sync_state c1) = length (sync_state c).
Proof.
  unfold SyncService.pushChanges.
  destruct (unsyncedItems c) as [|x items].
  - intros H; injection H as <- <- <-; auto 10.
  - destruct (fetch_push _ w) as [w' [|status body]].
    + intros H; injection H as <- <- <-; simpl; auto 10.
    + destruct (ok status); intros H; injection H as <- <- <-; simpl;
        repeat split; auto.
      unfold SyncState.update_where; now rewrite length_map.
Qed.

Lemma update_where_member tid f rows row :
  (forall r, SyncState.terminal_id (f r) = SyncState.terminal_id r) ->
  In row (SyncState.update_where tid f rows) ->
  SyncState.of_terminal tid row = true ->
  exists r, In r rows /\ SyncState.of_terminal tid r = true /\ row = f r.
Proof.
  intros Hf Hin Hof.
  unfold SyncState.update_where in Hin.
  apply in_map_iff in Hin; destruct Hin as (r & Hr & Hin).
  exists r; split; [exact Hin|].
  destruct (SyncState.of_terminal tid r) eqn:E; [now split|].
  subst row; congruence.
Qed.

Lemma update_where_found tid f rows r0 :
  (forall r, SyncState.terminal_id (f r) = SyncState.terminal_id r) ->
  find (SyncState.of_terminal tid) rows = Some r0 ->
  In (f r0) (SyncState.update_where tid f rows) /\
  SyncState.of_terminal tid (f r0) = true.
Proof.
  intros Hf H.
  apply find_some in H; destruct H as (Hin & Hof).
  split.
  - unfold SyncState.update_where.
    apply in_map_iff; exists r0; now rewrite Hof.
  - unfold SyncState.of_terminal in *; now rewrite Hf.
Qed.

(** C5, as stated, fails: a terminal whose cursor is 5 syncs, with an empty
    outbox, against a relay that reports latest_version 0; the pull succeeds
    and the cursor stays 5. *)
Lemma cursor_kept_when_relay_reports_zero :
  let run := sync (relay_push sample_length 7) relay_pull 7 (terminal5 5) Relay.empty in
  snd run = Ok tt /\
  Relay.pull Relay.empty {| Relay.q_terminal_id := Some 5;
                            Relay.q_since_version := Some 5 |}
  = Relay.PullOk [] 0 0 /\
  map SyncState.last_sync_version (sync_state (fst (fst run))) = [5] /\
  map SyncState.last_pull_at (sync_state (fst (fst run))) = [Some 7].
Proof. repeat split; reflexivity. Qed.

(** C5, amended: in a sync cycle whose push phase did not fail (in
    particular one with an empty outbox, which sends no push) and whose pull
    request is answered 2xx with a parsable body, the cycle succeeds and every
    cursor row of the terminal gets last_pull_at = now and last_sync_version =
    the reported latest_version when that is present and non-zero, and keeps
    the previous last_sync_version when the report is 0 or absent; this holds
    whatever entries the batch holds and whether or not they applied. *)
Theorem successful_pull_moves_cursor now c w c1 w1 syncState w2 status result :
  serverUrl c <> "" ->
  pushChanges fetch_push now (log LogStarting c) w = (c1, w1, Ok tt) ->
  find (SyncState.of_terminal (terminalId c)) (sync_state c1)
  = Some syncState ->
  fetch_pull {| Relay.q_terminal_id := terminalId c;
                Relay.q_since_version :=
                  Some (SyncState.last_sync_version syncState) |} w1
  = (w2, Responded status (Some result)) ->
  ok status = true ->
  let previous := SyncState.last_sync_version syncState in
  let cursor := cursor_after (latest_version result) previous in
  exists c',
    sync fetch_push fetch_pull now c w = (c', w2, Ok tt) /\
    sync_state c'
    = SyncState.update_where (terminalId c) (SyncState.pulled now cursor)
        (sync_state c1) /\
    (forall row, In row (sync_state c') ->
       SyncState.of_terminal (terminalId c) row = true ->
       SyncState.last_pull_at row = Some now /\
       SyncState.last_sync_version row = cursor) /\
    (exists row, In row (sync_state c') /\
       SyncState.of_terminal (terminalId c) row = true) /\
    (forall v, latest_version result = Some v -> v <> 0 -> cursor = v) /\
    (latest_version result = Some 0 \/ latest_version result = None ->
     cursor = previous) /\
    (unsyncedItems c = [] -> c1 = log LogStarting c /\ w1 = w).
Proof.
  intros Hurl Hpush Hfind Hfetch Hok previous cursor.
  destruct (pushChanges_frame _ _ _ _ _ _ Hpush) as (Htid & _).
  simpl in Htid.
  assert (Hstate : exists c',
            sync fetch_push fetch_pull now c w = (c', w2, Ok tt) /\
            sync_state c'
            = SyncState.update_where (terminalId c)
                (SyncState.pulled now cursor) (sync_state c1)).
  { unfold SyncService.sync.
    apply String.eqb_neq in Hurl; rewrite Hurl, Hpush.
    cbv beta iota.
    unfold SyncService.pullChanges.
    rewrite Htid, Hfind, Hfetch, Hok.
    fold previous; fold (cursor_after (latest_version result) previous).
    fold cursor.
    destruct (changes result) as [[|x l]|];
      eexists; (split; [reflexivity|]);
      cbn [sync_state log touch_terminal with_terminals with_sync_state];
      rewrite ?Htid; try reflexivity.
    destruct (applyRemoteChanges_frame now (x :: l)
                (log (LogApplying (length (x :: l))) c1))
      as (_ & _ & Hss & _ & Ht & _).
    cbn [sync_state terminalId log] in Hss, Ht.
    rewrite Hss, Ht, Htid; reflexivity. }
  destruct Hstate as (c' & Hsync & Hss).
  exists c'; split; [exact Hsync|split; [exact Hss|]].
  assert (Hkeep : forall r, SyncState.terminal_id (SyncState.pulled now cursor r)
                            = SyncState.terminal_id r) by reflexivity.
  repeat split.
  - rewrite Hss in H.
    destruct (update_where_member _ _ _ _ Hkeep H H0) as (r & _ & _ & ->).
    reflexivity.
  - rewrite Hss in H.
    destruct (update_where_member _ _ _ _ Hkeep H H0) as (r & _ & _ & ->).
    reflexivity.
  - exists (SyncState.pulled now cursor syncState).
    rewrite Hss; now apply update_where_found.
  - intros v Hv Hnz; unfold cursor, cursor_after; rewrite Hv.
    apply Z.eqb_neq in Hnz; now rewrite Hnz.
  - intros [H|H]; unfold cursor, cursor_after; now rewrite H.
  - rewrite (pushChanges_skipped now (log LogStarting c) w H) in Hpush;
      congruence.
  - rewrite (pushChanges_skipped now (log LogStarting c) w H) in Hpush;
      congruence.
Qed.

Lemma update_in_inv ids f rows r' :
  In r' (Outbox.update_in ids f rows) ->
  exists r, In r rows /\
            ((In (Outbox.id r) ids /\ r' = f r) \/ r' = r).
Proof.
  unfold Outbox.update_in; intros H.
  apply in_map_iff in H; destruct H as (r & Hr & Hin).
  exists r; split; [exact Hin|].
  destruct (existsb (Z.eqb (Outbox.id r)) ids) eqn:E; [left|right; auto].
  split; [|auto].
  apply existsb_exists in E; destruct E as (k & Hk & Hkr).
  apply Z.eqb_eq in Hkr; now subst.
Qed.

Lemma acked_more c acked more :
  synced_only_if_acked c acked -> synced_only_if_acked c (acked ++ more).
Proof. intros H r Hin Hs; apply in_or_app; left; now apply H. Qed.

Lemma acked_same_outbox c c' acked :
  sync_outbox c' = sync_outbox c ->
  synced_only_if_acked c acked -> synced_only_if_acked c' acked.
Proof. unfold synced_only_if_acked; intros ->; auto. Qed.

Lemma attempt_keeps_acked now ids c acked :
  synced_only_if_acked c acked ->
  synced_only_if_acked (push_failed now ids c) acked.
Proof.
  intros H r' Hin Hs; simpl in Hin.
  apply update_in_inv in Hin; destruct Hin as (r & Hr & [(_ & ->)| ->]);
    [exact (H r Hr Hs)|now apply H].
Qed.

Lemma addToOutbox_keeps_acked now entityType entityId action data c acked :
  synced_only_if_acked c acked ->
  synced_only_if_acked (addToOutbox now entityType entityId action data c)
    acked.
Proof.
  intros H; unfold addToOutbox.
  destruct (_ && _); [|exact H].
  intros r Hin Hs; simpl in Hin.
  apply in_app_or in Hin; destruct Hin as [Hin|[<-|[]]]; [now apply H|].
  discriminate.
Qed.

Lemma pushChanges_keeps_acked now c w acked :
  synced_only_if_acked c acked ->
  synced_only_if_acked (fst (fst (pushChanges fetch_push now c w)))
    (acked ++ acknowledged fetch_push c w).
Proof.
  intros H.
  unfold SyncService.pushChanges, SyncService.acknowledged.
  destruct (unsyncedItems c) as [|x items] eqn:E.
  - now apply acked_more.
  - change (push_request (log _ c) (x :: items))
      with (push_request c (x :: items)).
    destruct (fetch_push (push_request c (x :: items)) w)
      as [w' [|status body]]; cbn [fst snd].
    + apply acked_more, attempt_keeps_acked; exact H.
    + destruct (ok status); cbn [fst].
      * intros r' Hin Hs; simpl in Hin.
        apply update_in_inv in Hin.
        destruct Hin as (r & Hr & [(Hid & ->)| ->]);
          apply in_or_app; [right; exact Hid|left; now apply H].
      * apply acked_more, attempt_keeps_acked; exact H.
Qed.

Lemma pullChanges_keeps_outbox now c w :
  sync_outbox (fst (fst (pullChanges fetch_pull now c w))) = sync_outbox c.
Proof.
  unfold SyncService.pullChanges.
  destruct (find _ (sync_state c)) as [syncState|]; [|reflexivity].
  destruct (fetch_pull _ w) as [w' [|status body]]; [reflexivity|].
  destruct (ok status); [|reflexivity].
  destruct body as [result|]; [|reflexivity].
  cbn [fst sync_outbox with_sync_state].
  destruct (match changes result with Some l => l | None => [] end)
    as [|x l]; [reflexivity|].
  destruct (applyRemoteChanges_frame now (x :: l)
              (log (LogApplying (length (x :: l))) c)) as (Ho & _).
  exact Ho.
Qed.

Lemma sync_keeps_acked now c w acked :
  synced_only_if_acked c acked ->
  synced_only_if_acked (fst (fst (sync fetch_push fetch_pull now c w)))
    (acked ++ if String.eqb (serverUrl c) "" then []
              else acknowledged fetch_push c w).
Proof.
  intros H.
  unfold SyncService.sync.
  destruct (String.eqb (serverUrl c) ""); [now apply acked_more|].
  pose proof (pushChanges_keeps_acked now (log LogStarting c) w acked H)
    as Hp.
  change (acknowledged fetch_push (log LogStarting c) w)
    with (acknowledged fetch_push c w) in Hp.
  destruct (pushChanges fetch_push now (log LogStarting c) w)
    as [[c1 w1] [u|e]]; cbn [fst] in Hp; [|exact Hp].
  pose proof (pullChanges_keeps_outbox now c1 w1) as Hq.
  destruct (pullChanges fetch_pull now c1 w1) as [[c2 w2] [u'|e]];
    cbn [fst] in *;
    (eapply acked_same_outbox; [|exact Hp]); simpl; exact Hq.
Qed.

(** C7: in every state a terminal reaches from an outbox without synced rows
    by enqueueing, pushing, pulling and running whole sync cycles, against any
    network and relay, each outbox row with synced = true has its id in a
    batch whose push the relay answered with a 2xx response. *)
Theorem synced_rows_were_acknowledged c acked :
  reachable fetch_push fetch_pull c acked ->
  forall r, In r (sync_outbox c) ->
            Outbox.synced r = true -> In (Outbox.id r) acked.
Proof.
  intros Hreach.
  change (synced_only_if_acked c acked).
  induction Hreach as [c Hinit| | | |].
  - intros r Hin Hs; rewrite (Hinit r Hin) in Hs; discriminate.
  - now apply addToOutbox_keeps_acked.
  - now apply pushChanges_keeps_acked.
  - eapply acked_same_outbox; [apply pullChanges_keeps_outbox|assumption].
  - now apply sync_keeps_acked.
Qed.
End ClientFacts.

(** ** The client against the relay *)

Lemma failed_push_aborts_cycle_witness :
  let c := enqueue (terminal5 0) (price_change 1) in
  SyncService.serverUrl c <> "" /\
  SyncService.unsyncedItems c <> [] /\
  confirmed (@Rejected unit) = false /\
  exists e c',
    SyncService.sync SyncService.offline_push SyncService.offline_pull 9 c
      Relay.empty = (c', Relay.empty, Throw e) /\
    SyncService.sync_outbox c'
    = Outbox.update_in (map Outbox.id (SyncService.unsyncedItems c))
        (Outbox.mark_attempt 9) (SyncService.sync_outbox c) /\
    (forall r, In r (SyncService.unsyncedItems c) ->
       In r (SyncService.sync_outbox c) /\
       Outbox.synced r = false /\
       In (Outbox.mark_attempt 9 r) (SyncService.sync_outbox c') /\
       Outbox.synced (Outbox.mark_attempt 9 r) = false /\
       Outbox.sync_attempts (Outbox.mark_attempt 9 r)
       = Outbox.sync_attempts r + 1 /\
       Outbox.last_sync_attempt (Outbox.mark_attempt 9 r) = Some 9) /\
    SyncService.sync_state c' = SyncService.sync_state c /\
    SyncService.db c' = SyncService.db c /\
    SyncService.terminals c' = SyncService.terminals c.
Proof.
  assert (Hurl : SyncService.serverUrl (enqueue (terminal5 0) (price_change 1))
                 <> "") by (vm_compute; discriminate).
  assert (Hne : SyncService.unsyncedItems
                  (enqueue (terminal5 0) (price_change 1)) <> [])
    by (vm_compute; discriminate).
  split; [exact Hurl|split; [exact Hne|split; [reflexivity|]]].
  apply (failed_push_aborts_cycle SyncService.offline_push
           SyncService.offline_pull 9
           (enqueue (terminal5 0) (price_change 1)) Relay.empty Relay.empty
           Rejected Hurl Hne); reflexivity.
Defined.

(** The same terminal against a reachable relay that answers 400, because
    the service was never initialised and sends [terminal_id: null]. *)
Example uninitialised_terminal_is_rejected :
  let c := {| SyncService.terminalId := None;
              SyncService.storeId := 1;
              SyncService.serverUrl := "http://relay:3001";
              SyncService.sync_outbox := [];
              SyncService.sync_outbox_seq := 0;
              SyncService.sync_state := [];
              SyncService.terminals := [];
              SyncService.db := fresh_store;
              SyncService.console := [] |} in
  let run := SyncService.sync (SyncService.relay_push sample_length 9) SyncService.relay_pull
               9 (enqueue c (price_change 1)) Relay.empty in
  snd run = Throw HttpError /\
  map Outbox.sync_attempts (SyncService.sync_outbox (fst (fst run))) = [1] /\
  map Outbox.synced (SyncService.sync_outbox (fst (fst run))) = [false] /\
  snd (fst run) = Relay.empty.
Proof. repeat split; reflexivity. Qed.

Lemma successful_pull_moves_cursor_witness :
  let c := terminal5 0 in
  let syncState := {| SyncState.id := 1; SyncState.terminal_id := 5;
                      SyncState.last_pull_at := None;
                      SyncState.last_push_at := None;
                      SyncState.last_sync_version := 0 |} in
  let result := {| changes := Some (Relay.select_changes 0 5 mixed_log);
                   latest_version := Some 4 |} in
  SyncService.serverUrl c <> "" /\
  ok 200 = true /\
  let previous := SyncState.last_sync_version syncState in
  let cursor := cursor_after (latest_version result) previous in
  exists c',
    SyncService.sync (SyncService.relay_push sample_length 9) SyncService.relay_pull 9 c
      mixed_log = (c', mixed_log, Ok tt) /\
    SyncService.sync_state c'
    = SyncState.update_where (SyncService.terminalId c)
        (SyncState.pulled 9 cursor)
        (SyncService.sync_state (SyncService.log LogStarting c)) /\
    (forall row, In row (SyncService.sync_state c') ->
       SyncState.of_terminal (SyncService.terminalId c) row = true ->
       SyncState.last_pull_at row = Some 9 /\
       SyncState.last_sync_version row = cursor) /\
    (exists row, In row (SyncService.sync_state c') /\
       SyncState.of_terminal (SyncService.terminalId c) row = true) /\
    (forall v, latest_version result = Some v -> v <> 0 -> cursor = v) /\
    (latest_version result = Some 0 \/ latest_version result = None ->
     cursor = previous) /\
    (SyncService.unsyncedItems c = [] ->
     SyncService.log LogStarting c = SyncService.log LogStarting c /\
     mixed_log = mixed_log).
Proof.
  assert (Hurl : SyncService.serverUrl (terminal5 0) <> "")
    by (vm_compute; discriminate).
  split; [exact Hurl|split; [reflexivity|]].
  apply (successful_pull_moves_cursor (SyncService.relay_push sample_length 9)
           SyncService.relay_pull 9 (terminal5 0) mixed_log
           (SyncService.log LogStarting (terminal5 0)) mixed_log
           {| SyncState.id := 1; SyncState.terminal_id := 5;
              SyncState.last_pull_at := None;
              SyncState.last_push_at := None;
              SyncState.last_sync_version := 0 |}
           mixed_log 200
           {| changes := Some (Relay.select_changes 0 5 mixed_log);
              latest_version := Some 4 |} Hurl);
    reflexivity.
Defined.

(** That cycle moves the cursor of terminal 5 from 0 to 4. *)
Example cursor_follows_relay :
  let run := SyncService.sync (SyncService.relay_push sample_length 9) SyncService.relay_pull
               9 (terminal5 0) mixed_log in
  map SyncState.last_sync_version (SyncService.sync_state (fst (fst run)))
  = [4].
Proof. reflexivity. Qed.

Lemma synced_rows_were_acknowledged_witness :
  let c1 := enqueue (terminal5 0) (price_change 1) in
  let c2 := fst (fst (SyncService.pushChanges (SyncService.relay_push sample_length 9) 9 c1
                        Relay.empty)) in
  let acked := [] ++ SyncService.acknowledged (SyncService.relay_push sample_length 9) c1
                       Relay.empty in
  SyncService.reachable (SyncService.relay_push sample_length 9) SyncService.relay_pull
    c2 acked /\
  forall r, In r (SyncService.sync_outbox c2) ->
            Outbox.synced r = true -> In (Outbox.id r) acked.
Proof.
  assert (Hreach : SyncService.reachable (SyncService.relay_push sample_length 9)
                     SyncService.relay_pull
                     (fst (fst (SyncService.pushChanges
                                  (SyncService.relay_push sample_length 9) 9
                                  (enqueue (terminal5 0) (price_change 1))
                                  Relay.empty)))
                     ([] ++ SyncService.acknowledged (SyncService.relay_push sample_length 9)
                              (enqueue (terminal5 0) (price_change 1))
                              Relay.empty)).
  { apply SyncService.reach_push.
    apply (SyncService.reach_enqueue (SyncService.relay_push sample_length 9)
             SyncService.relay_pull (terminal5 0) []).
    apply SyncService.reach_init.
    intros r H; simpl in H; contradiction. }
  split; [exact Hreach|].
  apply (synced_rows_were_acknowledged (SyncService.relay_push sample_length 9)
           SyncService.relay_pull _ _ Hreach).
Defined.

Example pushed_row_is_acknowledged :
  let c1 := enqueue (terminal5 0) (price_change 1) in
  let c2 := fst (fst (SyncService.pushChanges (SyncService.relay_push sample_length 9) 9 c1
                        Relay.empty)) in
  map Outbox.synced (SyncService.sync_outbox c2) = [true] /\
  SyncService.acknowledged (SyncService.relay_push sample_length 9) c1 Relay.empty = [1].
Proof. split; reflexivity. Qed.

(** A terminal row and a store row exist for the identity of the service, so
    that [addToOutbox] passes its foreign keys. *)
Lemma identity_passes_foreign_keys c t :
  SyncService.terminalId c = Some t ->
  In t (map terminal_rowid (SyncService.terminals c)) ->
  In (SyncService.storeId c) (Local.stores (SyncService.db c)) ->
  existsb (Z.eqb (SyncService.storeId c)) (Local.stores (SyncService.db c))
  && match SyncService.terminalId c with
     | Some tid => existsb (Z.eqb tid)
                     (map terminal_rowid (SyncService.terminals c))
     | None => true
     end = true.
Proof.
  intros -> Ht Hs.
  apply andb_true_iff; split; apply existsb_exists; eexists;
    (split; [eassumption|apply Z.eqb_refl]).
Qed.

Lemma enqueue_all_appends ms :
  forall c t,
    SyncService.terminalId c = Some t ->
    In t (map terminal_rowid (SyncService.terminals c)) ->
    In (SyncService.storeId c) (Local.stores (SyncService.db c)) ->
    exists news,
      SyncService.sync_outbox (enqueue_all ms c)
      = SyncService.sync_outbox c ++ news /\
      length news = length ms /\
      (forall r, In r news -> Outbox.synced r = false) /\
      SyncService.terminalId (enqueue_all ms c) = SyncService.terminalId c /\
      SyncService.storeId (enqueue_all ms c) = SyncService.storeId c /\
      SyncService.serverUrl (enqueue_all ms c) = SyncService.serverUrl c.
Proof.
  induction ms as [|m ms IH]; intros c t Ht Hterm Hstore.
  - exists []; rewrite app_nil_r; simpl; repeat split; auto.
    intros r [].
  - cbn [enqueue_all fold_left].
    fold (enqueue_all ms (enqueue c m)).
    pose proof (identity_passes_foreign_keys c t Ht Hterm Hstore) as Hfk.
    assert (Hc : enqueue c m
                 = SyncService.with_outbox
                     (SyncService.sync_outbox c ++
                        [ {| Outbox.id := SyncService.sync_outbox_seq c + 1;
                             Outbox.entity_type := m_entity_type m;
                             Outbox.entity_id := m_entity_id m;
                             Outbox.action := m_action m;
                             Outbox.data := m_data m;
                             Outbox.store_id := SyncService.storeId c;
                             Outbox.terminal_id := SyncService.terminalId c;
                             Outbox.synced := false;
                             Outbox.sync_attempts := 0;
                             Outbox.last_sync_attempt := None;
                             Outbox.created_at := at_time m |} ])
                     (SyncService.sync_outbox_seq c + 1) c).
    { unfold enqueue, SyncService.addToOutbox; now rewrite Hfk. }
    destruct (IH (enqueue c m) t) as (news & Hout & Hlen & Hall & Hi & Hs & Hu);
      try (rewrite Hc; simpl; assumption).
    rewrite Hc in Hout, Hi, Hs, Hu; simpl in Hout, Hi, Hs, Hu.
    rewrite <- Hc in Hout, Hi, Hs, Hu.
    eexists; split; [rewrite Hout, <- app_assoc; reflexivity|].
    repeat split; auto.
    + simpl; now rewrite Hlen.
    + intros r [<-|Hr]; [reflexivity|now apply Hall].
Qed.

Lemma insert_loop_outbox now s t items :
  forall v st, exists v' st',
    Relay.insert_loop now (Some (JNum s)) (Some (JNum t))
      (map Outbox.to_json items) v st = Ok (v', st').
Proof.
  induction items as [|r items IH]; intros v st; simpl.
  - eauto.
  - apply IH.
Qed.

Lemma push_outbox_accepted now relay c items t :
  SyncService.terminalId c = Some t -> t <> 0 ->
  SyncService.storeId c <> 0 ->
  exists relay' v,
    Relay.push now relay (SyncService.push_request c items)
    = (relay', Relay.PushOk (Z.of_nat (length (map Outbox.to_json items))) v).
Proof.
  intros Ht Hnz Hs.
  unfold Relay.push, SyncService.push_request; rewrite Ht; simpl.
  apply Z.eqb_neq in Hnz, Hs; rewrite Hnz, Hs; simpl.
  unfold Relay.transaction.
  destruct (insert_loop_outbox now (SyncService.storeId c) t items
              (Relay.latest_version relay) relay) as (v' & st' & ->).
  simpl; eauto.
Qed.

Lemma filter_all {A : Type} (f : A -> bool) (l : list A) :
  (forall x, In x l -> f x = true) -> filter f l = l.
Proof.
  induction l as [|x l IH]; simpl; intros H; [reflexivity|].
  rewrite (H x) by now left.
  f_equal; apply IH; intros; apply H; now right.
Qed.

Lemma filter_nothing {A : Type} (f : A -> bool) (l : list A) :
  (forall x, In x l -> f x = false) -> filter f l = [].
Proof.
  induction l as [|x l IH]; simpl; intros H; [reflexivity|].
  rewrite (H x) by now left.
  apply IH; intros; apply H; now right.
Qed.

(** With at most 100 pending rows, the batch is all of them. *)
Lemma unsyncedItems_all c old news :
  SyncService.sync_outbox c = old ++ news ->
  (forall r, In r old -> Outbox.synced r = true) ->
  (forall r, In r news -> Outbox.synced r = false) ->
  (length news <= 100)%nat ->
  SyncService.unsyncedItems c = order_by Outbox.created_at news.
Proof.
  intros Hout Hold Hnew Hlen.
  unfold SyncService.unsyncedItems; rewrite Hout, filter_app.
  rewrite (filter_nothing _ old), (filter_all _ news); cbn [app].
  - apply firstn_all2; now rewrite order_by_length.
  - intros r Hr; now rewrite (Hnew r Hr).
  - intros r Hr; now rewrite (Hold r Hr).
Qed.

Lemma mark_synced_all ids rows :
  (forall r, In r rows -> Outbox.synced r = true \/ In (Outbox.id r) ids) ->
  forall r', In r' (Outbox.update_in ids Outbox.mark_synced rows) ->
             Outbox.synced r' = true.
Proof.
  intros H r' Hin.
  unfold Outbox.update_in in Hin.
  apply in_map_iff in Hin; destruct Hin as (r & Hr & Hin).
  destruct (existsb (Z.eqb (Outbox.id r)) ids) eqn:E; subst r';
    [reflexivity|].
  destruct (H r Hin) as [Hs|Hid]; [exact Hs|].
  assert (E' : existsb (Z.eqb (Outbox.id r)) ids = true).
  { apply existsb_exists; exists (Outbox.id r); split;
      [exact Hid|apply Z.eqb_refl]. }
  congruence.
Qed.

Lemma pullChanges_relay_unchanged now c relay :
  snd (fst (SyncService.pullChanges SyncService.relay_pull now c relay))
  = relay.
Proof.
  unfold SyncService.pullChanges.
  destruct (find _ (SyncService.sync_state c)) as [syncState|];
    [|reflexivity].
  unfold SyncService.relay_pull.
  destruct (Relay.pull relay _) as [rows latest n|]; simpl.
  - reflexivity.
  - reflexivity.
Qed.

(** One cycle against the relay, after the push phase went through. *)
Lemma sync_after_push content_length now relay_now c relay c1 relay1 :
  SyncService.serverUrl c <> "" ->
  SyncService.pushChanges (SyncService.relay_push content_length relay_now) now
    (SyncService.log LogStarting c) relay = (c1, relay1, Ok tt) ->
  let run := SyncService.sync (SyncService.relay_push content_length relay_now)
               SyncService.relay_pull now c relay in
  SyncService.sync_outbox (fst (fst run)) = SyncService.sync_outbox c1 /\
  snd (fst run) = relay1.
Proof.
  intros Hurl Hp.
  unfold SyncService.sync.
  apply String.eqb_neq in Hurl; rewrite Hurl, Hp.
  cbv beta iota zeta.
  pose proof (pullChanges_keeps_outbox SyncService.relay_pull now c1 relay1)
    as Ho.
  pose proof (pullChanges_relay_unchanged now c1 relay1) as Hr.
  destruct (SyncService.pullChanges SyncService.relay_pull now c1 relay1)
    as [[c2 relay2] [u|e]]; simpl in *; auto.
Qed.

(** A push that the relay confirms was within the body limit and went
    through the handler. *)
Lemma relay_push_confirmed content_length now body relay relay1 status :
  SyncService.relay_push content_length now body relay
  = (relay1, Responded status tt) ->
  ok status = true ->
  content_length body <= SyncService.body_limit /\
  exists k v, Relay.push now relay body = (relay1, Relay.PushOk k v).
Proof.
  unfold SyncService.relay_push.
  destruct (Z.ltb_spec SyncService.body_limit (content_length body)) as [L|L].
  - intros H; injection H as <- <-; discriminate.
  - destruct (Relay.push now relay body) as [r' [k v| |]];
      intros H; injection H as <- <-; try discriminate.
    intros _; split; [exact L|eauto].
Qed.

(** A body within the limit reaches the handler. *)
Lemma relay_push_within_limit content_length now body relay :
  content_length body <= SyncService.body_limit ->
  SyncService.relay_push content_length now body relay
  = (fst (Relay.push now relay body),
     Responded (SyncService.push_status (snd (Relay.push now relay body))) tt).
Proof.
  intros L; unfold SyncService.relay_push.
  destruct (Z.ltb_spec SyncService.body_limit (content_length body));
    [lia|].
  destruct (Relay.push now relay body); reflexivity.
Qed.

(** What the relay's log gains by a confirmed push of outbox rows. *)
Lemma relay_push_accepted content_length relay_now relay c items relay1 status :
  SyncService.relay_push content_length relay_now
    (SyncService.push_request c items) relay
  = (relay1, Responded status tt) ->
  ok status = true ->
  exists rows,
    Relay.sync_changes relay1 = Relay.sync_changes relay ++ rows /\
    length rows = length items /\
    map Relay.version rows
    = versions_after (Relay.latest_version relay) (length items) /\
    Relay.latest_version relay1
    = Relay.latest_version relay + Z.of_nat (length items).
Proof.
  intros Hpush Hok.
  destruct (relay_push_confirmed _ _ _ _ _ _ Hpush Hok)
    as (_ & k & v & Hp).
  apply push_ok_inv in Hp; destruct Hp as (cs & Hcs & Hk & T).
  simpl in Hcs; injection Hcs as <-.
  unfold Relay.transaction in T.
  bind_inv T; destruct a as [v0 st0]; injection T as H.
  apply insert_loop_ok in E; destruct E as (-> & _ & rows & Hrows & Hvs & Hall).
  rewrite length_map in *.
  subst relay1.
  exists rows; simpl; repeat split; auto.
  apply Forall2_length in Hall; now rewrite length_map in Hall.
Qed.

(** C3, as stated, fails: after 101 mutations one sync cycle against a
    reachable relay that accepts the push marks 100 outbox rows synced and
    leaves the newest one pending; the relay's log holds 100 new entries. *)
Lemma sync_leaves_101st_mutation_pending :
  let c1 := enqueue_all (price_changes 101) (terminal5 0) in
  let run := SyncService.sync (SyncService.relay_push sample_length 500)
               SyncService.relay_pull 500 c1 Relay.empty in
  snd (SyncService.relay_push sample_length 500
         (SyncService.push_request c1 (SyncService.unsyncedItems c1))
         Relay.empty) = Responded 200 tt /\
  snd run = Ok tt /\
  length (SyncService.sync_outbox c1) = 101%nat /\
  map Outbox.id
      (filter (fun r => negb (Outbox.synced r))
              (SyncService.sync_outbox (fst (fst run)))) = [101] /\
  length (Relay.sync_changes (snd (fst run))) = 100%nat.
Proof. vm_compute; repeat split; reflexivity. Qed.

(** C3, amended: for every N up to the batch size of 100, after N mutations
    are enqueued on an initialised terminal whose outbox had nothing pending,
    one sync cycle against a reachable relay that accepts the push (answers
    it with a 2xx status) leaves all outbox rows synced, and the relay's
    change log holds exactly N new rows, with the versions
    latest_version + 1, ..., latest_version + N. *)
Theorem sync_pushes_whole_outbox content_length now relay_now c relay ms t
    relay1 status :
  SyncService.terminalId c = Some t ->
  SyncService.serverUrl c <> "" ->
  In t (map terminal_rowid (SyncService.terminals c)) ->
  In (SyncService.storeId c) (Local.stores (SyncService.db c)) ->
  (forall r, In r (SyncService.sync_outbox c) -> Outbox.synced r = true) ->
  (length ms <= 100)%nat ->
  let c1 := enqueue_all ms c in
  SyncService.relay_push content_length relay_now
    (SyncService.push_request c1 (SyncService.unsyncedItems c1)) relay
  = (relay1, Responded status tt) ->
  ok status = true ->
  let run := SyncService.sync (SyncService.relay_push content_length relay_now)
               SyncService.relay_pull now c1 relay in
  let c2 := fst (fst run) in
  let relay' := snd (fst run) in
  length (SyncService.sync_outbox c2)
  = (length (SyncService.sync_outbox c) + length ms)%nat /\
  (forall r, In r (SyncService.sync_outbox c2) -> Outbox.synced r = true) /\
  exists rows,
    Relay.sync_changes relay' = Relay.sync_changes relay ++ rows /\
    length rows = length ms /\
    map Relay.version rows
    = versions_after (Relay.latest_version relay) (length ms) /\
    Relay.latest_version relay'
    = Relay.latest_version relay + Z.of_nat (length ms).
Proof.
  intros Ht Hurl Hterm Hstore Hold Hlen c1 Hpush Hok run c2 relay'.
  destruct (enqueue_all_appends ms c t Ht Hterm Hstore)
    as (news & Hout & Hnews & Hall & Hi & Hsid & Hu).
  fold c1 in Hout, Hi, Hsid, Hu.
  assert (Hurl1 : SyncService.serverUrl c1 <> "") by now rewrite Hu.
  assert (Hitems : SyncService.unsyncedItems c1
                   = order_by Outbox.created_at news).
  { apply (unsyncedItems_all c1 (SyncService.sync_outbox c) news); auto.
    now rewrite Hnews. }
  assert (Hn : length (SyncService.unsyncedItems c1) = length ms).
  { now rewrite Hitems, order_by_length. }
  destruct (SyncService.unsyncedItems c1) as [|x items] eqn:E.
  - (* nothing to push: no request is made *)
    destruct ms; [|discriminate].
    destruct news; [|discriminate].
    destruct (sync_after_push content_length now relay_now c1 relay
                (SyncService.log LogStarting c1) relay Hurl1) as (Ho & Hr).
    { apply pushChanges_skipped; exact E. }
    fold run in Ho, Hr; fold c2 in Ho; fold relay' in Hr.
    rewrite Ho, Hr; simpl; rewrite Hout, app_nil_r.
    repeat split; auto.
    exists []; rewrite app_nil_r; repeat split; simpl; lia.
  - rewrite <- E in *.
    destruct (relay_push_accepted content_length relay_now relay c1
                (SyncService.unsyncedItems c1) relay1 status Hpush Hok)
      as (rows & Hrows & Hlr & Hvs & Hlv).
    destruct (sync_after_push content_length now relay_now c1 relay
                (SyncService.with_sync_state
                   (SyncState.update_where (SyncService.terminalId c1)
                      (SyncState.pushed now) (SyncService.sync_state c1))
                   (SyncService.with_outbox
                      (Outbox.update_in
                         (map Outbox.id (SyncService.unsyncedItems c1))
                         Outbox.mark_synced (SyncService.sync_outbox c1))
                      (SyncService.sync_outbox_seq c1)
                      (SyncService.log
                         (LogPushing (length (SyncService.unsyncedItems c1)))
                         (SyncService.log LogStarting c1))))
                relay1 Hurl1) as (Ho & Hr).
    { apply (pushChanges_confirmed
               (SyncService.relay_push content_length relay_now) now
               (SyncService.log LogStarting c1) relay relay1
               (Responded status tt)).
      - change (SyncService.unsyncedItems (SyncService.log LogStarting c1))
          with (SyncService.unsyncedItems c1).
        rewrite E; discriminate.
      - exact Hpush.
      - exact Hok. }
    fold run in Ho, Hr; fold c2 in Ho; fold relay' in Hr.
    rewrite Ho, Hr; cbn [SyncService.sync_outbox SyncService.with_sync_state
                         SyncService.with_outbox].
    split; [|split].
    + unfold Outbox.update_in; rewrite length_map, Hout, length_app; lia.
    + apply mark_synced_all.
      intros r Hin; rewrite Hout in Hin.
      apply in_app_or in Hin; destruct Hin as [Hin|Hin]; [left; auto|right].
      apply in_map; rewrite Hitems.
      now apply (order_by_In Outbox.created_at).
    + exists rows; rewrite <- Hn; auto.
Qed.

Lemma sync_pushes_whole_outbox_witness :
  let c := terminal5 0 in
  let ms := price_changes 3 in
  let c1 := enqueue_all ms c in
  let answer := SyncService.relay_push sample_length 500
                  (SyncService.push_request c1 (SyncService.unsyncedItems c1))
                  mixed_log in
  SyncService.terminalId c = Some 5 /\
  SyncService.serverUrl c <> "" /\
  In 5 (map terminal_rowid (SyncService.terminals c)) /\
  In (SyncService.storeId c) (Local.stores (SyncService.db c)) /\
  (forall r, In r (SyncService.sync_outbox c) -> Outbox.synced r = true) /\
  (length ms <= 100)%nat /\
  answer = (fst answer, Responded 200 tt) /\
  ok 200 = true /\
  let run := SyncService.sync (SyncService.relay_push sample_length 500)
               SyncService.relay_pull 500 c1 mixed_log in
  let c2 := fst (fst run) in
  let relay' := snd (fst run) in
  length (SyncService.sync_outbox c2)
  = (length (SyncService.sync_outbox c) + length ms)%nat /\
  (forall r, In r (SyncService.sync_outbox c2) -> Outbox.synced r = true) /\
  exists rows,
    Relay.sync_changes relay' = Relay.sync_changes mixed_log ++ rows /\
    length rows = length ms /\
    map Relay.version rows
    = versions_after (Relay.latest_version mixed_log) (length ms) /\
    Relay.latest_version relay'
    = Relay.latest_version mixed_log + Z.of_nat (length ms).
Proof.
  assert (H1 : SyncService.terminalId (terminal5 0) = Some 5) by reflexivity.
  assert (H4 : SyncService.serverUrl (terminal5 0) <> "")
    by (vm_compute; discriminate).
  assert (H5 : In 5 (map terminal_rowid (SyncService.terminals (terminal5 0))))
    by (simpl; auto).
  assert (H6 : In (SyncService.storeId (terminal5 0))
                  (Local.stores (SyncService.db (terminal5 0))))
    by (simpl; auto).
  assert (H7 : forall r, In r (SyncService.sync_outbox (terminal5 0)) ->
                         Outbox.synced r = true)
    by (intros r H; simpl in H; contradiction).
  assert (H8 : (length (price_changes 3) <= 100)%nat) by (simpl; lia).
  assert (H9 : SyncService.relay_push sample_length 500
                 (SyncService.push_request
                    (enqueue_all (price_changes 3) (terminal5 0))
                    (SyncService.unsyncedItems
                       (enqueue_all (price_changes 3) (terminal5 0))))
                 mixed_log
               = (fst (SyncService.relay_push sample_length 500
                         (SyncService.push_request
                            (enqueue_all (price_changes 3) (terminal5 0))
                            (SyncService.unsyncedItems
                               (enqueue_all (price_changes 3) (terminal5 0))))
                         mixed_log),
                  Responded 200 tt))
    by (vm_compute; reflexivity).
  assert (H10 : ok 200 = true) by reflexivity.
  repeat (split; [assumption|]).
  apply (sync_pushes_whole_outbox sample_length 500 500 (terminal5 0)
           mixed_log (price_changes 3) 5 _ 200 H1 H4 H5 H6 H7 H8 H9 H10).
Defined.

Example three_mutations_get_versions :
  let c1 := enqueue_all (price_changes 3) (terminal5 0) in
  let run := SyncService.sync (SyncService.relay_push sample_length 500)
               SyncService.relay_pull 500 c1 mixed_log in
  map Outbox.synced (SyncService.sync_outbox (fst (fst run)))
  = [true; true; true] /\
  map Relay.version (Relay.sync_changes (snd (fst run)))
  = [3; 1; 2; 4; 5; 6; 7].
Proof. split; reflexivity. Qed.

(** * Further properties *)

(** ** The relay: which pushes are accepted *)

Lemma insert_change_succeeds now sid tid change v st :
  binds_value sid = true -> binds tid = true -> insertable change = true ->
  exists st', Relay.insert_change now sid tid change v st = Ok st'.
Proof.
  unfold insertable, binds_value, binds, Relay.insert_change; simpl.
  intros Hs Ht Hc.
  repeat rewrite andb_true_iff in Hc.
  destruct Hc as (H1 & H2 & H3 & H4 & _).
  destruct (prop change "entity_type") as [et|]; [|discriminate].
  destruct (prop change "entity_id") as [ei|]; [|discriminate].
  destruct (prop change "action") as [ac|]; [|discriminate].
  destruct (prop change "data") as [da|]; [|discriminate].
  cbn [bind].
  destruct (bind_param sid) as [[| | |]|]; try discriminate;
  destruct (bind_param tid) as [c_term|]; try discriminate;
  destruct (bind_param et) as [[| | |]|]; try discriminate;
  destruct (bind_param ei) as [[| | |]|]; try discriminate;
  destruct (bind_param ac) as [[| | |]|]; try discriminate;
  destruct (bind_param da) as [[| | |]|]; try discriminate;
  cbn; eauto.
Qed.

Lemma insert_change_fails now sid tid change v st :
  binds_value sid && binds tid && insertable change = false ->
  exists e, Relay.insert_change now sid tid change v st = Throw e.
Proof.
  unfold insertable, binds_value, binds, Relay.insert_change; simpl.
  intros H.
  destruct (prop change "entity_type") as [et|]; [|cbn; eauto].
  destruct (prop change "entity_id") as [ei|]; [|cbn; eauto].
  destruct (prop change "action") as [ac|]; [|cbn; eauto].
  destruct (prop change "data") as [da|]; [|cbn; eauto].
  cbn [bind].
  destruct (bind_param sid) as [[| | |]|];
  destruct (bind_param tid) as [c_term|];
  destruct (bind_param et) as [[| | |]|];
  destruct (bind_param ei) as [[| | |]|];
  destruct (bind_param ac) as [[| | |]|];
  destruct (bind_param da) as [[| | |]|];
  cbn in *; eauto; discriminate.
Qed.

Lemma insert_loop_succeeds now sid tid cs :
  binds_value sid = true -> binds tid = true ->
  forallb insertable cs = true ->
  forall v st, exists v' st',
    Relay.insert_loop now sid tid cs v st = Ok (v', st').
Proof.
  intros Hs Ht.
  induction cs as [|c cs IH]; intros Hall v st; simpl.
  - eauto.
  - simpl in Hall; apply andb_true_iff in Hall; destruct Hall as (Hc & Hcs).
    destruct (insert_change_succeeds now sid tid c (v + 1) st Hs Ht Hc)
      as (st1 & ->).
    cbn [bind]; now apply IH.
Qed.

Lemma insert_loop_fails now sid tid cs :
  cs <> [] ->
  binds_value sid && binds tid && forallb insertable cs = false ->
  forall v st, exists e,
    Relay.insert_loop now sid tid cs v st = Throw e.
Proof.
  induction cs as [|c cs IH]; intros Hne H v st; [congruence|].
  cbn [Relay.insert_loop].
  destruct (binds_value sid && binds tid && insertable c) eqn:Hc.
  - apply andb_true_iff in Hc; destruct Hc as (Hst & Hc).
    apply andb_true_iff in Hst; destruct Hst as (Hs & Ht).
    destruct (insert_change_succeeds now sid tid c (v + 1) st Hs Ht Hc)
      as (st1 & ->).
    cbn [bind].
    rewrite Hs, Ht in H; simpl in H; rewrite Hc in H; simpl in H.
    destruct cs as [|c' cs']; [discriminate|].
    apply IH; [discriminate|].
    now rewrite Hs, Ht.
  - destruct (insert_change_fails now sid tid c (v + 1) st Hc) as (e & ->).
    cbn; eauto.
Qed.

Lemma truthy_binds_value v : truthy v = true -> binds_value v = binds v.
Proof.
  unfold binds_value, binds.
  destruct v as [[| | | | | |]|]; simpl; intros; congruence.
Qed.

(** The handler accepts a body exactly when it is [acceptable]. *)
Lemma push_handler_accepts now st body :
  (acceptable body = true ->
   exists st' v n,
     Relay.body_changes body = Some (JArr n) /\
     Relay.push now st body = (st', Relay.PushOk (Z.of_nat (length n)) v)) /\
  (acceptable body = false ->
   fst (Relay.push now st body) = st /\
   (snd (Relay.push now st body) = Relay.PushInvalid \/
    snd (Relay.push now st body) = Relay.PushError)).
Proof.
  unfold acceptable, Relay.push.
  destruct (truthy (Relay.body_terminal_id body)) eqn:Et; simpl;
    [|split; [discriminate|auto]].
  destruct (truthy (Relay.body_store_id body)) eqn:Es; simpl;
    [|split; [discriminate|auto]].
  destruct (Relay.body_changes body) as [[|b|n|s|j|cs|fs]|]; simpl;
    rewrite ?orb_true_r; simpl; try (split; [discriminate|auto]).
  destruct cs as [|c cs].
  - split; [|discriminate].
    intros _; unfold Relay.transaction; simpl.
    do 2 eexists; exists []; split; reflexivity.
  - rewrite <- (truthy_binds_value _ Es).
    split; intros H.
    + apply andb_true_iff in H; destruct H as (H & Hall).
      apply andb_true_iff in H; destruct H as (Ht & Hs).
      unfold Relay.transaction.
      destruct (insert_loop_succeeds now _ _ (c :: cs) Hs Ht Hall
                  (Relay.latest_version st) st) as (v' & st' & ->).
      cbn [bind]; do 2 eexists; exists (c :: cs); split; reflexivity.
    + unfold Relay.transaction.
      destruct (insert_loop_fails now (Relay.body_store_id body)
                  (Relay.body_terminal_id body) (c :: cs)) with
        (v := Relay.latest_version st) (st := st) as (e & ->);
        [discriminate| |cbn; auto].
      rewrite (andb_comm (binds_value _)); exact H.
Qed.

(** X1: for a push none of whose statement arguments is an array, whether
    the relay answers 200 is decided by the request alone, never by what the
    relay already stores: it does exactly when the body is no longer than
    10 MB, terminal_id and store_id are truthy, changes is a list, and,
    unless the list is empty, both ids are numbers or strings and every
    element carries a number or string for entity_type, entity_id, action
    and data. A push that is not accepted is answered 400, 413 or 500 and
    leaves the relay's database as it was, also when the element that fails
    comes after elements whose inserts went through. *)
Theorem push_accepted_iff_acceptable content_length now st body :
  spread_free body = true ->
  let answer := SyncService.relay_push content_length now body st in
  (content_length body <= SyncService.body_limit ->
   acceptable body = true ->
   exists st' v n,
     Relay.body_changes body = Some (JArr n) /\
     Relay.push now st body = (st', Relay.PushOk (Z.of_nat (length n)) v) /\
     answer = (st', Responded 200 tt)) /\
  (SyncService.body_limit < content_length body \/ acceptable body = false ->
   fst answer = st /\
   exists status,
     snd answer = Responded status tt /\
     (status = 400 \/ status = 413 \/ status = 500)).
Proof.
  intros _ answer; unfold answer.
  destruct (push_handler_accepts now st body) as (Hyes & Hno).
  split.
  - intros Hlen Hacc.
    destruct (Hyes Hacc) as (st' & v & n & Hn & Hpush).
    exists st', v, n; split; [exact Hn|split; [exact Hpush|]].
    rewrite relay_push_within_limit by exact Hlen.
    now rewrite Hpush.
  - intros H.
    destruct (Z.ltb_spec SyncService.body_limit (content_length body))
      as [L|L].
    + unfold SyncService.relay_push.
      apply Z.ltb_lt in L; rewrite L; cbn [fst snd].
      split; [reflexivity|exists 413; auto].
    + destruct H as [H|H]; [lia|].
      rewrite relay_push_within_limit by exact L.
      destruct (Hno H) as (Hst & [Hr|Hr]); cbn [fst snd];
        rewrite Hr; (split; [exact Hst|]);
        [exists 400|exists 500]; auto.
Qed.


(** ** The relay: numbering of the change log *)

Lemma map_seq_shift (from : Z) (m : nat) :
  forall k s,
    map (fun i => from + Z.of_nat i) (seq (m + s) k)
    = map (fun i => from + Z.of_nat m + Z.of_nat i) (seq s k).
Proof.
  induction k as [|k IH]; intros s; simpl; [reflexivity|].
  f_equal; [lia|].
  rewrite <- IH; f_equal; f_equal; lia.
Qed.

Lemma versions_after_app (from : Z) (n k : nat) :
  versions_after from (n + k)
  = versions_after from n ++ versions_after (from + Z.of_nat n) k.
Proof.
  unfold versions_after.
  rewrite seq_app, map_app; f_equal.
  rewrite <- map_seq_shift; f_equal; f_equal; lia.
Qed.

Lemma insert_change_rowid now sid tid change v st st' :
  Relay.insert_change now sid tid change v st = Ok st' ->
  exists r,
    Relay.sync_changes st' = Relay.sync_changes st ++ [r] /\
    Relay.id r = Relay.sync_changes_seq st + 1 /\
    Relay.version r = v /\
    Relay.created_at r = now /\
    Relay.sync_changes_seq st' = Relay.sync_changes_seq st + 1.
Proof.
  unfold Relay.insert_change; intros H.
  do 15 bind_inv H.
  injection H as <-.
  eexists; simpl; repeat split.
Qed.

Lemma insert_loop_rowids now sid tid changes :
  forall v st v' st',
    Relay.insert_loop now sid tid changes v st = Ok (v', st') ->
    exists rows,
      Relay.sync_changes st' = Relay.sync_changes st ++ rows /\
      length rows = length changes /\
      map Relay.id rows
      = versions_after (Relay.sync_changes_seq st) (length changes) /\
      map Relay.version rows = versions_after v (length changes) /\
      Forall (fun r => Relay.created_at r = now) rows /\
      Relay.sync_changes_seq st'
      = Relay.sync_changes_seq st + Z.of_nat (length changes) /\
      v' = v + Z.of_nat (length changes).
Proof.
  induction changes as [|change rest IH]; intros v st v' st' H.
  - simpl in H; injection H as <- <-.
    exists []; rewrite app_nil_r; simpl; repeat split; auto; lia.
  - cbn [Relay.insert_loop] in H.
    bind_inv H.
    apply insert_change_rowid in E.
    destruct E as (r & Hr & Hid & Hv & Hc & Hseq).
    apply IH in H.
    destruct H as (rows & Hrows & Hlen & Hids & Hvs & Hcs & Hseq' & ->).
    exists (r :: rows); cbn [length map].
    rewrite !versions_after_cons.
    repeat split.
    + rewrite Hrows, Hr, <- app_assoc; reflexivity.
    + now rewrite Hlen.
    + rewrite Hid, Hids, Hseq; reflexivity.
    + rewrite Hv, Hvs; reflexivity.
    + constructor; assumption.
    + lia.
    + lia.
Qed.

(** What an accepted push appends. *)
Lemma push_ok_appends now st body st' k v :
  Relay.push now st body = (st', Relay.PushOk k v) ->
  exists cs rows,
    Relay.body_changes body = Some (JArr cs) /\
    k = Z.of_nat (length cs) /\
    Relay.sync_changes st' = Relay.sync_changes st ++ rows /\
    length rows = length cs /\
    map Relay.id rows
    = versions_after (Relay.sync_changes_seq st) (length cs) /\
    map Relay.version rows
    = versions_after (Relay.latest_version st) (length cs) /\
    Forall (fun r => Relay.created_at r = now) rows /\
    Forall2 (inserted_for (Relay.body_store_id body)
               (Relay.body_terminal_id body)) cs rows /\
    Relay.sync_changes_seq st'
    = Relay.sync_changes_seq st + Z.of_nat (length cs) /\
    Relay.latest_version st' = Relay.latest_version st + Z.of_nat (length cs) /\
    v = Relay.latest_version st'.
Proof.
  intros H.
  apply push_ok_inv in H; destruct H as (cs & Hcs & -> & T).
  unfold Relay.transaction in T.
  bind_inv T; destruct a as [v0 st0]; injection T as <- <-.
  pose proof E as E'.
  apply insert_loop_rowids in E.
  destruct E as (rows & Hrows & Hlen & Hids & Hvs & Hc & Hseq & ->).
  apply insert_loop_ok in E'.
  destruct E' as (_ & _ & rows' & Hrows' & _ & Hall).
  rewrite Hrows in Hrows'; apply app_inv_head in Hrows'; subst rows'.
  exists cs, rows; simpl; repeat split; auto.
Qed.

Lemma push_not_ok_unchanged now st body :
  (forall k v, snd (Relay.push now st body) <> Relay.PushOk k v) ->
  fst (Relay.push now st body) = st.
Proof.
  unfold Relay.push.
  destruct (_ || _); [reflexivity|].
  destruct (Relay.body_changes body) as [[| | | | |cs|]|]; try reflexivity.
  destruct (Relay.transaction _ _ _ cs st) as [[v0 st0]|e]; [|reflexivity].
  intros H; now elim (H (Z.of_nat (length cs)) v0).
Qed.

Lemma push_keeps_numbered now st body :
  numbered st -> numbered (fst (Relay.push now st body)).
Proof.
  intros (Hv & Hi & Hl & Hs).
  pose proof (push_not_ok_unchanged now st body) as Hsame.
  destruct (Relay.push now st body) as [st' [k v| |]] eqn:E; cbn [fst snd] in *;
    try (rewrite Hsame by discriminate; repeat split; assumption).
  apply push_ok_appends in E.
  destruct E as (cs & rows & _ & _ & Hrows & Hlen & Hids & Hvs & _ & _
                 & Hseq & Hlat & _).
  unfold numbered.
  rewrite Hrows, !map_app, length_app, Hlen, versions_after_app.
  rewrite Hv, Hi, Hids, Hvs, Hs, Hl, Hseq, Hlat, Hs, Hl, Z.add_0_l.
  repeat split; try reflexivity; rewrite Nat2Z.inj_add; reflexivity.
Qed.

Lemma reachable_numbered st : relay_reachable st -> numbered st.
Proof.
  induction 1 as [|now st body Hreach IH].
  - repeat split.
  - now apply push_keeps_numbered.
Qed.

(** X2: in every database the relay reaches from its initial one, whatever
    requests it served, the i-th row of the change log has version i and
    rowid i, without gaps or repeats, and latest_version is the number of
    rows: failed pushes consume no version. *)
Theorem reachable_log_is_numbered st :
  relay_reachable st -> numbered st.
Proof. apply reachable_numbered. Qed.

Lemma reachable_log_is_numbered_witness :
  relay_reachable (fst (Relay.push 7 Relay.empty two_changes)) /\
  numbered (fst (Relay.push 7 Relay.empty two_changes)).
Proof.
  assert (H : relay_reachable (fst (Relay.push 7 Relay.empty two_changes))).
  { apply relay_pushed, relay_initial. }
  split; [exact H|].
  apply (reachable_log_is_numbered _ H).
Defined.

Lemma versions_after_bounds from k v :
  In v (versions_after from k) -> from < v <= from + Z.of_nat k.
Proof.
  unfold versions_after; intros H.
  apply in_map_iff in H; destruct H as (i & <- & Hi).
  apply in_seq in Hi; lia.
Qed.

Lemma numbered_versions_bounded st r :
  numbered st -> In r (Relay.sync_changes st) ->
  0 < Relay.version r <= Relay.latest_version st.
Proof.
  intros (Hv & _ & Hl & _) Hin.
  rewrite Hl.
  assert (H : In (Relay.version r)
                 (versions_after 0 (length (Relay.sync_changes st)))).
  { rewrite <- Hv; now apply in_map. }
  apply versions_after_bounds in H; lia.
Qed.

(** ** The relay: dashboard *)

(** X3: on every database the relay reaches, the dashboard's total_syncs
    equals its latest_version, and syncs_today lies between 0 and that total. *)
Theorem dashboard_total_is_latest_version now st :
  relay_reachable st ->
  Dashboard.total_syncs (Dashboard.get_stats now st)
  = Dashboard.latest_version (Dashboard.get_stats now st) /\
  0 <= Dashboard.syncs_today (Dashboard.get_stats now st)
    <= Dashboard.total_syncs (Dashboard.get_stats now st).
Proof.
  intros H; apply reachable_numbered in H.
  destruct H as (_ & _ & Hl & _).
  unfold Dashboard.get_stats; simpl; rewrite Hl.
  split; [reflexivity|].
  split; [lia|].
  apply Nat2Z.inj_le, filter_length_le.
Qed.

Lemma dashboard_total_is_latest_version_witness :
  relay_reachable (fst (Relay.push 7 Relay.empty two_changes)) /\
  Dashboard.total_syncs
    (Dashboard.get_stats 90000 (fst (Relay.push 7 Relay.empty two_changes)))
  = Dashboard.latest_version
      (Dashboard.get_stats 90000 (fst (Relay.push 7 Relay.empty two_changes)))
  /\
  0 <= Dashboard.syncs_today
         (Dashboard.get_stats 90000 (fst (Relay.push 7 Relay.empty two_changes)))
    <= Dashboard.total_syncs
         (Dashboard.get_stats 90000 (fst (Relay.push 7 Relay.empty two_changes))).
Proof.
  assert (H : relay_reachable (fst (Relay.push 7 Relay.empty two_changes))).
  { apply relay_pushed, relay_initial. }
  split; [exact H|].
  apply (dashboard_total_is_latest_version 90000 _ H).
Defined.



(** ** The relay: a push followed by pulls *)

Lemma order_by_of_sorted {A : Type} (key : A -> Z) (l : list A) :
  StronglySorted (le_by key) l -> order_by key l = l.
Proof.
  induction 1 as [|x l Hs IH Hall]; simpl; [reflexivity|].
  rewrite IH.
  destruct l as [|y l']; simpl; [reflexivity|].
  inversion Hall as [|? ? Hxy _]; subst.
  unfold le_by in Hxy; apply Z.leb_le in Hxy; now rewrite Hxy.
Qed.

Lemma versions_after_sorted k :
  forall from, StronglySorted Z.le (versions_after from k).
Proof.
  induction k as [|k IH]; intros from.
  - constructor.
  - rewrite versions_after_cons; constructor; [apply IH|].
    apply Forall_forall; intros v Hv.
    apply versions_after_bounds in Hv; lia.
Qed.

Lemma sorted_by_map {A : Type} (key : A -> Z) (l : list A) :
  StronglySorted Z.le (map key l) -> StronglySorted (le_by key) l.
Proof.
  induction l as [|x l IH]; simpl; intros H; [constructor|].
  inversion H as [|? ? Hs Hall]; subst.
  constructor; [now apply IH|].
  rewrite Forall_map in Hall; exact Hall.
Qed.

Lemma no_rows_above_latest st since t :
  numbered st -> Relay.latest_version st <= since ->
  Relay.select_changes since t st = [].
Proof.
  intros Hn Hle.
  unfold Relay.select_changes.
  rewrite filter_nothing; [reflexivity|].
  intros r Hr.
  destruct (numbered_versions_bounded st r Hn Hr) as (_ & Hv).
  apply andb_false_iff; left; apply Z.ltb_ge; lia.
Qed.



(** ** The sync client: what a cycle does to the outbox *)

Lemma advanced_refl r : advanced r r.
Proof. unfold advanced, same_entry; repeat split; auto; lia. Qed.

Lemma Forall2_map_self {A : Type} (R : A -> A -> Prop) (f : A -> A) (l : list A) :
  (forall x, R x (f x)) -> Forall2 R l (map f l).
Proof. intros H; induction l; simpl; constructor; auto. Qed.

Lemma Forall2_same {A : Type} (R : A -> A -> Prop) (l : list A) :
  (forall x, R x x) -> Forall2 R l l.
Proof. intros H; induction l; constructor; auto. Qed.

Lemma update_in_advanced ids f rows :
  (forall r, advanced r (f r)) ->
  Forall2 advanced rows (Outbox.update_in ids f rows).
Proof.
  intros H; unfold Outbox.update_in.
  apply Forall2_map_self; intros r.
  destruct (existsb _ ids); [apply H|apply advanced_refl].
Qed.

Lemma mark_synced_advanced r : advanced r (Outbox.mark_synced r).
Proof. unfold advanced, same_entry; simpl; repeat split; auto; lia. Qed.

Lemma mark_attempt_advanced now r : advanced r (Outbox.mark_attempt now r).
Proof. unfold advanced, same_entry; simpl; repeat split; auto; lia. Qed.

Section ClientOutboxFacts.
Import SyncService.
Context {W : Type}.
Variable fetch_push : Relay.push_body -> W -> W * fetched unit.
Variable fetch_pull : Relay.pull_query -> W -> W * fetched (option pull_result).

Lemma pushChanges_advances now c w :
  Forall2 advanced (sync_outbox c)
    (sync_outbox (fst (fst (pushChanges fetch_push now c w)))) /\
  sync_outbox_seq (fst (fst (pushChanges fetch_push now c w)))
  = sync_outbox_seq c.
Proof.
  unfold SyncService.pushChanges.
  destruct (unsyncedItems c) as [|x items].
  - split; [apply Forall2_same, advanced_refl|reflexivity].
  - destruct (fetch_push _ w) as [w' [|status body]]; cbn [fst].
    + split; [|reflexivity].
      apply update_in_advanced, mark_attempt_advanced.
    + destruct (ok status); cbn [fst]; (split; [|reflexivity]).
      * apply update_in_advanced; intros; apply mark_synced_advanced.
      * apply update_in_advanced, mark_attempt_advanced.
Qed.

Lemma pullChanges_keeps_seq now c w :
  sync_outbox_seq (fst (fst (pullChanges fetch_pull now c w)))
  = sync_outbox_seq c.
Proof.
  unfold SyncService.pullChanges.
  destruct (find _ (sync_state c)) as [syncState|]; [|reflexivity].
  destruct (fetch_pull _ w) as [w' [|status body]]; [reflexivity|].
  destruct (ok status); [|reflexivity].
  destruct body as [result|]; [|reflexivity].
  cbn [fst sync_outbox_seq with_sync_state].
  destruct (match changes result with Some l => l | None => [] end)
    as [|x l]; [reflexivity|].
  destruct (applyRemoteChanges_frame now (x :: l)
              (log (LogApplying (length (x :: l))) c)) as (_ & Hs & _).
  exact Hs.
Qed.

Lemma sync_outbox_after now c w :
  exists c1,
    (c1 = c \/
     c1 = fst (fst (pushChanges fetch_push now (log LogStarting c) w))) /\
    sync_outbox (fst (fst (sync fetch_push fetch_pull now c w)))
    = sync_outbox c1 /\
    sync_outbox_seq (fst (fst (sync fetch_push fetch_pull now c w)))
    = sync_outbox_seq c1.
Proof.
  unfold SyncService.sync.
  destruct (String.eqb (serverUrl c) ""); [exists c; auto|].
  exists (fst (fst (pushChanges fetch_push now (log LogStarting c) w))).
  split; [now right|].
  destruct (pushChanges fetch_push now (log LogStarting c) w)
    as [[c1 w1] [u|e]]; cbn [fst]; [|auto].
  pose proof (pullChanges_keeps_outbox fetch_pull now c1 w1) as Ho.
  pose proof (pullChanges_keeps_seq now c1 w1) as Hs.
  destruct (pullChanges fetch_pull now c1 w1) as [[c2 w2] [u'|e]];
    cbn [fst] in *; simpl; auto.
Qed.

(** X6: a sync cycle, whatever the network and the relay answer, neither
    adds, removes nor reorders outbox rows and never rewrites what was
    enqueued (entity, action, payload, store, terminal, creation time); it
    only ever turns synced on, never off, and never lowers sync_attempts. *)
Theorem sync_only_advances_outbox now c w :
  Forall2 advanced (sync_outbox c)
    (sync_outbox (fst (fst (sync fetch_push fetch_pull now c w)))).
Proof.
  destruct (sync_outbox_after now c w) as (c1 & [->| ->] & -> & _).
  - apply Forall2_same, advanced_refl.
  - apply (pushChanges_advances now (log LogStarting c) w).
Qed.

Lemma Forall2_advanced_ids rows rows' :
  Forall2 advanced rows rows' -> map Outbox.id rows' = map Outbox.id rows.
Proof.
  induction 1 as [|r r' rows rows' (Hs & _) _ IH]; simpl; [reflexivity|].
  destruct Hs as (-> & _); now rewrite IH.
Qed.

(** X7: the outbox keeps its primary key through every operation of the sync
    client: if the rowids are distinct and bounded by the AUTOINCREMENT
    counter, they still are after addToOutbox (which takes a fresh rowid or,
    on a foreign-key failure, inserts nothing), pushChanges, pullChanges and
    sync. *)
Theorem outbox_stays_keyed c :
  outbox_keyed c ->
  (forall now entityType entityId action data,
      outbox_keyed (addToOutbox now entityType entityId action data c)) /\
  (forall now w,
      outbox_keyed (fst (fst (pushChanges fetch_push now c w))) /\
      outbox_keyed (fst (fst (pullChanges fetch_pull now c w))) /\
      outbox_keyed (fst (fst (sync fetch_push fetch_pull now c w)))).
Proof.
  intros (Hnd & Hle).
  assert (Hkeep : forall c',
            Forall2 advanced (sync_outbox c) (sync_outbox c') ->
            sync_outbox_seq c' = sync_outbox_seq c -> outbox_keyed c').
  { intros c' Hadv Hseq; split.
    - now rewrite (Forall2_advanced_ids _ _ Hadv).
    - intros r' Hr'.
      assert (Hid : In (Outbox.id r') (map Outbox.id (sync_outbox c)))
        by (rewrite <- (Forall2_advanced_ids _ _ Hadv); now apply in_map).
      apply in_map_iff in Hid; destruct Hid as (r & <- & Hr).
      rewrite Hseq; now apply Hle. }
  split.
  - intros now entityType entityId action data.
    unfold addToOutbox.
    destruct (_ && _); [|split; assumption].
    split; simpl.
    + rewrite map_app; simpl.
      apply NoDup_app; [exact Hnd|repeat constructor; intros []|].
      intros k Hk [<-|[]].
      apply in_map_iff in Hk; destruct Hk as (r & Hr & Hin).
      specialize (Hle r Hin); lia.
    + intros r Hr; apply in_app_or in Hr; destruct Hr as [Hr|[<-|[]]];
        [specialize (Hle r Hr); lia|simpl; lia].
  - intros now w; repeat split.
    + apply Hkeep; apply (pushChanges_advances now c w).
    + apply Hkeep; apply (pushChanges_advances now c w).
    + rewrite pullChanges_keeps_outbox; exact Hnd.
    + rewrite pullChanges_keeps_outbox, pullChanges_keeps_seq; exact Hle.
    + destruct (sync_outbox_after now c w) as (c1 & Hc1 & Ho & Hs).
      rewrite Ho.
      destruct Hc1 as [->| ->]; [exact Hnd|].
      rewrite (Forall2_advanced_ids _ _
                 (proj1 (pushChanges_advances now (log LogStarting c) w))).
      exact Hnd.
    + destruct (sync_outbox_after now c w) as (c1 & Hc1 & Ho & Hs).
      rewrite Ho, Hs.
      destruct Hc1 as [->| ->]; [exact Hle|].
      apply (Hkeep _ (proj1 (pushChanges_advances now (log LogStarting c) w))
               (proj2 (pushChanges_advances now (log LogStarting c) w))).
Qed.
End ClientOutboxFacts.

(** ** The sync client: batches, retries and progress *)

Lemma insert_by_map {A : Type} (key : A -> Z) (f : A -> A) (x : A) (l : list A) :
  (forall y, key (f y) = key y) ->
  insert_by key (f x) (map f l) = map f (insert_by key x l).
Proof.
  intros Hk; induction l as [|y l IH]; simpl; [reflexivity|].
  rewrite !Hk.
  destruct (key x <=? key y); simpl; [reflexivity|].
  now rewrite IH.
Qed.

Lemma order_by_map {A : Type} (key : A -> Z) (f : A -> A) (l : list A) :
  (forall y, key (f y) = key y) ->
  order_by key (map f l) = map f (order_by key l).
Proof.
  intros Hk; induction l as [|x l IH]; simpl; [reflexivity|].
  now rewrite IH, insert_by_map.
Qed.

Lemma filter_map_same {A : Type} (p : A -> bool) (f : A -> A) (l : list A) :
  (forall y, p (f y) = p y) ->
  filter p (map f l) = map f (filter p l).
Proof.
  intros Hp; induction l as [|x l IH]; simpl; [reflexivity|].
  rewrite Hp; destruct (p x); simpl; now rewrite IH.
Qed.

(** The batch, when rows are rewritten without touching [synced] or
    [created_at]. *)
Lemma unsyncedItems_map (f : Outbox.row -> Outbox.row) c c' :
  (forall r, Outbox.synced (f r) = Outbox.synced r) ->
  (forall r, Outbox.created_at (f r) = Outbox.created_at r) ->
  SyncService.sync_outbox c' = map f (SyncService.sync_outbox c) ->
  SyncService.unsyncedItems c' = map f (SyncService.unsyncedItems c).
Proof.
  intros Hs Hc Ho.
  unfold SyncService.unsyncedItems; rewrite Ho.
  rewrite filter_map_same by (intros; now rewrite Hs).
  rewrite order_by_map by exact Hc.
  now rewrite firstn_map.
Qed.

Lemma map_update_in_members ids f rows :
  (forall r, In r rows -> In (Outbox.id r) ids) ->
  map (fun r => if existsb (Z.eqb (Outbox.id r)) ids then f r else r) rows
  = map f rows.
Proof.
  intros H; apply map_ext_in; intros r Hr.
  assert (E : existsb (Z.eqb (Outbox.id r)) ids = true).
  { apply existsb_exists; exists (Outbox.id r); split;
      [now apply H|apply Z.eqb_refl]. }
  now rewrite E.
Qed.

Section ClientBatchFacts.
Import SyncService.
Context {W : Type}.
Variable fetch_push : Relay.push_body -> W -> W * fetched unit.
Variable fetch_pull : Relay.pull_query -> W -> W * fetched (option pull_result).

(** X8: the batch that pushChanges sends holds at most 100 rows, all of them
    pending rows of the outbox, in ascending order of created_at; it holds all
    pending rows when there are at most 100, and otherwise no pending row left
    out is older than a row of the batch. *)
Theorem batch_is_oldest_hundred c :
  let batch := unsyncedItems c in
  StronglySorted (le_by Outbox.created_at) batch /\
  length batch = Nat.min 100 (length (pending c)) /\
  (forall r, In r batch -> In r (pending c)) /\
  ((length (pending c) <= 100)%nat -> Permutation batch (pending c)) /\
  (forall r r', In r (pending c) -> ~ In r batch -> In r' batch ->
                Outbox.created_at r' <= Outbox.created_at r).
Proof.
  intros batch; unfold batch, unsyncedItems; fold (pending c).
  set (sorted := order_by Outbox.created_at (pending c)).
  assert (Hs : StronglySorted (le_by Outbox.created_at) sorted)
    by apply order_by_sorted.
  split; [now apply sorted_firstn|].
  split; [unfold sorted; now rewrite length_firstn, order_by_length|].
  split.
  { intros r Hr; apply (order_by_In Outbox.created_at); fold sorted.
    rewrite <- (firstn_skipn 100 sorted); apply in_or_app; now left. }
  split.
  { intros Hlen.
    rewrite firstn_all2 by (unfold sorted; now rewrite order_by_length).
    apply order_by_perm. }
  intros r r' Hr Hnot Hr'.
  apply (sorted_firstn_skipn Outbox.created_at 100 sorted Hs); auto.
  apply (order_by_In Outbox.created_at) in Hr; fold sorted in Hr.
  rewrite <- (firstn_skipn 100 sorted) in Hr.
  apply in_app_or in Hr; destruct Hr; [contradiction|assumption].
Qed.

(** X9: after a push that was not confirmed, the next batch is the same rows
    in the same order, each with its attempt recorded: a failed batch is
    retried as it was, and nothing that was enqueued later overtakes it. *)
Theorem unconfirmed_batch_is_retried now c w w1 response :
  unsyncedItems c <> [] ->
  fetch_push (push_request c (unsyncedItems c)) w = (w1, response) ->
  confirmed response = false ->
  unsyncedItems (fst (fst (pushChanges fetch_push now c w)))
  = map (Outbox.mark_attempt now) (unsyncedItems c).
Proof.
  intros Hne Hf Hc.
  destruct (pushChanges_unconfirmed fetch_push now c w w1 response Hne Hf Hc)
    as (e & ->).
  cbn [fst].
  set (ids := map Outbox.id (unsyncedItems c)).
  set (f := fun r => if existsb (Z.eqb (Outbox.id r)) ids
                     then Outbox.mark_attempt now r else r).
  rewrite (unsyncedItems_map f c).
  - apply map_update_in_members.
    intros r Hr; now apply in_map.
  - intros r; unfold f; destruct (existsb _ ids); reflexivity.
  - intros r; unfold f; destruct (existsb _ ids); reflexivity.
  - reflexivity.
Qed.

Lemma filter_length_perm {A : Type} (p : A -> bool) (l l' : list A) :
  Permutation l l' -> length (filter p l) = length (filter p l').
Proof.
  induction 1 as [|x l l' _ IH|x y l|l l' l'' _ IH1 _ IH2]; simpl.
  - reflexivity.
  - destruct (p x); simpl; now rewrite IH.
  - destruct (p x), (p y); reflexivity.
  - now rewrite IH1.
Qed.

Lemma pending_after_marking ids c :
  filter (fun r => negb (Outbox.synced r))
         (Outbox.update_in ids Outbox.mark_synced (sync_outbox c))
  = filter (fun r => negb (existsb (Z.eqb (Outbox.id r)) ids)) (pending c).
Proof.
  unfold pending, Outbox.update_in.
  induction (sync_outbox c) as [|r rows IH]; simpl; [reflexivity|].
  destruct (existsb (Z.eqb (Outbox.id r)) ids) eqn:E; simpl.
  - destruct (Outbox.synced r); simpl; rewrite ?E; exact IH.
  - destruct (Outbox.synced r); simpl; rewrite ?E, IH; reflexivity.
Qed.

Lemma NoDup_map_filter {A : Type} (key : A -> Z) (p : A -> bool) (l : list A) :
  NoDup (map key l) -> NoDup (map key (filter p l)).
Proof.
  induction l as [|x l IH]; simpl; intros H; [constructor|].
  inversion H as [|? ? Hx Hl]; subst.
  destruct (p x); simpl; [|now apply IH].
  constructor; [|now apply IH].
  intros Hin; apply Hx.
  apply in_map_iff in Hin; destruct Hin as (y & Hy & Hin).
  apply filter_In in Hin; destruct Hin as (Hin & _).
  apply in_map_iff; eauto.
Qed.

(** X10: when the outbox rowids are distinct, a confirmed push marks exactly
    its batch: the rows still pending afterwards are the pending rows outside
    the batch, so the number of pending rows drops by the size of the batch,
    100 or all of them. *)
Theorem confirmed_push_drains_batch now c w w1 response :
  NoDup (map Outbox.id (sync_outbox c)) ->
  unsyncedItems c <> [] ->
  fetch_push (push_request c (unsyncedItems c)) w = (w1, response) ->
  confirmed response = true ->
  let c' := fst (fst (pushChanges fetch_push now c w)) in
  pending c'
  = filter (fun r => negb (existsb (Z.eqb (Outbox.id r))
                             (map Outbox.id (unsyncedItems c))))
           (pending c) /\
  (forall r, In r (unsyncedItems c) -> ~ In r (pending c')) /\
  length (pending c')
  = (length (pending c) - Nat.min 100 (length (pending c)))%nat.
Proof.
  intros Hnd Hne Hf Hc c'.
  unfold c'.
  rewrite (pushChanges_confirmed fetch_push now c w w1 response Hne Hf Hc).
  cbn [fst].
  set (ids := map Outbox.id (unsyncedItems c)).
  assert (Hp : pending
                 (with_sync_state
                    (SyncState.update_where (terminalId c)
                       (SyncState.pushed now) (sync_state c))
                    (with_outbox
                       (Outbox.update_in ids Outbox.mark_synced (sync_outbox c))
                       (sync_outbox_seq c)
                       (log (LogPushing (length (unsyncedItems c))) c)))
               = filter (fun r => negb (existsb (Z.eqb (Outbox.id r)) ids))
                        (pending c)).
  { unfold pending at 1; simpl; apply pending_after_marking. }
  rewrite Hp.
  split; [reflexivity|split].
  - intros r Hr Hin.
    apply filter_In in Hin; destruct Hin as (_ & Hin).
    apply negb_true_iff in Hin.
    assert (E : existsb (Z.eqb (Outbox.id r)) ids = true).
    { apply existsb_exists; exists (Outbox.id r); split;
        [now apply in_map|apply Z.eqb_refl]. }
    congruence.
  - set (sorted := order_by Outbox.created_at (pending c)).
    assert (Hperm : Permutation (pending c)
                      (firstn 100 sorted ++ skipn 100 sorted)).
    { rewrite firstn_skipn; apply Permutation_sym, order_by_perm. }
    rewrite (filter_length_perm _ _ _ Hperm), filter_app, length_app.
    assert (Hids : ids = map Outbox.id (firstn 100 sorted)) by reflexivity.
    assert (Hnd' : NoDup (map Outbox.id (firstn 100 sorted ++ skipn 100 sorted))).
    { eapply Permutation_NoDup;
        [apply Permutation_map, Hperm|].
      unfold pending; now apply NoDup_map_filter. }
    rewrite map_app in Hnd'.
    rewrite filter_nothing, filter_all; cbn [length].
    + assert (Hl : length sorted = length (pending c))
        by apply order_by_length.
      rewrite length_skipn, Hl; lia.
    + intros r Hr; apply negb_true_iff.
      destruct (existsb (Z.eqb (Outbox.id r)) ids) eqn:E; [|reflexivity].
      apply existsb_exists in E; destruct E as (k & Hk & Hkr).
      apply Z.eqb_eq in Hkr; subst k.
      exfalso.
      apply NoDup_app_remove_l in Hnd' as Hr'.
      rewrite Hids in Hk.
      pose proof (in_map Outbox.id _ _ Hr) as Hin2.
      clear -Hnd' Hk Hin2.
      induction (map Outbox.id (firstn 100 sorted)) as [|a l IH];
        [contradiction|].
      simpl in Hnd'; inversion Hnd' as [|? ? Ha Hl]; subst.
      destruct Hk as [->|Hk]; [apply Ha, in_or_app; now right|now apply IH].
    + intros r Hr; apply negb_false_iff.
      apply existsb_exists; exists (Outbox.id r); split;
        [rewrite Hids; now apply in_map|apply Z.eqb_refl].
Qed.

(** X11: a pull that fails, for whatever reason (no cursor row for the
    terminal, the request rejected by the network, an error status, a body
    that is not JSON), leaves the terminal exactly as it was. *)
Theorem failed_pull_changes_nothing now c w c' w' e :
  pullChanges fetch_pull now c w = (c', w', Throw e) -> c' = c.
Proof.
  unfold SyncService.pullChanges.
  destruct (find _ (sync_state c)) as [syncState|]; [|congruence].
  destruct (fetch_pull _ w) as [w0 [|status body]]; [congruence|].
  destruct (ok status); [|congruence].
  destruct body as [result|]; [discriminate|congruence].
Qed.
End ClientBatchFacts.

(** ** The sync client: bookkeeping of a cycle *)

Section ClientCycleFacts.
Import SyncService.
Context {W : Type}.
Variable fetch_push : Relay.push_body -> W -> W * fetched unit.
Variable fetch_pull : Relay.pull_query -> W -> W * fetched (option pull_result).

Lemma pullChanges_frame now c w c1 w1 r :
  pullChanges fetch_pull now c w = (c1, w1, r) ->
  terminalId c1 = terminalId c /\
  storeId c1 = storeId c /\
  serverUrl c1 = serverUrl c /\
  terminals c1 = terminals c.
Proof.
  unfold SyncService.pullChanges.
  destruct (find _ (sync_state c)) as [syncState|];
    [|intros H; injection H as <- <- <-; auto].
  destruct (fetch_pull _ w) as [w0 [|status body]];
    [intros H; injection H as <- <- <-; auto|].
  destruct (ok status); [|intros H; injection H as <- <- <-; auto].
  destruct body as [result|]; [|intros H; injection H as <- <- <-; auto].
  intros H; injection H as <- <- <-.
  cbn [terminalId storeId serverUrl terminals with_sync_state].
  destruct (match changes result with Some l => l | None => [] end)
    as [|x l]; [auto|].
  destruct (applyRemoteChanges_frame now (x :: l)
              (log (LogApplying (length (x :: l))) c))
    as (_ & _ & _ & Ht & Hi & Hs & Hu).
  auto.
Qed.

Lemma touch_terminal_stamps now c :
  stamped now (terminalId c) (terminals c) (terminals (touch_terminal now c)).
Proof.
  unfold stamped, touch_terminal; simpl.
  apply Forall2_map_self; intros r.
  unfold own_terminal.
  destruct (terminalId c) as [t|]; [|auto].
  destruct (terminal_rowid r =? t); auto.
Qed.

(** X12: a sync cycle never changes the identity of the service (terminal
    id, store id, server URL). Without a server URL it makes no request and
    changes nothing but the console. With one, last_sync_at of the terminal's
    own row is set exactly when the whole cycle succeeded; a cycle that throws
    leaves the terminals table as it was. *)
Theorem sync_stamps_terminal_on_success_only now c w :
  let c' := fst (fst (sync fetch_push fetch_pull now c w)) in
  let w' := snd (fst (sync fetch_push fetch_pull now c w)) in
  let outcome := snd (sync fetch_push fetch_pull now c w) in
  terminalId c' = terminalId c /\
  storeId c' = storeId c /\
  serverUrl c' = serverUrl c /\
  (serverUrl c = "" ->
   outcome = Ok tt /\ w' = w /\ c' = log LogNotConfigured c) /\
  (forall e, outcome = Throw e -> terminals c' = terminals c) /\
  (serverUrl c <> "" -> outcome = Ok tt ->
   stamped now (terminalId c) (terminals c) (terminals c')).
Proof.
  cbv zeta; unfold SyncService.sync.
  destruct (String.eqb_spec (serverUrl c) "") as [Hu|Hu].
  - cbn [fst snd]; repeat split; auto; try discriminate.
    intros H; contradiction.
  - destruct (pushChanges fetch_push now (log LogStarting c) w)
      as [[c1 w1] r1] eqn:Hp.
    destruct (pushChanges_frame fetch_push _ _ _ _ _ _ Hp)
      as (Ht1 & Hs1 & Hu1 & _ & Hterm1 & _).
    simpl in Ht1, Hs1, Hu1, Hterm1.
    destruct r1 as [u|e1]; cbn [fst snd].
    + destruct (pullChanges fetch_pull now c1 w1) as [[c2 w2] r2] eqn:Hq.
      destruct (pullChanges_frame _ _ _ _ _ _ Hq) as (Ht2 & Hs2 & Hu2 & Hterm2).
      destruct r2 as [u'|e2]; cbn [fst snd];
        simpl; repeat split; try congruence; try discriminate.
      intros _ _.
      pose proof (touch_terminal_stamps now c2) as Hst.
      rewrite Ht2, Ht1, Hterm2, Hterm1 in Hst; exact Hst.
    + simpl; repeat split; try congruence; discriminate.
Qed.
End ClientCycleFacts.

(** ** The sync client against the relay: what travels *)

Lemma Forall2_map_left {A B C : Type} (R : B -> C -> Prop) (f : A -> B)
    (l : list A) (l' : list C) :
  Forall2 R (map f l) l' -> Forall2 (fun a c => R (f a) c) l l'.
Proof.
  revert l'; induction l as [|a l IH]; intros l' H; simpl in H;
    inversion H; subst; constructor; auto.
Qed.

Lemma inserted_for_outbox t s e r :
  inserted_for (Some (JNum s)) (Some (JNum t)) (Outbox.to_json e) r ->
  carries t s e r.
Proof.
  unfold inserted_for, bound_to, carries.
  intros (Hs & Ht & (v1 & P1 & B1) & (v2 & P2 & B2) & (v3 & P3 & B3)
          & (v4 & P4 & B4)).
  cbn in P1, P2, P3, P4.
  injection P1 as <-; injection P2 as <-; injection P3 as <-;
    injection P4 as <-.
  cbn in *; repeat split; congruence.
Qed.

(** After a push that was not confirmed the batch is pending as before,
    with the attempt recorded. *)
Lemma unconfirmed_push_keeps_batch {W : Type}
    (fetch_push : Relay.push_body -> W -> W * fetched unit)
    now c w w1 response :
  SyncService.unsyncedItems c <> [] ->
  fetch_push (SyncService.push_request c (SyncService.unsyncedItems c)) w
  = (w1, response) ->
  confirmed response = false ->
  let run := SyncService.pushChanges fetch_push now c w in
  (exists e, snd run = Throw e) /\
  snd (fst run) = w1 /\
  SyncService.unsyncedItems (fst (fst run))
  = map (Outbox.mark_attempt now) (SyncService.unsyncedItems c).
Proof.
  intros Hne Hf Hc; cbv zeta.
  destruct (pushChanges_unconfirmed fetch_push now c w w1 response Hne Hf Hc)
    as (e & ->).
  cbn [fst snd]; split; [eauto|split; [reflexivity|]].
  set (ids := map Outbox.id (SyncService.unsyncedItems c)).
  set (f := fun r => if existsb (Z.eqb (Outbox.id r)) ids
                     then Outbox.mark_attempt now r else r).
  rewrite (unsyncedItems_map f c).
  - apply map_update_in_members.
    intros r Hr; now apply in_map.
  - intros r; unfold f; destruct (existsb _ ids); reflexivity.
  - intros r; unfold f; destruct (existsb _ ids); reflexivity.
  - reflexivity.
Qed.

(** X13: when an initialised terminal pushes a batch to the relay and the
    request body is within the relay's limit of 10 MB, the relay accepts it
    and appends one row per outbox entry, in batch order (oldest created_at
    first) and with versions counting up from latest_version + 1, each row
    holding the entry's entity_type, entity_id, action and payload unchanged
    together with the terminal's id and store id. When the body is longer
    than the limit the push fails, the relay's log stays as it was, and the
    same batch is pending afterwards with the attempt recorded. *)
Theorem pushed_entries_arrive_in_creation_order content_length now relay_now
    c relay t :
  SyncService.terminalId c = Some t -> t <> 0 ->
  SyncService.storeId c <> 0 ->
  SyncService.unsyncedItems c <> [] ->
  let batch := SyncService.unsyncedItems c in
  let run := SyncService.pushChanges
               (SyncService.relay_push content_length relay_now) now c relay in
  (content_length (SyncService.push_request c batch)
   <= SyncService.body_limit ->
   snd run = Ok tt /\
   exists rows,
     Relay.sync_changes (snd (fst run)) = Relay.sync_changes relay ++ rows /\
     Forall2 (carries t (SyncService.storeId c)) batch rows /\
     map Relay.version rows
     = versions_after (Relay.latest_version relay) (length batch)) /\
  (SyncService.body_limit
   < content_length (SyncService.push_request c batch) ->
   (exists e, snd run = Throw e) /\
   snd (fst run) = relay /\
   SyncService.unsyncedItems (fst (fst run))
   = map (Outbox.mark_attempt now) batch).
Proof.
  intros Ht Hnz Hs Hne batch run; split.
  - intros Hlen.
    destruct (push_outbox_accepted relay_now relay c batch t Ht Hnz Hs)
      as (relay' & v & Hpush).
    assert (Hfetch : SyncService.relay_push content_length relay_now
                       (SyncService.push_request c batch) relay
                     = (relay', Responded 200 tt)).
    { rewrite relay_push_within_limit by exact Hlen; now rewrite Hpush. }
    unfold run.
    rewrite (pushChanges_confirmed
               (SyncService.relay_push content_length relay_now) now c
               relay relay' (Responded 200 tt) Hne Hfetch eq_refl).
    cbn [fst snd]; split; [reflexivity|].
    apply push_ok_appends in Hpush.
    destruct Hpush as (cs & rows & Hcs & _ & Hrows & _ & _ & Hvs & _ & Hins
                       & _).
    simpl in Hcs; injection Hcs as <-.
    rewrite length_map in Hvs.
    exists rows; repeat split; auto.
    unfold SyncService.push_request in Hins; rewrite Ht in Hins;
      simpl in Hins.
    apply Forall2_map_left in Hins.
    eapply Forall2_impl; [|exact Hins].
    intros e r; apply inserted_for_outbox.
  - intros Hlen.
    assert (Hfetch : SyncService.relay_push content_length relay_now
                       (SyncService.push_request c batch) relay
                     = (relay, Responded 413 tt)).
    { unfold SyncService.relay_push.
      apply Z.ltb_lt in Hlen; now rewrite Hlen. }
    apply (unconfirmed_push_keeps_batch
             (SyncService.relay_push content_length relay_now) now c relay
             relay (Responded 413 tt) Hne Hfetch eq_refl).
Qed.

Lemma pushed_entries_arrive_in_creation_order_witness :
  let c := enqueue_all (price_changes 3) (terminal5 0) in
  let batch := SyncService.unsyncedItems c in
  let run := SyncService.pushChanges (SyncService.relay_push sample_length 9)
               9 c mixed_log in
  SyncService.terminalId c = Some 5 /\ 5 <> 0 /\
  SyncService.storeId c <> 0 /\
  SyncService.unsyncedItems c <> [] /\
  sample_length (SyncService.push_request c batch)
  <= SyncService.body_limit /\
  snd run = Ok tt /\
  exists rows,
    Relay.sync_changes (snd (fst run)) = Relay.sync_changes mixed_log ++ rows /\
    Forall2 (carries 5 (SyncService.storeId c)) batch rows /\
    map Relay.version rows
    = versions_after (Relay.latest_version mixed_log) (length batch).
Proof.
  assert (H1 : SyncService.terminalId
                 (enqueue_all (price_changes 3) (terminal5 0)) = Some 5)
    by reflexivity.
  assert (H2 : 5 <> 0) by lia.
  assert (H3 : SyncService.storeId
                 (enqueue_all (price_changes 3) (terminal5 0)) <> 0)
    by (vm_compute; discriminate).
  assert (H4 : SyncService.unsyncedItems
                 (enqueue_all (price_changes 3) (terminal5 0)) <> [])
    by (vm_compute; discriminate).
  assert (H5 : sample_length
                 (SyncService.push_request
                    (enqueue_all (price_changes 3) (terminal5 0))
                    (SyncService.unsyncedItems
                       (enqueue_all (price_changes 3) (terminal5 0))))
               <= SyncService.body_limit)
    by (vm_compute; discriminate).
  repeat (split; [assumption|]).
  apply (proj1 (pushed_entries_arrive_in_creation_order sample_length 9 9 _
                  mixed_log 5 H1 H2 H3 H4) H5).
Defined.

(** ** The sync client against the relay: the pull phase *)

Lemma find_update_where tid f rows :
  (forall r, SyncState.terminal_id (f r) = SyncState.terminal_id r) ->
  find (SyncState.of_terminal tid) (SyncState.update_where tid f rows)
  = option_map f (find (SyncState.of_terminal tid) rows).
Proof.
  intros Hf; unfold SyncState.update_where.
  induction rows as [|r rows IH]; simpl; [reflexivity|].
  destruct (SyncState.of_terminal tid r) eqn:E.
  - assert (E' : SyncState.of_terminal tid (f r) = true)
      by (unfold SyncState.of_terminal in *; now rewrite Hf).
    now rewrite E'.
  - now rewrite E.
Qed.

Lemma firstn_incl' {A : Type} (n : nat) (l : list A) (x : A) :
  In x (firstn n l) -> In x l.
Proof.
  intros H; rewrite <- (firstn_skipn n l); apply in_or_app; now left.
Qed.

Lemma select_changes_In since t st r :
  In r (Relay.select_changes since t st) ->
  In r (Relay.sync_changes st) /\ since < Relay.version r /\
  Relay.not_from t r = true.
Proof.
  unfold Relay.select_changes; intros H.
  apply firstn_incl' in H.
  apply order_by_In in H.
  apply filter_In in H; destruct H as (Hin & Hf).
  apply andb_true_iff in Hf; destruct Hf as (Hv & Hn).
  apply Z.ltb_lt in Hv; auto.
Qed.

(** The pull phase of an initialised terminal against the relay. *)
Lemma pullChanges_relay now c relay t syncState :
  SyncService.terminalId c = Some t -> t <> 0 ->
  find (SyncState.of_terminal (Some t)) (SyncService.sync_state c)
  = Some syncState ->
  exists c',
    SyncService.pullChanges SyncService.relay_pull now c relay
    = (c', relay, Ok tt) /\
    SyncService.db c'
    = fold_left (fun st change => replay now change st)
        (Relay.select_changes (SyncState.last_sync_version syncState) t relay)
        (SyncService.db c) /\
    SyncService.sync_outbox c' = SyncService.sync_outbox c /\
    SyncService.sync_state c'
    = SyncState.update_where (Some t)
        (SyncState.pulled now
           (cursor_after (Some (Relay.latest_version relay))
              (SyncState.last_sync_version syncState)))
        (SyncService.sync_state c).
Proof.
  intros Ht Hnz Hfind.
  unfold SyncService.pullChanges.
  rewrite Ht, Hfind.
  unfold SyncService.relay_pull, Relay.pull.
  cbn [Relay.q_terminal_id Relay.q_since_version].
  apply Z.eqb_neq in Hnz; rewrite Hnz.
  rewrite since_default.
  cbn [changes latest_version].
  set (rows := Relay.select_changes _ t relay).
  destruct rows as [|x l] eqn:Hrows.
  - eexists; split; [reflexivity|].
    cbn; rewrite Ht; repeat split.
  - eexists; split; [reflexivity|].
    destruct (applyRemoteChanges_frame now (x :: l)
                (SyncService.log (LogApplying (length (x :: l))) c))
      as (Ho & _ & Hst & _ & Hi & _).
    cbn [SyncService.db SyncService.sync_outbox SyncService.sync_state
         SyncService.with_sync_state].
    rewrite applyRemoteChanges_db_is_replay, Ho, Hst, Hi.
    cbn; rewrite Ht; repeat split.
Qed.

(** X14: the pull phase of an initialised terminal (non-zero terminal id, a
    cursor row) against the relay succeeds and leaves the relay and the
    outbox as they were; the entity tables afterwards are those obtained by
    replaying, one after the other and in the order delivered, exactly the
    rows the relay selects above the terminal's cursor. *)
Theorem pull_replays_delivered_rows now c relay t syncState :
  SyncService.terminalId c = Some t -> t <> 0 ->
  find (SyncState.of_terminal (Some t)) (SyncService.sync_state c)
  = Some syncState ->
  let run := SyncService.pullChanges SyncService.relay_pull now c relay in
  let delivered :=
    Relay.select_changes (SyncState.last_sync_version syncState) t relay in
  snd run = Ok tt /\
  snd (fst run) = relay /\
  SyncService.sync_outbox (fst (fst run)) = SyncService.sync_outbox c /\
  SyncService.db (fst (fst run))
  = fold_left (fun st change => replay now change st) delivered
      (SyncService.db c).
Proof.
  intros Ht Hnz Hfind run delivered.
  destruct (pullChanges_relay now c relay t syncState Ht Hnz Hfind)
    as (c' & Hrun & Hdb & Ho & _).
  unfold run; rewrite Hrun; cbn [fst snd]; auto.
Qed.

Lemma pull_replays_delivered_rows_witness :
  let c := terminal5 0 in
  let syncState := {| SyncState.id := 1; SyncState.terminal_id := 5;
                      SyncState.last_pull_at := None;
                      SyncState.last_push_at := None;
                      SyncState.last_sync_version := 0 |} in
  SyncService.terminalId c = Some 5 /\ 5 <> 0 /\
  find (SyncState.of_terminal (Some 5)) (SyncService.sync_state c)
  = Some syncState /\
  let run := SyncService.pullChanges SyncService.relay_pull 9 c mixed_log in
  let delivered :=
    Relay.select_changes (SyncState.last_sync_version syncState) 5 mixed_log in
  snd run = Ok tt /\
  snd (fst run) = mixed_log /\
  SyncService.sync_outbox (fst (fst run)) = SyncService.sync_outbox c /\
  SyncService.db (fst (fst run))
  = fold_left (fun st change => replay 9 change st) delivered
      (SyncService.db c).
Proof.
  assert (H1 : SyncService.terminalId (terminal5 0) = Some 5) by reflexivity.
  assert (H2 : 5 <> 0) by lia.
  split; [exact H1|split; [exact H2|split; [reflexivity|]]].
  apply (pull_replays_delivered_rows 9 (terminal5 0) mixed_log 5 _ H1 H2
           eq_refl).
Defined.

Lemma versions_after_NoDup from k : NoDup (versions_after from k).
Proof.
  unfold versions_after.
  apply NoDup_map_NoDup_ForallPairs; [|apply seq_NoDup].
  intros i j _ _ H; lia.
Qed.

Lemma skipn_not_in_firstn {A : Type} (n : nat) (l : list A) (x : A) :
  NoDup l -> In x (skipn n l) -> ~ In x (firstn n l).
Proof.
  intros Hnd Hs Hf.
  rewrite <- (firstn_skipn n l) in Hnd.
  apply in_split in Hf; destruct Hf as (l1 & l2 & Hf).
  rewrite Hf in Hnd.
  rewrite <- app_assoc in Hnd; simpl in Hnd.
  apply NoDup_remove_2 in Hnd.
  apply Hnd; rewrite app_assoc; apply in_or_app; now right.
Qed.

(** X15: on a numbered change log, after the pull phase of an initialised
    terminal the cursor row holds a version that no row of the log at that
    time exceeds, so that no later pull of the terminal, whatever the relay
    holds by then, delivers any of them; and when the terminal was entitled
    to more than 1000 rows, some of these were not delivered in this pull
    either: they never reach the terminal. *)
Theorem rows_beyond_the_cap_are_never_pulled now c relay t syncState :
  numbered relay ->
  SyncService.terminalId c = Some t -> t <> 0 ->
  find (SyncState.of_terminal (Some t)) (SyncService.sync_state c)
  = Some syncState ->
  let cursor := SyncState.last_sync_version syncState in
  let c' := fst (fst (SyncService.pullChanges SyncService.relay_pull now c
                        relay)) in
  (exists row,
     find (SyncState.of_terminal (Some t)) (SyncService.sync_state c')
     = Some row /\
     forall r later,
       In r (Relay.sync_changes relay) ->
       ~ In r (Relay.select_changes (SyncState.last_sync_version row) t
                 later)) /\
  ((1000 < length (pullable cursor t relay))%nat ->
   exists r, In r (pullable cursor t relay) /\
             ~ In r (Relay.select_changes cursor t relay)).
Proof.
  intros Hn Ht Hnz Hfind cursor c'.
  destruct (pullChanges_relay now c relay t syncState Ht Hnz Hfind)
    as (c1 & Hrun & _ & _ & Hst).
  unfold c'; rewrite Hrun; cbn [fst]; clear c'.
  split.
  - rewrite Hst, find_update_where, Hfind by reflexivity.
    eexists; split; [reflexivity|].
    intros r later Hr Hin.
    apply select_changes_In in Hin; destruct Hin as (_ & Hv & _).
    cbn [SyncState.pulled SyncState.last_sync_version] in Hv.
    destruct (numbered_versions_bounded relay r Hn Hr) as (Hpos & Hle).
    unfold cursor_after in Hv.
    destruct (Z.eqb_spec (Relay.latest_version relay) 0); lia.
  - intros Hlen.
    unfold Relay.select_changes; fold (pullable cursor t relay).
    set (sorted := order_by Relay.version (pullable cursor t relay)).
    assert (Hsl : length sorted = length (pullable cursor t relay))
      by apply order_by_length.
    assert (Hnd : NoDup sorted).
    { apply (Permutation_NoDup (l := pullable cursor t relay));
        [symmetry; apply order_by_perm|].
      apply (NoDup_map_inv Relay.version).
      unfold pullable; apply NoDup_map_filter.
      destruct Hn as (Hv & _); rewrite Hv; apply versions_after_NoDup. }
    destruct (skipn 1000 sorted) as [|r rest] eqn:Hskip.
    + apply (f_equal (@length _)) in Hskip.
      rewrite length_skipn in Hskip; simpl in Hskip; lia.
    + exists r; split.
      * apply (order_by_In Relay.version).
        fold sorted; rewrite <- (firstn_skipn 1000 sorted), Hskip.
        apply in_or_app; right; now left.
      * apply skipn_not_in_firstn; [exact Hnd|].
        rewrite Hskip; now left.
Qed.

Lemma rows_beyond_the_cap_are_never_pulled_witness :
  let c := terminal5 0 in
  let syncState := {| SyncState.id := 1; SyncState.terminal_id := 5;
                      SyncState.last_pull_at := None;
                      SyncState.last_push_at := None;
                      SyncState.last_sync_version := 0 |} in
  numbered long_log /\
  SyncService.terminalId c = Some 5 /\ 5 <> 0 /\
  find (SyncState.of_terminal (Some 5)) (SyncService.sync_state c)
  = Some syncState /\
  (1000 < length (pullable 0 5 long_log))%nat /\
  let cursor := SyncState.last_sync_version syncState in
  let c' := fst (fst (SyncService.pullChanges SyncService.relay_pull 9 c
                        long_log)) in
  (exists row,
     find (SyncState.of_terminal (Some 5)) (SyncService.sync_state c')
     = Some row /\
     forall r later,
       In r (Relay.sync_changes long_log) ->
       ~ In r (Relay.select_changes (SyncState.last_sync_version row) 5
                 later)) /\
  ((1000 < length (pullable cursor 5 long_log))%nat ->
   exists r, In r (pullable cursor 5 long_log) /\
             ~ In r (Relay.select_changes cursor 5 long_log)).
Proof.
  assert (H0 : numbered long_log) by (vm_compute; repeat split).
  assert (H1 : SyncService.terminalId (terminal5 0) = Some 5) by reflexivity.
  assert (H2 : 5 <> 0) by lia.
  assert (H3 : (1000 < length (pullable 0 5 long_log))%nat)
    by (vm_compute; lia).
  split; [exact H0|split; [exact H1|split; [exact H2|split; [reflexivity|]]]].
  split; [exact H3|].
  apply (rows_beyond_the_cap_are_never_pulled 9 (terminal5 0) long_log 5 _
           H0 H1 H2 eq_refl).
Defined.

(** ** The sync client on sample data *)

Lemma terminal5_busy_keyed : outbox_keyed terminal5_busy.
Proof.
  split.
  - vm_compute.
    repeat (constructor; [simpl; intuition discriminate|]); constructor.
  - intros r Hr; vm_compute in Hr.
    repeat (destruct Hr as [<-|Hr]; [vm_compute; discriminate|]).
    contradiction.
Qed.

Lemma outbox_stays_keyed_witness :
  outbox_keyed terminal5_busy /\
  (forall now entityType entityId action data,
      outbox_keyed (SyncService.addToOutbox now entityType entityId action data
                      terminal5_busy)) /\
  (forall now w,
      outbox_keyed
        (fst (fst (SyncService.pushChanges (SyncService.relay_push sample_length 9) now
                     terminal5_busy w))) /\
      outbox_keyed
        (fst (fst (SyncService.pullChanges SyncService.relay_pull now
                     terminal5_busy w))) /\
      outbox_keyed
        (fst (fst (SyncService.sync (SyncService.relay_push sample_length 9)
                     SyncService.relay_pull now terminal5_busy w)))).
Proof.
  split; [exact terminal5_busy_keyed|].
  apply (outbox_stays_keyed (SyncService.relay_push sample_length 9) SyncService.relay_pull
           terminal5_busy terminal5_busy_keyed).
Defined.

Lemma unconfirmed_batch_is_retried_witness :
  SyncService.unsyncedItems terminal5_busy <> [] /\
  SyncService.offline_push
    (SyncService.push_request terminal5_busy
       (SyncService.unsyncedItems terminal5_busy)) mixed_log
  = (mixed_log, Rejected) /\
  confirmed (@Rejected unit) = false /\
  SyncService.unsyncedItems
    (fst (fst (SyncService.pushChanges SyncService.offline_push 200
                 terminal5_busy mixed_log)))
  = map (Outbox.mark_attempt 200) (SyncService.unsyncedItems terminal5_busy).
Proof.
  assert (H1 : SyncService.unsyncedItems terminal5_busy <> [])
    by (vm_compute; discriminate).
  split; [exact H1|split; [reflexivity|split; [reflexivity|]]].
  apply (unconfirmed_batch_is_retried SyncService.offline_push 200
           terminal5_busy mixed_log mixed_log Rejected H1 eq_refl eq_refl).
Defined.

Lemma confirmed_push_drains_batch_witness :
  let request := SyncService.push_request terminal5_busy
                   (SyncService.unsyncedItems terminal5_busy) in
  let answer := SyncService.relay_push sample_length 9 request mixed_log in
  NoDup (map Outbox.id (SyncService.sync_outbox terminal5_busy)) /\
  SyncService.unsyncedItems terminal5_busy <> [] /\
  SyncService.relay_push sample_length 9 request mixed_log = (fst answer, snd answer) /\
  confirmed (snd answer) = true /\
  let c' := fst (fst (SyncService.pushChanges (SyncService.relay_push sample_length 9) 200
                        terminal5_busy mixed_log)) in
  pending c'
  = filter (fun r => negb (existsb (Z.eqb (Outbox.id r))
                             (map Outbox.id
                                (SyncService.unsyncedItems terminal5_busy))))
           (pending terminal5_busy) /\
  (forall r, In r (SyncService.unsyncedItems terminal5_busy) ->
             ~ In r (pending c')) /\
  length (pending c')
  = (length (pending terminal5_busy)
     - Nat.min 100 (length (pending terminal5_busy)))%nat.
Proof.
  assert (H0 : NoDup (map Outbox.id (SyncService.sync_outbox terminal5_busy)))
    by apply terminal5_busy_keyed.
  assert (H1 : SyncService.unsyncedItems terminal5_busy <> [])
    by (vm_compute; discriminate).
  assert (H2 : confirmed
                 (snd (SyncService.relay_push sample_length 9
                         (SyncService.push_request terminal5_busy
                            (SyncService.unsyncedItems terminal5_busy))
                         mixed_log)) = true)
    by (vm_compute; reflexivity).
  split; [exact H0|split; [exact H1|split; [reflexivity|split; [exact H2|]]]].
  apply (confirmed_push_drains_batch (SyncService.relay_push sample_length 9) 200
           terminal5_busy mixed_log _ _ H0 H1 eq_refl H2).
Defined.

Lemma failed_pull_changes_nothing_witness :
  SyncService.pullChanges SyncService.offline_pull 200 terminal5_busy mixed_log
  = (terminal5_busy, mixed_log, Throw NetworkError) /\
  terminal5_busy = terminal5_busy.
Proof.
  split; [reflexivity|].
  apply (failed_pull_changes_nothing SyncService.offline_pull 200
           terminal5_busy mixed_log terminal5_busy mixed_log NetworkError
           eq_refl).
Defined.

(** ** Replay and the foreign keys of the entity tables *)

Lemma references_spec parents v :
  SqlTable.references parents v = true <->
  v = SNull \/ exists k, v = SInt k /\ In k parents.
Proof.
  destruct v as [|k|s|j]; simpl.
  - split; auto.
  - rewrite existsb_exists; split.
    + intros (k' & Hin & Hk); apply Z.eqb_eq in Hk; subst; eauto.
    + intros [H|(k' & H & Hin)]; [discriminate|].
      injection H as ->; exists k'; split; [exact Hin|apply Z.eqb_refl].
  - split; [discriminate|intros [H|(k & H & _)]; discriminate].
  - split; [discriminate|intros [H|(k & H & _)]; discriminate].
Qed.

Lemma existsb_eqb_In k l : existsb (Z.eqb k) l = true <-> In k l.
Proof.
  rewrite existsb_exists; split.
  - intros (k' & Hin & Hk); apply Z.eqb_eq in Hk; now subst.
  - intros Hin; exists k; split; [exact Hin|apply Z.eqb_refl].
Qed.

Lemma nth_set_nth_other i j v l :
  i <> j -> nth j (SqlTable.set_nth i v l) SNull = nth j l SNull.
Proof.
  revert j l; induction i as [|i IH]; intros [|j] [|x l] H; simpl; auto;
    try congruence.
Qed.

Lemma set_null_cases i parents r :
  SqlTable.set_null i parents r = r \/
  (exists k, SqlTable.col i r = SInt k /\ In k parents /\
             SqlTable.set_null i parents r
             = {| SqlTable.id := SqlTable.id r;
                  SqlTable.values := SqlTable.set_nth i SNull (SqlTable.values r);
                  SqlTable.created_at := SqlTable.created_at r;
                  SqlTable.updated_at := SqlTable.updated_at r |}).
Proof.
  unfold SqlTable.set_null.
  destruct (SqlTable.col i r) as [|k|s|j] eqn:E; auto.
  destruct (existsb (Z.eqb k) parents) eqn:Ek; auto.
  right; exists k; repeat split; auto.
  now apply existsb_eqb_In.
Qed.

Lemma set_null_kept i parents r k :
  SqlTable.col i r = SInt k -> ~ In k parents ->
  SqlTable.set_null i parents r = r.
Proof.
  intros E Hk; unfold SqlTable.set_null; rewrite E.
  destruct (existsb (Z.eqb k) parents) eqn:Ek; [|reflexivity].
  apply existsb_eqb_In in Ek; contradiction.
Qed.

Section ReplacedFacts.
Import SqlTable.
Variable cols : list column.

(** After an INSERT OR REPLACE a key of the old table is still there unless
    its row was deleted and not inserted again. *)
Lemma replaced_ids now idv vals tb r k :
  insert_or_replace cols now idv vals tb = Ok r ->
  In k (ids tb) ->
  In k (ids (table r)) \/ In k (map id (deleted r)).
Proof.
  intros H Hk.
  apply insert_or_replace_inv in H.
  destruct H as (vals' & rowid & _ & _ & _ & Hdel & Htab).
  unfold ids in *; rewrite Htab, Hdel; simpl.
  apply in_map_iff in Hk; destruct Hk as (x & <- & Hx).
  destruct (conflicts cols rowid vals' x) eqn:E.
  - right; apply in_map, filter_In; auto.
  - left; rewrite map_app; apply in_or_app; left.
    apply in_map, filter_In; split; [exact Hx|now rewrite E].
Qed.

Lemma replaced_new_id now idv vals tb r :
  insert_or_replace cols now idv vals tb = Ok r ->
  In (id (new_row r)) (ids (table r)) /\
  forall x, In x (rows (table r)) -> x = new_row r \/ In x (rows tb).
Proof.
  intros H.
  apply insert_or_replace_inv in H.
  destruct H as (vals' & rowid & _ & _ & Hnew & _ & Htab).
  unfold ids; rewrite Htab, Hnew; simpl; split.
  - rewrite map_app; apply in_or_app; right; now left.
  - intros x Hx; apply in_app_or in Hx; destruct Hx as [Hx|[<-|[]]]; auto.
    apply filter_In in Hx; tauto.
Qed.

Lemma replaced_keeps_referenced now idv vals tb r refs k :
  insert_or_replace cols now idv vals tb = Ok r ->
  unreferenced refs (id (new_row r)) (deleted r) = true ->
  In k refs -> In k (ids tb) -> In k (ids (table r)).
Proof.
  intros H Hun Hk Hin.
  destruct (replaced_ids _ _ _ _ _ _ H Hin) as [Hk'|Hk']; [exact Hk'|].
  apply in_map_iff in Hk'; destruct Hk' as (x & <- & Hx).
  unfold unreferenced in Hun; rewrite forallb_forall in Hun.
  specialize (Hun x Hx).
  apply orb_true_iff in Hun; destruct Hun as [Hun|Hun].
  - apply Z.eqb_eq in Hun; rewrite Hun.
    apply (replaced_new_id _ _ _ _ _ H).
  - apply negb_true_iff in Hun.
    apply existsb_eqb_In in Hk; congruence.
Qed.
End ReplacedFacts.

Lemma deleted_keeps_referenced idv tb refs k :
  forallb (fun r => negb (existsb (Z.eqb (SqlTable.id r)) refs))
          (fst (SqlTable.delete_by_id idv tb)) = true ->
  In k refs -> In k (SqlTable.ids tb) ->
  In k (SqlTable.ids (snd (SqlTable.delete_by_id idv tb))).
Proof.
  destruct idv as [|n|s|j]; simpl; auto.
  intros Hun Hk Hin.
  unfold SqlTable.ids in *; simpl.
  apply in_map_iff in Hin; destruct Hin as (x & <- & Hx).
  apply in_map, filter_In; split; [exact Hx|].
  destruct (Z.eqb_spec (SqlTable.id x) n) as [E|E]; [|reflexivity].
  rewrite forallb_forall in Hun.
  assert (Hd : In x (filter (fun r => SqlTable.id r =? n) (SqlTable.rows tb))).
  { apply filter_In; split; [exact Hx|now apply Z.eqb_eq]. }
  apply Hun in Hd; apply negb_true_iff in Hd.
  apply existsb_eqb_In in Hk; congruence.
Qed.

(** Clearing the references to deleted categories: what is left refers to
    categories that are still there. *)
Lemma cleared_products_refer (cats cats' : SqlTable.t) (dels : list Z)
    (stores : list Z) (prods : list SqlTable.row) p' :
  (forall k, In k (SqlTable.ids cats) ->
             In k (SqlTable.ids cats') \/ In k dels) ->
  (forall p, In p prods ->
     SqlTable.references (SqlTable.ids cats)
       (SqlTable.col Local.product_category_id p) = true /\
     SqlTable.references stores (SqlTable.col Local.product_store_id p) = true) ->
  In p' (map (SqlTable.set_null Local.product_category_id dels) prods) ->
  SqlTable.references (SqlTable.ids cats')
    (SqlTable.col Local.product_category_id p') = true /\
  SqlTable.references stores (SqlTable.col Local.product_store_id p') = true.
Proof.
  intros Hids Hp Hin.
  apply in_map_iff in Hin; destruct Hin as (p & <- & Hin).
  destruct (Hp p Hin) as (Hc & Hs).
  unfold SqlTable.set_null.
  destruct (SqlTable.col Local.product_category_id p) as [|k|s|j] eqn:E;
    try discriminate.
  - rewrite E; auto.
  - destruct (existsb (Z.eqb k) dels) eqn:Ek.
    + unfold SqlTable.col in *; cbn [SqlTable.values].
      rewrite col_set_nth_null.
      rewrite nth_set_nth_other by (unfold Local.product_category_id,
                                      Local.product_store_id; lia).
      auto.
    + rewrite E; split; [|exact Hs].
      apply references_spec in Hc; apply references_spec; right.
      destruct Hc as [Hc|(k' & Ek' & Hk)]; [discriminate|].
      injection Ek' as <-.
      exists k; split; [reflexivity|].
      destruct (Hids k Hk) as [Hk'|Hk']; [exact Hk'|].
      apply existsb_eqb_In in Hk'; congruence.
Qed.

Lemma applyProductChange_integrity now change st st' :
  integrity st -> Local.applyProductChange now change st = Ok st' ->
  integrity st'.
Proof.
  intros (Hp & Hc & Hu & Hs & Hr) H.
  unfold Local.applyProductChange in H.
  bind_inv H.
  destruct (is_text (Relay.action change) "create"
            || is_text (Relay.action change) "update").
  - apply bind_ok in H; destruct H as (idv & Hid & H).
    apply bind_ok in H; destruct H as (vals & Hvals & H).
    apply bind_ok in H; destruct H as (r & Hins & H).
    guards H; injection H as <-.
    unfold integrity; cbn [Local.products Local.categories Local.users
                           Local.stores Local.sale_items_product_id
                           Local.user_refs Local.with_products].
    repeat split; auto.
    + destruct (proj2 (replaced_new_id _ _ _ _ _ _ Hins) p H) as [->|Hin];
        [exact G|now apply Hp].
    + destruct (proj2 (replaced_new_id _ _ _ _ _ _ Hins) p H) as [->|Hin];
        [exact G0|now apply Hp].
    + intros k Hk.
      apply (replaced_keeps_referenced _ _ _ _ _ _ _ _ Hins G1 Hk); auto.
  - destruct (is_text (Relay.action change) "delete");
      [|injection H as <-; repeat split; auto; now apply Hp].
    apply bind_ok in H; destruct H as (idv & Hid & H).
    pose proof (deleted_keeps_referenced idv (Local.products st)
                  (Local.sale_items_product_id st)) as Hkeep.
    assert (Hsub : forall x,
              In x (SqlTable.rows (snd (SqlTable.delete_by_id idv
                                          (Local.products st)))) ->
              In x (SqlTable.rows (Local.products st))).
    { destruct idv; simpl; auto.
      intros x Hx; apply filter_In in Hx; tauto. }
    destruct (SqlTable.delete_by_id idv (Local.products st)) as [del tb].
    cbn [fst snd] in *.
    guards H; injection H as <-.
    unfold integrity; cbn [Local.products Local.categories Local.users
                           Local.stores Local.sale_items_product_id
                           Local.user_refs Local.with_products].
    repeat split; auto; try (apply Hp; auto).
Qed.

Lemma applyUserChange_integrity now change st st' :
  integrity st -> Local.applyUserChange now change st = Ok st' ->
  integrity st'.
Proof.
  intros (Hp & Hc & Hu & Hs & Hr) H.
  unfold Local.applyUserChange in H.
  bind_inv H.
  destruct (is_text (Relay.action change) "create"
            || is_text (Relay.action change) "update").
  - apply bind_ok in H; destruct H as (idv & Hid & H).
    apply bind_ok in H; destruct H as (vals & Hvals & H).
    apply bind_ok in H; destruct H as (r & Hins & H).
    guards H; injection H as <-.
    unfold integrity; cbn [Local.products Local.categories Local.users
                           Local.stores Local.sale_items_product_id
                           Local.user_refs Local.with_users].
    repeat split; auto; try (apply Hp; auto).
    + intros usr Hin.
      destruct (proj2 (replaced_new_id _ _ _ _ _ _ Hins) usr Hin)
        as [->|Hin']; [exact G|now apply Hu].
    + intros k Hk.
      apply (replaced_keeps_referenced _ _ _ _ _ _ _ _ Hins G0 Hk); auto.
  - destruct (is_text (Relay.action change) "delete");
      [|injection H as <-; repeat split; auto; now apply Hp].
    apply bind_ok in H; destruct H as (idv & Hid & H).
    pose proof (deleted_keeps_referenced idv (Local.users st)
                  (Local.user_refs st)) as Hkeep.
    assert (Hsub : forall x,
              In x (SqlTable.rows (snd (SqlTable.delete_by_id idv
                                          (Local.users st)))) ->
              In x (SqlTable.rows (Local.users st))).
    { destruct idv; simpl; auto.
      intros x Hx; apply filter_In in Hx; tauto. }
    destruct (SqlTable.delete_by_id idv (Local.users st)) as [del tb].
    cbn [fst snd] in *.
    guards H; injection H as <-.
    unfold integrity; cbn [Local.products Local.categories Local.users
                           Local.stores Local.sale_items_product_id
                           Local.user_refs Local.with_users].
    repeat split; auto; try (apply Hp; auto).
Qed.

Lemma cleared_ids dels (prods : SqlTable.t) :
  map SqlTable.id
      (map (SqlTable.set_null Local.product_category_id dels)
           (SqlTable.rows prods))
  = SqlTable.ids prods.
Proof.
  unfold SqlTable.ids; rewrite map_map; apply map_ext.
  intros p; unfold SqlTable.set_null.
  destruct (SqlTable.col _ p); try reflexivity.
  destruct (existsb _ dels); reflexivity.
Qed.

Lemma deleted_ids idv tb k :
  In k (SqlTable.ids tb) ->
  In k (SqlTable.ids (snd (SqlTable.delete_by_id idv tb))) \/
  In k (map SqlTable.id (fst (SqlTable.delete_by_id idv tb))).
Proof.
  destruct idv as [|n|s|j]; simpl; auto.
  unfold SqlTable.ids; simpl; intros Hk.
  apply in_map_iff in Hk; destruct Hk as (x & <- & Hx).
  destruct (Z.eqb_spec (SqlTable.id x) n) as [E|E].
  - right; apply in_map, filter_In; split; [exact Hx|now apply Z.eqb_eq].
  - left; apply in_map, filter_In; split; [exact Hx|].
    apply negb_true_iff; now apply Z.eqb_neq.
Qed.

Lemma applyCategoryChange_integrity now change st st' :
  integrity st -> Local.applyCategoryChange now change st = Ok st' ->
  integrity st'.
Proof.
  intros (Hp & Hc & Hu & Hs & Hr) H.
  unfold Local.applyCategoryChange in H.
  bind_inv H.
  destruct (is_text (Relay.action change) "create"
            || is_text (Relay.action change) "update").
  - apply bind_ok in H; destruct H as (idv & Hid & H).
    apply bind_ok in H; destruct H as (vals & Hvals & H).
    apply bind_ok in H; destruct H as (r & Hins & H).
    guards H; injection H as <-.
    unfold integrity; cbn [Local.products Local.categories Local.users
                           Local.stores Local.sale_items_product_id
                           Local.user_refs Local.with_categories
                           SqlTable.rows].
    split; [|split; [|split; [exact Hu|split; [|exact Hr]]]].
    + intros p' Hin.
      apply (cleared_products_refer (Local.categories st) _ _ _ _ _
               (fun k => replaced_ids _ _ _ _ _ _ k Hins) Hp Hin).
    + intros c Hin.
      destruct (proj2 (replaced_new_id _ _ _ _ _ _ Hins) c Hin) as [->|Hin'];
        [exact G|now apply Hc].
    + unfold SqlTable.ids at 1; cbn [SqlTable.rows].
      rewrite cleared_ids; exact Hs.
  - destruct (is_text (Relay.action change) "delete");
      [|injection H as <-; repeat split; auto; now apply Hp].
    apply bind_ok in H; destruct H as (idv & Hid & H).
    pose proof (deleted_ids idv (Local.categories st)) as Hids.
    assert (Hsub : forall x,
              In x (SqlTable.rows (snd (SqlTable.delete_by_id idv
                                          (Local.categories st)))) ->
              In x (SqlTable.rows (Local.categories st))).
    { destruct idv; simpl; auto.
      intros x Hx; apply filter_In in Hx; tauto. }
    destruct (SqlTable.delete_by_id idv (Local.categories st)) as [del tb].
    cbn [fst snd] in *.
    injection H as <-.
    unfold integrity; cbn [Local.products Local.categories Local.users
                           Local.stores Local.sale_items_product_id
                           Local.user_refs Local.with_categories
                           SqlTable.rows].
    split; [|split; [|split; [exact Hu|split; [|exact Hr]]]].
    + intros p' Hin.
      apply (cleared_products_refer (Local.categories st) _ _ _ _ _
               Hids Hp Hin).
    + intros c Hin; apply Hc; auto.
    + unfold SqlTable.ids at 1; cbn [SqlTable.rows].
      rewrite cleared_ids; exact Hs.
Qed.

Lemma replay_integrity now change st :
  integrity st -> integrity (replay now change st).
Proof.
  intros Hi; unfold replay, Local.apply_change.
  destruct (is_text (Relay.entity_type change) "product").
  { destruct (Local.applyProductChange now change st) as [st'|e] eqn:E;
      [|exact Hi].
    eapply applyProductChange_integrity; eauto. }
  destruct (is_text (Relay.entity_type change) "category").
  { destruct (Local.applyCategoryChange now change st) as [st'|e] eqn:E;
      [|exact Hi].
    eapply applyCategoryChange_integrity; eauto. }
  destruct (is_text (Relay.entity_type change) "user"); [|exact Hi].
  destruct (Local.applyUserChange now change st) as [st'|e] eqn:E;
    [|exact Hi].
  eapply applyUserChange_integrity; eauto.
Qed.

(** X16: replay keeps the foreign keys of the entity tables: if products
    reference existing categories and stores, categories and users existing
    stores, and every product or user that a sale item, sale or audit log
    refers to exists, then the same holds after replaying any entry, and so
    after replaying any pulled batch, whichever of its entries fail. *)
Theorem replay_keeps_foreign_keys now st :
  integrity st ->
  (forall change, integrity (replay now change st)) /\
  (forall batch c, SyncService.db c = st ->
     integrity (SyncService.db (SyncService.applyRemoteChanges now batch c))).
Proof.
  intros Hi; split.
  - intros change; now apply replay_integrity.
  - intros batch c <-.
    rewrite applyRemoteChanges_db_is_replay.
    revert Hi; generalize (SyncService.db c).
    induction batch as [|x l IH]; intros s Hs; simpl; [exact Hs|].
    apply IH; now apply replay_integrity.
Qed.

Lemma shop_integrity : integrity shop.
Proof.
  unfold integrity; cbn.
  repeat match goal with |- _ /\ _ => split end;
    intros x Hx;
    repeat (destruct Hx as [<-|Hx]; [cbn; auto|]);
    contradiction.
Qed.

Lemma replay_keeps_foreign_keys_witness :
  integrity shop /\
  (forall change, integrity (replay 9 change shop)) /\
  (forall batch c, SyncService.db c = shop ->
     integrity (SyncService.db (SyncService.applyRemoteChanges 9 batch c))).
Proof.
  split; [exact shop_integrity|].
  apply (replay_keeps_foreign_keys 9 shop shop_integrity).
Defined.

(** ** Replay: what an entry touches *)

Lemma set_null_same_but_category dels p :
  same_but_category p (SqlTable.set_null Local.product_category_id dels p).
Proof.
  unfold same_but_category.
  destruct (set_null_cases Local.product_category_id dels p)
    as [->|(k & E & Hk & ->)]; [auto 6|].
  unfold SqlTable.col; cbn [SqlTable.id SqlTable.values SqlTable.created_at
                            SqlTable.updated_at].
  split; [reflexivity|split; [reflexivity|split; [reflexivity|split]]].
  - intros j Hj; apply nth_set_nth_other; congruence.
  - right; apply col_set_nth_null.
Qed.

Lemma applyProductChange_frame now change st st' :
  Local.applyProductChange now change st = Ok st' ->
  Local.categories st' = Local.categories st /\
  Local.users st' = Local.users st /\
  Local.stores st' = Local.stores st /\
  Local.sale_items_product_id st' = Local.sale_items_product_id st /\
  Local.user_refs st' = Local.user_refs st.
Proof.
  unfold Local.applyProductChange; intros H.
  bind_inv H.
  destruct (is_text (Relay.action change) "create"
            || is_text (Relay.action change) "update").
  - do 3 bind_inv H. guards H; injection H as <-; auto.
  - destruct (is_text (Relay.action change) "delete");
      [|injection H as <-; auto].
    bind_inv H.
    destruct (SqlTable.delete_by_id _ (Local.products st)) as [del tb].
    guards H; injection H as <-; auto.
Qed.

Lemma applyUserChange_frame now change st st' :
  Local.applyUserChange now change st = Ok st' ->
  Local.products st' = Local.products st /\
  Local.categories st' = Local.categories st /\
  Local.stores st' = Local.stores st /\
  Local.sale_items_product_id st' = Local.sale_items_product_id st /\
  Local.user_refs st' = Local.user_refs st.
Proof.
  unfold Local.applyUserChange; intros H.
  bind_inv H.
  destruct (is_text (Relay.action change) "create"
            || is_text (Relay.action change) "update").
  - do 3 bind_inv H. guards H; injection H as <-; auto.
  - destruct (is_text (Relay.action change) "delete");
      [|injection H as <-; auto].
    bind_inv H.
    destruct (SqlTable.delete_by_id _ (Local.users st)) as [del tb].
    guards H; injection H as <-; auto.
Qed.

Lemma applyCategoryChange_frame now change st st' :
  Local.applyCategoryChange now change st = Ok st' ->
  Local.users st' = Local.users st /\
  Local.stores st' = Local.stores st /\
  Local.sale_items_product_id st' = Local.sale_items_product_id st /\
  Local.user_refs st' = Local.user_refs st /\
  SqlTable.seq (Local.products st') = SqlTable.seq (Local.products st) /\
  Forall2 same_but_category (SqlTable.rows (Local.products st))
    (SqlTable.rows (Local.products st')).
Proof.
  unfold Local.applyCategoryChange; intros H.
  bind_inv H.
  destruct (is_text (Relay.action change) "create"
            || is_text (Relay.action change) "update").
  - do 3 bind_inv H. guards H; injection H as <-.
    cbn [Local.users Local.stores Local.sale_items_product_id Local.user_refs
         Local.products Local.with_categories SqlTable.rows SqlTable.seq].
    do 5 (split; [reflexivity|]).
    apply Forall2_map_self, set_null_same_but_category.
  - destruct (is_text (Relay.action change) "delete").
    + bind_inv H.
      destruct (SqlTable.delete_by_id _ (Local.categories st)) as [del tb].
      injection H as <-.
      cbn [Local.users Local.stores Local.sale_items_product_id
           Local.user_refs Local.products Local.with_categories SqlTable.rows
           SqlTable.seq].
      do 5 (split; [reflexivity|]).
      apply Forall2_map_self, set_null_same_but_category.
    + injection H as <-.
      do 5 (split; [reflexivity|]).
      apply Forall2_same; intros p.
      unfold same_but_category; auto 6.
Qed.

(** X17: replaying an entry never touches the stores, the sale items or the
    keys that sales and audit logs hold; a product entry leaves categories
    and users as they were, a user entry products and categories, and a
    category entry leaves users as they were and changes no product except
    that category_id may be cleared; an entry of any other entity type
    changes nothing. *)
Theorem replay_touches_own_table_only now change st :
  let st' := replay now change st in
  Local.stores st' = Local.stores st /\
  Local.sale_items_product_id st' = Local.sale_items_product_id st /\
  Local.user_refs st' = Local.user_refs st /\
  (is_text (Relay.entity_type change) "product" = true ->
   Local.categories st' = Local.categories st /\
   Local.users st' = Local.users st) /\
  (is_text (Relay.entity_type change) "user" = true ->
   Local.products st' = Local.products st /\
   Local.categories st' = Local.categories st) /\
  (is_text (Relay.entity_type change) "category" = true ->
   Local.users st' = Local.users st /\
   SqlTable.seq (Local.products st') = SqlTable.seq (Local.products st) /\
   Forall2 same_but_category (SqlTable.rows (Local.products st))
     (SqlTable.rows (Local.products st'))) /\
  (unrecognised change -> st' = st).
Proof.
  assert (Hsame : Forall2 same_but_category (SqlTable.rows (Local.products st))
                    (SqlTable.rows (Local.products st))).
  { apply Forall2_same; intros p; unfold same_but_category; auto 6. }
  cbv zeta; unfold replay, Local.apply_change, unrecognised.
  destruct (is_text (Relay.entity_type change) "product") eqn:Ep.
  { pose proof (is_text_eq _ _ Ep) as Et.
    assert (Ec : is_text (Relay.entity_type change) "category" = false)
      by (rewrite Et; reflexivity).
    assert (Eu : is_text (Relay.entity_type change) "user" = false)
      by (rewrite Et; reflexivity).
    rewrite Ec, Eu.
    destruct (Local.applyProductChange now change st) as [st'|e] eqn:E.
    - destruct (applyProductChange_frame _ _ _ _ E) as (? & ? & ? & ? & ?).
      repeat split; auto; try discriminate;
        try (intros F; decompose [and] F; discriminate).
    - repeat split; auto; try discriminate;
        try (intros F; decompose [and] F; discriminate). }
  destruct (is_text (Relay.entity_type change) "category") eqn:Ec.
  { pose proof (is_text_eq _ _ Ec) as Et.
    assert (Eu : is_text (Relay.entity_type change) "user" = false)
      by (rewrite Et; reflexivity).
    rewrite Eu.
    destruct (Local.applyCategoryChange now change st) as [st'|e] eqn:E.
    - destruct (applyCategoryChange_frame _ _ _ _ E) as (? & ? & ? & ? & ? & ?).
      repeat split; auto; try discriminate;
        try (intros F; decompose [and] F; discriminate).
    - repeat split; auto; try discriminate;
        try (intros F; decompose [and] F; discriminate). }
  destruct (is_text (Relay.entity_type change) "user") eqn:Eu.
  { destruct (Local.applyUserChange now change st) as [st'|e] eqn:E.
    - destruct (applyUserChange_frame _ _ _ _ E) as (? & ? & ? & ? & ?).
      repeat split; auto; try discriminate;
        try (intros F; decompose [and] F; discriminate).
    - repeat split; auto; try discriminate;
        try (intros F; decompose [and] F; discriminate). }
  repeat split; auto; try discriminate.
Qed.

(** ** Replay of a category entry and the products of the category *)

Lemma payload_key_binds change key data :
  payload_key change key ->
  JSON_parse (Relay.data change) = Ok data ->
  (v <- prop data "id" ;; bind_param v) = Ok (SInt key).
Proof.
  intros (data' & Hd & Hid) Hdata.
  rewrite Hd in Hdata; injection Hdata as <-.
  now rewrite Hid.
Qed.

(** X18: replaying a create or update entry for a category that the
    terminal already holds keeps the category, but detaches its products:
    afterwards no product row refers to it, the REPLACE having deleted the
    old category row under ON DELETE SET NULL. *)
Theorem category_update_detaches_products now change st st' key :
  is_text (Relay.action change) "create"
  || is_text (Relay.action change) "update" = true ->
  payload_key change key ->
  In key (SqlTable.ids (Local.categories st)) ->
  Local.applyCategoryChange now change st = Ok st' ->
  In key (SqlTable.ids (Local.categories st')) /\
  forall p, In p (SqlTable.rows (Local.products st')) ->
            SqlTable.col Local.product_category_id p <> SInt key.
Proof.
  intros Hact Hkey Hin H.
  unfold Local.applyCategoryChange in H.
  apply bind_ok in H; destruct H as (data & Hdata & H).
  rewrite Hact in H.
  rewrite (payload_key_binds _ _ _ Hkey Hdata) in H; cbn [bind] in H.
  apply bind_ok in H; destruct H as (vals & Hvals & H).
  apply bind_ok in H; destruct H as (r & Hins & H).
  guards H; injection H as <-.
  cbn [Local.categories Local.products Local.with_categories SqlTable.rows].
  pose proof (replaced_new_id _ _ _ _ _ _ Hins) as (Hnew & _).
  pose proof (insert_or_replace_inv _ _ _ _ _ _ Hins)
    as (vals' & rowid & _ & Hrow & Hr & Hdel & _).
  cbn in Hrow; injection Hrow as <-.
  rewrite Hr in Hnew; cbn [SqlTable.id] in Hnew.
  split; [exact Hnew|].
  assert (Hd : In key (map SqlTable.id (SqlTable.deleted r))).
  { rewrite Hdel.
    apply in_map_iff in Hin; destruct Hin as (x & Hx & Hin).
    apply in_map_iff; exists x; split; [exact Hx|].
    apply filter_In; split; [exact Hin|].
    unfold SqlTable.conflicts; rewrite Hx, Z.eqb_refl; reflexivity. }
  intros p' Hp'.
  apply in_map_iff in Hp'; destruct Hp' as (p & <- & Hp).
  destruct (set_null_cases Local.product_category_id
              (map SqlTable.id (SqlTable.deleted r)) p) as [E|(k & E & Hk & ->)].
  - intros F; rewrite E in F.
    assert (Hn : SqlTable.col Local.product_category_id
                   (SqlTable.set_null Local.product_category_id
                      (map SqlTable.id (SqlTable.deleted r)) p) = SNull).
    { unfold SqlTable.set_null; rewrite F.
      apply existsb_eqb_In in Hd; rewrite Hd.
      unfold SqlTable.col; cbn [SqlTable.values]; apply col_set_nth_null. }
    rewrite E in Hn; congruence.
  - unfold SqlTable.col; cbn [SqlTable.values].
    rewrite col_set_nth_null; discriminate.
Qed.

Lemma category_update_detaches_products_witness :
  let st' := replay 9 rename_drinks shop in
  is_text (Relay.action rename_drinks) "create"
  || is_text (Relay.action rename_drinks) "update" = true /\
  payload_key rename_drinks 1 /\
  In 1 (SqlTable.ids (Local.categories shop)) /\
  Local.applyCategoryChange 9 rename_drinks shop = Ok st' /\
  In 1 (SqlTable.ids (Local.categories st')) /\
  forall p, In p (SqlTable.rows (Local.products st')) ->
            SqlTable.col Local.product_category_id p <> SInt 1.
Proof.
  assert (H1 : is_text (Relay.action rename_drinks) "create"
               || is_text (Relay.action rename_drinks) "update" = true)
    by reflexivity.
  assert (H2 : payload_key rename_drinks 1)
    by (eexists; split; reflexivity).
  assert (H3 : In 1 (SqlTable.ids (Local.categories shop)))
    by (cbn; auto).
  assert (H4 : Local.applyCategoryChange 9 rename_drinks shop
               = Ok (replay 9 rename_drinks shop)) by reflexivity.
  split; [exact H1|split; [exact H2|split; [exact H3|split; [exact H4|]]]].
  apply (category_update_detaches_products 9 rename_drinks shop _ 1
           H1 H2 H3 H4).
Defined.

(** ** Replay: the payload is parsed before the action is looked at *)

(** X19: for an entry of a recognised entity type, replay parses the payload
    first: when the payload is not JSON the entry fails with a SyntaxError
    and is logged as failed whatever its action, a valid one or not; when
    the payload parses and the action is none of create, update and delete,
    the entry is accepted without any effect and without a log line. *)
Theorem replay_parses_before_dispatch now change c :
  ~ unrecognised change ->
  (forall s, Relay.data change = SText s ->
     SyncService.applyRemoteChanges now [change] c
     = SyncService.log (LogApplyFailed (Relay.id change) SyntaxError) c) /\
  (forall data, JSON_parse (Relay.data change) = Ok data ->
     is_text (Relay.action change) "create" = false ->
     is_text (Relay.action change) "update" = false ->
     is_text (Relay.action change) "delete" = false ->
     Local.apply_change now change (SyncService.db c)
     = Some (Ok (SyncService.db c)) /\
     SyncService.console (SyncService.applyRemoteChanges now [change] c)
     = SyncService.console c /\
     SyncService.db (SyncService.applyRemoteChanges now [change] c)
     = SyncService.db c).
Proof.
  intros Hrec.
  assert (Hcase : forall r,
            Local.applyProductChange now change (SyncService.db c) = r ->
            Local.applyCategoryChange now change (SyncService.db c) = r ->
            Local.applyUserChange now change (SyncService.db c) = r ->
            Local.apply_change now change (SyncService.db c) = Some r).
  { intros r Hp Hc Hu; unfold Local.apply_change.
    unfold unrecognised in Hrec.
    destruct (is_text (Relay.entity_type change) "product");
      [now rewrite Hp|].
    destruct (is_text (Relay.entity_type change) "category");
      [now rewrite Hc|].
    destruct (is_text (Relay.entity_type change) "user");
      [now rewrite Hu|].
    tauto. }
  split.
  - intros s Hs.
    cbn [SyncService.applyRemoteChanges].
    rewrite (Hcase (Throw SyntaxError)); [reflexivity| | |];
      unfold Local.applyProductChange, Local.applyCategoryChange,
        Local.applyUserChange; rewrite Hs; reflexivity.
  - intros data Hd Hc Hu Hdel.
    assert (H : Local.apply_change now change (SyncService.db c)
                = Some (Ok (SyncService.db c))).
    { apply Hcase;
        unfold Local.applyProductChange, Local.applyCategoryChange,
          Local.applyUserChange;
        rewrite Hd; cbn [bind]; rewrite Hc, Hu, Hdel; reflexivity. }
    split; [exact H|].
    cbn [SyncService.applyRemoteChanges]; rewrite H.
    split; reflexivity.
Qed.

Lemma replay_parses_before_dispatch_witness :
  ~ unrecognised archive_tea /\
  (forall s, Relay.data archive_tea = SText s ->
     SyncService.applyRemoteChanges 9 [archive_tea] (terminal5 0)
     = SyncService.log (LogApplyFailed (Relay.id archive_tea) SyntaxError)
         (terminal5 0)) /\
  (forall data, JSON_parse (Relay.data archive_tea) = Ok data ->
     is_text (Relay.action archive_tea) "create" = false ->
     is_text (Relay.action archive_tea) "update" = false ->
     is_text (Relay.action archive_tea) "delete" = false ->
     Local.apply_change 9 archive_tea (SyncService.db (terminal5 0))
     = Some (Ok (SyncService.db (terminal5 0))) /\
     SyncService.console
       (SyncService.applyRemoteChanges 9 [archive_tea] (terminal5 0))
     = SyncService.console (terminal5 0) /\
     SyncService.db
       (SyncService.applyRemoteChanges 9 [archive_tea] (terminal5 0))
     = SyncService.db (terminal5 0)).
Proof.
  assert (H : ~ unrecognised archive_tea)
    by (intros (F & _); discriminate).
  split; [exact H|].
  apply (replay_parses_before_dispatch 9 archive_tea (terminal5 0) H).
Defined.

(** ** ProductService: deletions, compared with replay *)

Lemma count_positive {A : Type} (f : A -> bool) (l : list A) :
  (0 <? Z.of_nat (length (filter f l))) = existsb f l.
Proof.
  induction l as [|x l IH]; simpl; [reflexivity|].
  destruct (f x); simpl; [|exact IH].
  apply Z.ltb_lt; lia.
Qed.

Lemma with_products_same st :
  Local.with_products (Local.products st) st = st.
Proof. destruct st; reflexivity. Qed.

Lemma table_eta (tb : SqlTable.t) :
  {| SqlTable.rows := SqlTable.rows tb; SqlTable.seq := SqlTable.seq tb |} = tb.
Proof. destruct tb; reflexivity. Qed.

Lemma is_delete_only v :
  is_text v "delete" = true ->
  is_text v "create" || is_text v "update" = false.
Proof. intros H; apply is_text_eq in H; subst; reflexivity. Qed.

Lemma applyProductChange_delete now change key st :
  is_text (Relay.action change) "delete" = true ->
  payload_key change key ->
  Local.applyProductChange now change st
  = ProductService.delete_product key st.
Proof.
  intros Hact Hkey.
  destruct Hkey as (data & Hd & Hid).
  unfold Local.applyProductChange, ProductService.delete_product.
  rewrite Hd; cbn [bind].
  rewrite (is_delete_only _ Hact), Hact, Hid; cbn [bind bind_param].
  reflexivity.
Qed.

Lemma applyCategoryChange_delete now change key st :
  is_text (Relay.action change) "delete" = true ->
  payload_key change key ->
  Local.applyCategoryChange now change st
  = ProductService.delete_category key st.
Proof.
  intros Hact Hkey.
  destruct Hkey as (data & Hd & Hid).
  unfold Local.applyCategoryChange, ProductService.delete_category.
  rewrite Hd; cbn [bind].
  rewrite (is_delete_only _ Hact), Hact, Hid; cbn [bind bind_param].
  reflexivity.
Qed.

Lemma existsb_eqb_In' key l : existsb (fun k => k =? key) l = true <-> In key l.
Proof.
  rewrite existsb_exists; split.
  - intros (k & Hin & Hk); apply Z.eqb_eq in Hk; now subst.
  - intros Hin; exists key; split; [exact Hin|apply Z.eqb_refl].
Qed.

(** The DELETE on products goes through exactly when no row it deletes is
    referenced by a sale item. *)
Lemma delete_product_cases key st :
  (~ In key (Local.sale_items_product_id st) ->
   ProductService.delete_product key st
   = Ok (Local.with_products
           (snd (SqlTable.delete_by_id (SInt key) (Local.products st))) st)) /\
  (In key (Local.sale_items_product_id st) ->
   ProductService.delete_product key st = Ok st \/
   exists e, ProductService.delete_product key st = Throw e).
Proof.
  unfold ProductService.delete_product; cbn [SqlTable.delete_by_id fst snd].
  split.
  - intros Hno.
    rewrite (proj2 (forallb_forall _ _)); [reflexivity|].
    intros r Hr; apply filter_In in Hr; destruct Hr as (_ & Hr).
    apply Z.eqb_eq in Hr; rewrite Hr.
    apply negb_true_iff.
    destruct (existsb (Z.eqb key) (Local.sale_items_product_id st)) eqn:E;
      [|reflexivity].
    apply existsb_eqb_In in E; contradiction.
  - intros Hin.
    destruct (filter (fun r => SqlTable.id r =? key)
                     (SqlTable.rows (Local.products st))) as [|x del] eqn:Hdel.
    + left; cbn.
      assert (Hall : filter (fun r => negb (SqlTable.id r =? key))
                       (SqlTable.rows (Local.products st))
                     = SqlTable.rows (Local.products st)).
      { apply filter_all; intros r Hr.
        destruct (SqlTable.id r =? key) eqn:E; [|reflexivity].
        assert (Hx : In r (filter (fun r => SqlTable.id r =? key)
                             (SqlTable.rows (Local.products st))))
          by (apply filter_In; auto).
        rewrite Hdel in Hx; contradiction. }
      rewrite Hall, table_eta, with_products_same; reflexivity.
    + right.
      assert (Hx : In x (filter (fun r => SqlTable.id r =? key)
                           (SqlTable.rows (Local.products st))))
        by (rewrite Hdel; now left).
      apply filter_In in Hx; destruct Hx as (_ & Hx).
      apply Z.eqb_eq in Hx.
      cbn [forallb]; rewrite Hx.
      apply existsb_eqb_In in Hin; rewrite Hin; cbn.
      eexists; reflexivity.
Qed.

(** X20: deleteProduct refuses exactly when a sale item refers to the
    product, never ends in its generic error (the check it makes first is
    the one the foreign key would make), leaves no row with the key when it
    succeeds and the tables untouched when it refuses; and in every case
    the tables it leaves are the ones that replaying a delete entry for the
    same key leaves. *)
Theorem deleteProduct_agrees_with_replay now change key st :
  is_text (Relay.entity_type change) "product" = true ->
  is_text (Relay.action change) "delete" = true ->
  payload_key change key ->
  let result := ProductService.deleteProduct key st in
  fst result = replay now change st /\
  (ProductService.success (snd result) = true <->
   ~ In key (Local.sale_items_product_id st)) /\
  ProductService.message (snd result)
  <> "An error occurred while deleting product" /\
  (ProductService.success (snd result) = true ->
   ~ In key (SqlTable.ids (Local.products (fst result)))) /\
  (ProductService.success (snd result) = false -> fst result = st).
Proof.
  intros Het Hact Hkey result.
  assert (Hrep : replay now change st
                 = match ProductService.delete_product key st with
                   | Ok st' => st'
                   | Throw _ => st
                   end).
  { unfold replay, Local.apply_change; rewrite Het.
    now rewrite (applyProductChange_delete now change key st Hact Hkey). }
  rewrite Hrep; unfold result, ProductService.deleteProduct.
  rewrite count_positive.
  destruct (delete_product_cases key st) as (Hfree & Hsold).
  destruct (existsb (fun k => k =? key) (Local.sale_items_product_id st))
    eqn:E; cbn [fst snd ProductService.success ProductService.message].
  - apply existsb_eqb_In' in E.
    split; [|split; [|split; [|split]]]; try discriminate; auto.
    + destruct (Hsold E) as [->|(e & ->)]; reflexivity.
    + split; [discriminate|tauto].
  - assert (Hno : ~ In key (Local.sale_items_product_id st)).
    { intros F; apply existsb_eqb_In' in F; congruence. }
    rewrite (Hfree Hno);
      cbn [fst snd ProductService.success ProductService.message].
    split; [reflexivity|split; [tauto|split; [discriminate|split]]];
      [|discriminate].
    intros _ F.
    unfold SqlTable.ids in F; cbn in F.
    apply in_map_iff in F; destruct F as (x & Hx & F).
    apply filter_In in F; destruct F as (_ & F).
    apply negb_true_iff, Z.eqb_neq in F; contradiction.
Qed.

Lemma deleteProduct_agrees_with_replay_witness :
  let result := ProductService.deleteProduct 1 shop in
  is_text (Relay.entity_type (delete_entry "product" 1)) "product" = true /\
  is_text (Relay.action (delete_entry "product" 1)) "delete" = true /\
  payload_key (delete_entry "product" 1) 1 /\
  fst result = replay 9 (delete_entry "product" 1) shop /\
  (ProductService.success (snd result) = true <->
   ~ In 1 (Local.sale_items_product_id shop)) /\
  ProductService.message (snd result)
  <> "An error occurred while deleting product" /\
  (ProductService.success (snd result) = true ->
   ~ In 1 (SqlTable.ids (Local.products (fst result)))) /\
  (ProductService.success (snd result) = false -> fst result = shop).
Proof.
  assert (H : payload_key (delete_entry "product" 1) 1)
    by (eexists; split; reflexivity).
  split; [reflexivity|split; [reflexivity|split; [exact H|]]].
  apply (deleteProduct_agrees_with_replay 9 (delete_entry "product" 1) 1 shop
           eq_refl eq_refl H).
Defined.

Lemma sqlval_eqb_int v key : sqlval_eqb v (SInt key) = true <-> v = SInt key.
Proof.
  destruct v as [|n|s|j]; simpl; split; try discriminate.
  - intros H; apply Z.eqb_eq in H; now subst.
  - intros H; injection H as ->; apply Z.eqb_refl.
Qed.

Lemma delete_ids_are_key key (tb : SqlTable.t) k :
  In k (map SqlTable.id (fst (SqlTable.delete_by_id (SInt key) tb))) ->
  k = key.
Proof.
  cbn; intros H.
  apply in_map_iff in H; destruct H as (x & <- & Hx).
  apply filter_In in Hx; destruct Hx as (_ & Hx).
  now apply Z.eqb_eq.
Qed.

Lemma deleted_key_gone key (tb : SqlTable.t) :
  ~ In key (SqlTable.ids (snd (SqlTable.delete_by_id (SInt key) tb))).
Proof.
  unfold SqlTable.ids; cbn; intros F.
  apply in_map_iff in F; destruct F as (x & Hx & F).
  apply filter_In in F; destruct F as (_ & F).
  apply negb_true_iff, Z.eqb_neq in F; contradiction.
Qed.

(** X21: deleteCategory refuses exactly when some product is assigned to the
    category, never ends in its generic error and never changes the
    products table; when it succeeds the category is gone and the tables
    are the ones that replaying a delete entry for the key leaves. Where it
    refuses, replay does not: replaying the delete removes the category all
    the same. *)
Theorem deleteCategory_refuses_where_replay_deletes now change key st :
  is_text (Relay.entity_type change) "category" = true ->
  is_text (Relay.action change) "delete" = true ->
  payload_key change key ->
  let result := ProductService.deleteCategory key st in
  (ProductService.success (snd result) = true <->
   forall p, In p (SqlTable.rows (Local.products st)) ->
             SqlTable.col Local.product_category_id p <> SInt key) /\
  ProductService.message (snd result)
  <> "An error occurred while deleting category" /\
  Local.products (fst result) = Local.products st /\
  (ProductService.success (snd result) = true ->
   fst result = replay now change st /\
   ~ In key (SqlTable.ids (Local.categories (fst result)))) /\
  (ProductService.success (snd result) = false -> fst result = st) /\
  ~ In key (SqlTable.ids (Local.categories (replay now change st))).
Proof.
  intros Het Hact Hkey result.
  assert (Hrep : replay now change st
                 = match ProductService.delete_category key st with
                   | Ok st' => st'
                   | Throw _ => st
                   end).
  { unfold replay, Local.apply_change.
    assert (Hp : is_text (Relay.entity_type change) "product" = false)
      by (apply is_text_eq in Het; rewrite Het; reflexivity).
    rewrite Hp, Het.
    now rewrite (applyCategoryChange_delete now change key st Hact Hkey). }
  rewrite Hrep; unfold result, ProductService.deleteCategory.
  rewrite count_positive.
  unfold ProductService.delete_category.
  pose proof (deleted_key_gone key (Local.categories st)) as Hgone.
  pose proof (delete_ids_are_key key (Local.categories st)) as Hdel.
  destruct (SqlTable.delete_by_id (SInt key) (Local.categories st))
    as [del tb].
  cbn [fst snd] in Hgone, Hdel.
  destruct (existsb _ (SqlTable.rows (Local.products st))) eqn:E;
    cbn [fst snd ProductService.success ProductService.message
         Local.categories Local.products Local.with_categories].
  - apply existsb_exists in E; destruct E as (p & Hp & E).
    apply sqlval_eqb_int in E.
    split; [|split; [discriminate|split; [reflexivity|split;
             [discriminate|split; [reflexivity|exact Hgone]]]]].
    split; [discriminate|].
    intros H; elim (H p Hp E).
  - assert (Hnone : forall p, In p (SqlTable.rows (Local.products st)) ->
                      SqlTable.col Local.product_category_id p <> SInt key).
    { intros p Hp F.
      apply sqlval_eqb_int in F.
      assert (T : existsb
                    (fun p => sqlval_eqb
                                (SqlTable.col Local.product_category_id p)
                                (SInt key))
                    (SqlTable.rows (Local.products st)) = true)
        by (apply existsb_exists; eauto).
      congruence. }
    assert (Hsame : {| SqlTable.rows :=
                         map (SqlTable.set_null Local.product_category_id
                                (map SqlTable.id del))
                             (SqlTable.rows (Local.products st));
                       SqlTable.seq := SqlTable.seq (Local.products st) |}
                    = Local.products st).
    { rewrite (map_ext_in _ (fun p => p)), map_id; [apply table_eta|].
      intros p Hp.
      destruct (set_null_cases Local.product_category_id
                  (map SqlTable.id del) p) as [E'|(k & Ek & Hk & _)];
        [exact E'|].
      apply Hdel in Hk; subst k.
      elim (Hnone p Hp Ek). }
    split; [split; [intros _; exact Hnone|reflexivity]|].
    split; [discriminate|].
    split; [exact Hsame|].
    split; [intros _; split; [reflexivity|exact Hgone]|].
    split; [discriminate|exact Hgone].
Qed.

Lemma deleteCategory_refuses_where_replay_deletes_witness :
  let result := ProductService.deleteCategory 1 shop in
  is_text (Relay.entity_type (delete_entry "category" 1)) "category" = true /\
  is_text (Relay.action (delete_entry "category" 1)) "delete" = true /\
  payload_key (delete_entry "category" 1) 1 /\
  (ProductService.success (snd result) = true <->
   forall p, In p (SqlTable.rows (Local.products shop)) ->
             SqlTable.col Local.product_category_id p <> SInt 1) /\
  ProductService.message (snd result)
  <> "An error occurred while deleting category" /\
  Local.products (fst result) = Local.products shop /\
  (ProductService.success (snd result) = true ->
   fst result = replay 9 (delete_entry "category" 1) shop /\
   ~ In 1 (SqlTable.ids (Local.categories (fst result)))) /\
  (ProductService.success (snd result) = false -> fst result = shop) /\
  ~ In 1 (SqlTable.ids
            (Local.categories (replay 9 (delete_entry "category" 1) shop))).
Proof.
  assert (H : payload_key (delete_entry "category" 1) 1)
    by (eexists; split; reflexivity).
  split; [reflexivity|split; [reflexivity|split; [exact H|]]].
  apply (deleteCategory_refuses_where_replay_deletes 9
           (delete_entry "category" 1) 1 shop eq_refl eq_refl H).
Defined.

(** ** SyncService.initialize *)

Lemma max_id_ge (l : list Z) (x : Z) : In x l -> x <= Installation.max_id l.
Proof.
  unfold Installation.max_id.
  induction l as [|y l IH]; simpl; [contradiction|].
  intros [->|H]; [lia|]. specialize (IH H); lia.
Qed.

Lemma max_id_nonneg (l : list Z) : 0 <= Installation.max_id l.
Proof.
  unfold Installation.max_id.
  induction l as [|y l IH]; simpl; lia.
Qed.

Lemma find_none_iff {A : Type} (f : A -> bool) (l : list A) :
  find f l = None <-> forall x, In x l -> f x = false.
Proof.
  split; [apply find_none|].
  induction l as [|x l IH]; simpl; intros H; [reflexivity|].
  rewrite (H x) by now left.
  apply IH; intros; apply H; now right.
Qed.

Lemma find_app_last {A : Type} (f : A -> bool) (l : list A) (x : A) :
  (forall y, In y l -> f y = false) -> f x = true ->
  find f (l ++ [x]) = Some x.
Proof.
  induction l as [|y l IH]; simpl; intros Hl Hx.
  - now rewrite Hx.
  - rewrite (Hl y) by now left.
    apply IH; auto.
Qed.

Lemma unknown_host_find hostname i :
  unknown_host hostname i ->
  find (fun e => String.eqb (Installation.terminal_code e)
                            ("TERM-" ++ hostname))
       (Installation.identities i) = None.
Proof.
  intros H; apply find_none_iff; intros e He.
  apply String.eqb_neq; now apply H.
Qed.

Lemma serverUrl_choice u (c : SyncService.t) :
  let c' := match u with
            | Some s => if String.eqb s "" then c
                        else Installation.set_serverUrl s c
            | None => c
            end in
  SyncService.terminalId c' = SyncService.terminalId c /\
  SyncService.storeId c' = SyncService.storeId c /\
  SyncService.sync_outbox c' = SyncService.sync_outbox c /\
  SyncService.sync_state c' = SyncService.sync_state c /\
  SyncService.terminals c' = SyncService.terminals c /\
  SyncService.db c' = SyncService.db c /\
  SyncService.serverUrl c'
  = match u with
    | Some s => if String.eqb s "" then SyncService.serverUrl c else s
    | None => SyncService.serverUrl c
    end.
Proof.
  destruct u as [s|]; cbv zeta; [|auto 10].
  destruct (String.eqb s ""); auto 10.
Qed.

Ltac initialized :=
  cbn [fst snd Installation.service Installation.identities
       Installation.getTerminalInfo Installation.rowid Installation.store_id
       SyncService.sync_state SyncService.with_sync_state
       SyncService.terminals SyncService.with_terminals
       SyncService.terminalId SyncService.storeId SyncService.sync_outbox
       SyncService.db SyncService.serverUrl
       Installation.set_terminal] in *.

(** X22: the first initialize on a host that is not registered, in a
    database that holds the service's store, succeeds: it assigns a fresh,
    positive terminal id, registers the terminal under the code of the
    host, and creates the terminal's cursor row at version 0 with no pull
    recorded, so that the first pull asks for everything. Every later
    initialize on the same host, whatever server URL it is given, finds that
    row and inserts nothing: the terminal is registered once. *)
Theorem initialize_registers_terminal_once u hostname interfaces i :
  registered i ->
  unknown_host hostname i ->
  In (SyncService.storeId (Installation.service i))
     (Local.stores (SyncService.db (Installation.service i))) ->
  let first := Installation.initialize u hostname interfaces i in
  snd first = Ok tt /\
  registered (fst first) /\
  exists t row,
    Installation.getTerminalInfo (fst first)
    = (Some t, SyncService.storeId (Installation.service i)) /\
    0 < t /\
    ~ In t (map Installation.rowid (Installation.identities i)) /\
    find (SyncState.of_terminal (Some t))
         (SyncService.sync_state (Installation.service (fst first)))
    = Some row /\
    SyncState.last_sync_version row = 0 /\
    SyncState.last_pull_at row = None /\
    forall u' interfaces',
      let again :=
        Installation.initialize u' hostname interfaces' (fst first) in
      snd again = Ok tt /\
      Installation.getTerminalInfo (fst again)
      = Installation.getTerminalInfo (fst first) /\
      Installation.identities (fst again)
      = Installation.identities (fst first) /\
      SyncService.terminals (Installation.service (fst again))
      = SyncService.terminals (Installation.service (fst first)) /\
      SyncService.sync_state (Installation.service (fst again))
      = SyncService.sync_state (Installation.service (fst first)).
Proof.
  intros (Hrows & Hfk) Hunknown Hstore first.
  unfold first, Installation.initialize.
  rewrite (unknown_host_find _ _ Hunknown).
  pose proof (serverUrl_choice u (Installation.service i)) as Hc.
  cbv zeta in Hc.
  set (c := match u with
            | Some s => if String.eqb s "" then Installation.service i
                        else Installation.set_serverUrl s
                               (Installation.service i)
            | None => Installation.service i
            end) in *.
  destruct Hc as (Ht & Hs & Ho & Hst & Hterm & Hdb & Hurl).
  rewrite Hs, Hdb.
  apply existsb_eqb_In in Hstore; rewrite Hstore.
  set (t := Z.max (Installation.terminals_seq i)
                  (Installation.max_id
                     (map Installation.rowid (Installation.identities i)))
            + 1).
  assert (Hfresh : forall x,
            In x (map Installation.rowid (Installation.identities i)) ->
            x < t).
  { intros x Hx; apply max_id_ge in Hx; unfold t; lia. }
  assert (Hpos : 0 < t).
  { pose proof (max_id_nonneg
                  (map Installation.rowid (Installation.identities i))).
    unfold t; lia. }
  cbn [fst snd Installation.service Installation.identities
       Installation.getTerminalInfo
       SyncService.sync_state SyncService.with_sync_state
       SyncService.terminals SyncService.with_terminals
       SyncService.terminalId SyncService.storeId
       Installation.set_terminal].
  split; [reflexivity|].
  split.
  { unfold registered; initialized; split.
    - rewrite !map_app, Hrows, Hterm; reflexivity.
    - intros r Hr; rewrite map_app; apply in_or_app.
      rewrite Hst in Hr; apply in_app_or in Hr.
      destruct Hr as [Hr|[<-|[]]]; [left; now apply Hfk|right; now left]. }
  eexists t, _.
  split; [now rewrite Hs|].
  split; [exact Hpos|].
  split; [intros F; apply Hfresh in F; lia|].
  split.
  { rewrite Hst; apply find_app_last.
    - intros r Hr; apply Hfk, Hfresh in Hr.
      apply Z.eqb_neq; lia.
    - apply Z.eqb_refl. }
  split; [reflexivity|].
  split; [reflexivity|].
  intros u' interfaces'.
  unfold Installation.initialize.
  cbn [fst snd Installation.service Installation.identities].
  rewrite find_app_last;
    [|intros e He; apply String.eqb_neq; now apply Hunknown
     |apply String.eqb_refl].
  cbn [fst snd Installation.service Installation.identities
       Installation.getTerminalInfo Installation.rowid
       Installation.store_id Installation.set_terminal
       SyncService.terminalId SyncService.storeId].
  split; [reflexivity|].
  split; [reflexivity|].
  split; [reflexivity|].
  destruct u' as [s|]; [destruct (String.eqb s "")|]; split; reflexivity.
Qed.

Lemma initialize_registers_terminal_once_witness :
  registered fresh_install /\
  unknown_host "till" fresh_install /\
  In (SyncService.storeId (Installation.service fresh_install))
     (Local.stores (SyncService.db (Installation.service fresh_install))) /\
  let first := Installation.initialize (Some "http://relay:3001") "till" []
                 fresh_install in
  snd first = Ok tt /\
  registered (fst first) /\
  exists t row,
    Installation.getTerminalInfo (fst first)
    = (Some t, SyncService.storeId (Installation.service fresh_install)) /\
    0 < t /\
    ~ In t (map Installation.rowid (Installation.identities fresh_install)) /\
    find (SyncState.of_terminal (Some t))
         (SyncService.sync_state (Installation.service (fst first)))
    = Some row /\
    SyncState.last_sync_version row = 0 /\
    SyncState.last_pull_at row = None /\
    forall u' interfaces',
      let again :=
        Installation.initialize u' "till" interfaces' (fst first) in
      snd again = Ok tt /\
      Installation.getTerminalInfo (fst again)
      = Installation.getTerminalInfo (fst first) /\
      Installation.identities (fst again)
      = Installation.identities (fst first) /\
      SyncService.terminals (Installation.service (fst again))
      = SyncService.terminals (Installation.service (fst first)) /\
      SyncService.sync_state (Installation.service (fst again))
      = SyncService.sync_state (Installation.service (fst first)).
Proof.
  assert (H1 : registered fresh_install)
    by (split; [reflexivity|intros r []]).
  assert (H2 : unknown_host "till" fresh_install) by (intros e []).
  assert (H3 : In (SyncService.storeId (Installation.service fresh_install))
                  (Local.stores
                     (SyncService.db (Installation.service fresh_install))))
    by (cbn; auto).
  split; [exact H1|split; [exact H2|split; [exact H3|]]].
  apply (initialize_registers_terminal_once (Some "http://relay:3001") "till"
           [] fresh_install H1 H2 H3).
Defined.

(** ** A terminal without a cursor row *)

Section NoCursorFacts.
Import SyncService.
Context {W : Type}.
Variable fetch_push : Relay.push_body -> W -> W * fetched unit.
Variable fetch_pull : Relay.pull_query -> W -> W * fetched (option pull_result).

Lemma pushChanges_keeps_no_cursor now c w :
  find (SyncState.of_terminal (terminalId c)) (sync_state c) = None ->
  let c' := fst (fst (pushChanges fetch_push now c w)) in
  find (SyncState.of_terminal (terminalId c')) (sync_state c') = None /\
  terminals c' = terminals c /\ db c' = db c.
Proof.
  intros Hnone; cbv zeta.
  unfold SyncService.pushChanges.
  destruct (unsyncedItems c) as [|x items]; [auto|].
  destruct (fetch_push _ w) as [w' [|status body]]; [cbn; auto|].
  destruct (ok status); [|cbn; auto].
  cbn [fst terminalId sync_state with_sync_state with_outbox log terminals db].
  rewrite find_update_where by reflexivity.
  rewrite Hnone; auto.
Qed.

(** A cycle of a configured service whose terminal has no cursor row
    fails, in the push or else in the pull, and leaves the terminal in the
    same situation. *)
Lemma sync_without_cursor now c w :
  serverUrl c <> "" ->
  find (SyncState.of_terminal (terminalId c)) (sync_state c) = None ->
  let run := sync fetch_push fetch_pull now c w in
  (exists e, snd run = Throw e) /\
  terminals (fst (fst run)) = terminals c /\
  db (fst (fst run)) = db c /\
  serverUrl (fst (fst run)) = serverUrl c /\
  find (SyncState.of_terminal (terminalId (fst (fst run))))
       (sync_state (fst (fst run))) = None.
Proof.
  intros Hurl Hnone; cbv zeta.
  unfold SyncService.sync.
  apply String.eqb_neq in Hurl; rewrite Hurl.
  pose proof (pushChanges_keeps_no_cursor now (log LogStarting c) w Hnone)
    as Hpush.
  cbv zeta in Hpush.
  destruct (pushChanges fetch_push now (log LogStarting c) w)
    as [[c1 w1] r1] eqn:Hp.
  destruct (pushChanges_frame fetch_push _ _ _ _ _ _ Hp)
    as (_ & _ & Hu1 & _).
  cbn [fst snd] in Hpush; destruct Hpush as (Hn1 & Ht1 & Hd1).
  destruct r1 as [u|e1].
  - unfold SyncService.pullChanges; rewrite Hn1.
    cbn; eauto 10.
  - cbn; eauto 10.
Qed.
End NoCursorFacts.

(** X23: initialize on a host whose terminal row exists adopts that row: the
    service takes the row's id and its store id, whatever store it had, and
    nothing is inserted or changed in any table. In particular it does not
    create the cursor row when that is missing, and then no sync cycle of
    the configured service ever completes: each one throws, whatever the
    network answers, and last_sync_at is never set. *)
Theorem initialize_adopts_registered_terminal u hostname interfaces i e :
  find (fun e => String.eqb (Installation.terminal_code e)
                            ("TERM-" ++ hostname))
       (Installation.identities i) = Some e ->
  let run := Installation.initialize u hostname interfaces i in
  let c' := Installation.service (fst run) in
  snd run = Ok tt /\
  Installation.getTerminalInfo (fst run)
  = (Some (Installation.rowid e), Installation.store_id e) /\
  Installation.identities (fst run) = Installation.identities i /\
  SyncService.terminals c' = SyncService.terminals (Installation.service i) /\
  SyncService.sync_state c'
  = SyncService.sync_state (Installation.service i) /\
  SyncService.sync_outbox c'
  = SyncService.sync_outbox (Installation.service i) /\
  SyncService.db c' = SyncService.db (Installation.service i) /\
  ((forall r, In r (SyncService.sync_state (Installation.service i)) ->
              SyncState.terminal_id r <> Installation.rowid e) ->
   SyncService.serverUrl c' <> "" ->
   forall (W : Type) fetch_push fetch_pull now (w : W),
     let cycle := SyncService.sync fetch_push fetch_pull now c' w in
     (exists err, snd cycle = Throw err) /\
     SyncService.terminals (fst (fst cycle)) = SyncService.terminals c').
Proof.
  intros Hfind run c'.
  unfold c', run, Installation.initialize; rewrite Hfind.
  pose proof (serverUrl_choice u (Installation.service i)) as Hc.
  cbv zeta in Hc.
  set (c := match u with
            | Some s => if String.eqb s "" then Installation.service i
                        else Installation.set_serverUrl s
                               (Installation.service i)
            | None => Installation.service i
            end) in *.
  destruct Hc as (Ht & Hs & Ho & Hst & Hterm & Hdb & Hurl).
  cbn [fst snd Installation.service Installation.identities
       Installation.getTerminalInfo Installation.set_terminal
       SyncService.terminalId SyncService.storeId SyncService.terminals
       SyncService.sync_state SyncService.sync_outbox SyncService.db
       SyncService.serverUrl].
  do 7 (split; [auto|]).
  intros Hno Hconf W fetch_push fetch_pull now w.
  set (c1 := Installation.set_terminal (Installation.rowid e)
               (Installation.store_id e) c) in *.
  assert (Hnone : find (SyncState.of_terminal (SyncService.terminalId c1))
                       (SyncService.sync_state c1) = None).
  { apply find_none_iff; intros r Hr.
    cbn in Hr; rewrite Hst in Hr.
    apply Z.eqb_neq; now apply Hno. }
  destruct (sync_without_cursor fetch_push fetch_pull now c1 w Hconf Hnone)
    as (Herr & Hterms & _).
  split; [exact Herr|exact Hterms].
Qed.

Lemma initialize_adopts_registered_terminal_witness :
  let e := {| Installation.rowid := 1;
              Installation.terminal_code := "TERM-till";
              Installation.store_id := 1;
              Installation.device_name := "till";
              Installation.ip_address := "127.0.0.1" |} in
  find (fun e => String.eqb (Installation.terminal_code e) ("TERM-" ++ "till"))
       (Installation.identities half_registered) = Some e /\
  let run := Installation.initialize (Some "http://relay:3001") "till" []
               half_registered in
  let c' := Installation.service (fst run) in
  snd run = Ok tt /\
  Installation.getTerminalInfo (fst run)
  = (Some (Installation.rowid e), Installation.store_id e) /\
  Installation.identities (fst run)
  = Installation.identities half_registered /\
  SyncService.terminals c'
  = SyncService.terminals (Installation.service half_registered) /\
  SyncService.sync_state c'
  = SyncService.sync_state (Installation.service half_registered) /\
  SyncService.sync_outbox c'
  = SyncService.sync_outbox (Installation.service half_registered) /\
  SyncService.db c' = SyncService.db (Installation.service half_registered) /\
  ((forall r,
      In r (SyncService.sync_state (Installation.service half_registered)) ->
      SyncState.terminal_id r <> Installation.rowid e) ->
   SyncService.serverUrl c' <> "" ->
   forall (W : Type) fetch_push fetch_pull now (w : W),
     let cycle := SyncService.sync fetch_push fetch_pull now c' w in
     (exists err, snd cycle = Throw err) /\
     SyncService.terminals (fst (fst cycle)) = SyncService.terminals c').
Proof.
  split; [reflexivity|].
  apply (initialize_adopts_registered_terminal (Some "http://relay:3001")
           "till" [] half_registered _ eq_refl).
Defined.

(** ** From one terminal to another through the relay *)

Lemma carries_terminal t s e r :
  carries t s e r -> Relay.terminal_id r = SInt t.
Proof. intros (_ & _ & _ & _ & H & _); exact H. Qed.

(** The rows appended above the latest version by one terminal are what any
    other terminal whose cursor is at that version selects. *)
Lemma select_changes_appended st st' rows a b :
  numbered st ->
  Relay.sync_changes st' = Relay.sync_changes st ++ rows ->
  map Relay.version rows
  = versions_after (Relay.latest_version st) (length rows) ->
  (forall r, In r rows -> Relay.terminal_id r = SInt a) ->
  (length rows <= 1000)%nat ->
  b <> a ->
  Relay.select_changes (Relay.latest_version st) b st' = rows.
Proof.
  intros Hn Hrows Hvs Hterm Hlen Hne.
  unfold Relay.select_changes; rewrite Hrows, filter_app.
  rewrite filter_nothing, filter_all; cbn [app].
  - rewrite order_by_of_sorted.
    + now apply firstn_all2.
    + apply sorted_by_map; rewrite Hvs; apply versions_after_sorted.
  - intros r Hr; apply andb_true_iff; split.
    + apply Z.ltb_lt.
      assert (H : In (Relay.version r)
                     (versions_after (Relay.latest_version st) (length rows))).
      { rewrite <- Hvs; now apply in_map. }
      apply versions_after_bounds in H; lia.
    + unfold Relay.not_from; rewrite (Hterm r Hr).
      apply negb_true_iff, Z.eqb_neq; congruence.
  - intros r Hr.
    destruct (numbered_versions_bounded st r Hn Hr) as (_ & Hv).
    apply andb_false_iff; left; apply Z.ltb_ge; lia.
Qed.

Lemma Forall2_right_In {A B : Type} (R : A -> B -> Prop) l l' y :
  Forall2 R l l' -> In y l' -> exists x, In x l /\ R x y.
Proof.
  induction 1 as [|a b l l' Hab _ IH]; simpl; [contradiction|].
  intros [<-|Hy]; [eauto|].
  destruct (IH Hy) as (x & Hx & Hr); eauto.
Qed.

(** The rows one terminal appended are not among what a pull under the
    same terminal id selects from the previous latest version. *)
Lemma select_changes_own_appended st st' rows a :
  numbered st ->
  Relay.sync_changes st' = Relay.sync_changes st ++ rows ->
  (forall r, In r rows -> Relay.terminal_id r = SInt a) ->
  Relay.select_changes (Relay.latest_version st) a st' = [].
Proof.
  intros Hn Hrows Hterm.
  unfold Relay.select_changes; rewrite Hrows.
  rewrite filter_nothing; [reflexivity|].
  intros r Hr; apply in_app_or in Hr; destruct Hr as [Hr|Hr].
  - destruct (numbered_versions_bounded st r Hn Hr) as (_ & Hv).
    apply andb_false_iff; left; apply Z.ltb_ge; lia.
  - apply andb_false_iff; right.
    unfold Relay.not_from; rewrite (Hterm r Hr), Z.eqb_refl; reflexivity.
Qed.

(** X24: terminal A pushes its batch, in a request within the relay's body
    limit, to a relay with a numbered log, and then terminal B, whose cursor
    is at the relay's previous latest version, pulls. Both phases succeed,
    the relay's log gains one row per outbox entry of A, carrying the entry
    unchanged in A's batch order, and B's cursor moves to the previous
    latest version plus the size of the batch. When B's terminal id differs
    from A's, B replays exactly those rows, in that order. When B has the
    same terminal id as A, B replays nothing, and since its cursor has moved
    past them no later pull of B returns any of the rows: A's changes never
    reach B. *)
Theorem pushed_batch_reaches_peer_unless_ids_collide content_length now1
    relay_now now2 a b relay A B syncState :
  numbered relay ->
  SyncService.terminalId A = Some a -> a <> 0 ->
  SyncService.storeId A <> 0 ->
  SyncService.unsyncedItems A <> [] ->
  content_length (SyncService.push_request A (SyncService.unsyncedItems A))
  <= SyncService.body_limit ->
  SyncService.terminalId B = Some b -> b <> 0 ->
  find (SyncState.of_terminal (Some b)) (SyncService.sync_state B)
  = Some syncState ->
  SyncState.last_sync_version syncState = Relay.latest_version relay ->
  let batch := SyncService.unsyncedItems A in
  let pushed := SyncService.pushChanges
                  (SyncService.relay_push content_length relay_now)
                  now1 A relay in
  let pulled := SyncService.pullChanges SyncService.relay_pull now2 B
                  (snd (fst pushed)) in
  snd pushed = Ok tt /\ snd pulled = Ok tt /\
  exists rows row,
    Relay.sync_changes (snd (fst pushed)) = Relay.sync_changes relay ++ rows /\
    Forall2 (carries a (SyncService.storeId A)) batch rows /\
    find (SyncState.of_terminal (Some b))
         (SyncService.sync_state (fst (fst pulled))) = Some row /\
    SyncState.last_sync_version row
    = Relay.latest_version relay + Z.of_nat (length batch) /\
    (b <> a ->
     SyncService.db (fst (fst pulled))
     = fold_left (fun st change => replay now2 change st) rows
         (SyncService.db B)) /\
    (b = a ->
     SyncService.db (fst (fst pulled)) = SyncService.db B /\
     forall later r,
       In r rows ->
       ~ In r (Relay.select_changes (SyncState.last_sync_version row) b
                 later)).
Proof.
  intros Hn HtA Ha HsA Hne Hlim HtB Hb Hfind Hcur batch pushed pulled.
  destruct (push_outbox_accepted relay_now relay A batch a HtA Ha HsA)
    as (relay' & v & Hpush).
  assert (Hfetch : SyncService.relay_push content_length relay_now
                     (SyncService.push_request A batch) relay
                   = (relay', Responded 200 tt)).
  { rewrite relay_push_within_limit by exact Hlim; now rewrite Hpush. }
  unfold pulled, pushed.
  rewrite (pushChanges_confirmed
             (SyncService.relay_push content_length relay_now) now1 A
             relay relay' (Responded 200 tt) Hne Hfetch eq_refl).
  cbn [fst snd]; split; [reflexivity|].
  apply push_ok_appends in Hpush.
  destruct Hpush as (cs & rows & Hcs & _ & Hrows & Hlen & _ & Hvs & _ & Hins
                     & _ & Hlat & _).
  simpl in Hcs; injection Hcs as <-.
  rewrite length_map in Hlen, Hvs, Hlat.
  unfold SyncService.push_request in Hins; rewrite HtA in Hins; simpl in Hins.
  apply Forall2_map_left in Hins.
  assert (Hcar : Forall2 (carries a (SyncService.storeId A)) batch rows).
  { eapply Forall2_impl; [|exact Hins].
    intros e r; apply inserted_for_outbox. }
  assert (Hterm : forall r, In r rows -> Relay.terminal_id r = SInt a).
  { intros r Hr.
    destruct (Forall2_right_In _ _ _ _ Hcar Hr) as (e & _ & Hc).
    exact (carries_terminal _ _ _ _ Hc). }
  assert (Hbatch : (length batch <= 100)%nat).
  { unfold batch, SyncService.unsyncedItems.
    rewrite length_firstn; lia. }
  destruct (pullChanges_relay now2 B relay' b syncState HtB Hb Hfind)
    as (B' & Hrun & Hdb & _ & Hst).
  rewrite Hrun; cbn [fst snd]; split; [reflexivity|].
  rewrite Hcur in Hdb.
  assert (Hrow : SyncState.last_sync_version
                   (SyncState.pulled now2
                      (cursor_after (Some (Relay.latest_version relay'))
                         (SyncState.last_sync_version syncState)) syncState)
                 = Relay.latest_version relay + Z.of_nat (length batch)).
  { cbn [SyncState.pulled SyncState.last_sync_version].
    unfold cursor_after; rewrite Hlat.
    destruct Hn as (_ & _ & Hl & _).
    assert (Hpos : (0 < length batch)%nat).
    { assert (length batch <> 0)%nat; [|lia].
      intros F; apply length_zero_iff_nil in F; exact (Hne F). }
    destruct (Z.eqb_spec (Relay.latest_version relay
                          + Z.of_nat (length batch)) 0); lia. }
  exists rows; eexists.
  split; [exact Hrows|].
  split; [exact Hcar|].
  split; [rewrite Hst, find_update_where, Hfind by reflexivity; reflexivity|].
  split; [exact Hrow|].
  split.
  - intros Hab.
    rewrite (select_changes_appended relay relay' rows a b Hn Hrows) in Hdb;
      [exact Hdb|now rewrite Hlen|exact Hterm|lia|exact Hab].
  - intros ->.
    rewrite (select_changes_own_appended relay relay' rows a Hn Hrows Hterm)
      in Hdb.
    split; [exact Hdb|].
    intros later r Hr Hin.
    apply select_changes_In in Hin; destruct Hin as (_ & Hv & _).
    rewrite Hrow in Hv.
    assert (H : In (Relay.version r)
                   (versions_after (Relay.latest_version relay)
                      (length batch))).
    { rewrite <- Hvs; now apply in_map. }
    apply versions_after_bounds in H; lia.
Qed.

(** X27: every installation that starts from a database without terminal
    rows registers as terminal 1, whatever its host: the terminal id is the
    rowid of the terminal's own database. Two fresh installations therefore
    carry the same terminal id. *)
Theorem fresh_installs_share_terminal_id u hostname interfaces i :
  Installation.identities i = [] ->
  Installation.terminals_seq i = 0 ->
  In (SyncService.storeId (Installation.service i))
     (Local.stores (SyncService.db (Installation.service i))) ->
  snd (Installation.initialize u hostname interfaces i) = Ok tt /\
  Installation.getTerminalInfo
    (fst (Installation.initialize u hostname interfaces i))
  = (Some 1, SyncService.storeId (Installation.service i)).
Proof.
  intros Hids Hseq Hstore.
  unfold Installation.initialize; rewrite Hids, Hseq; cbn [find map].
  pose proof (serverUrl_choice u (Installation.service i)) as Hc.
  cbv zeta in Hc.
  set (c := match u with
            | Some s => if String.eqb s "" then Installation.service i
                        else Installation.set_serverUrl s
                               (Installation.service i)
            | None => Installation.service i
            end) in *.
  destruct Hc as (_ & Hs & _ & _ & _ & Hdb & _).
  rewrite Hs, Hdb.
  apply existsb_eqb_In in Hstore; rewrite Hstore.
  cbn [fst snd Installation.service Installation.getTerminalInfo
       SyncService.terminalId SyncService.storeId
       SyncService.with_sync_state SyncService.with_terminals
       Installation.set_terminal].
  rewrite Hs; split; reflexivity.
Qed.

Lemma fresh_installs_share_terminal_id_witness :
  Installation.identities fresh_install = [] /\
  Installation.terminals_seq fresh_install = 0 /\
  In (SyncService.storeId (Installation.service fresh_install))
     (Local.stores (SyncService.db (Installation.service fresh_install))) /\
  (snd (Installation.initialize None "tillA" [] fresh_install) = Ok tt /\
   Installation.getTerminalInfo
     (fst (Installation.initialize None "tillA" [] fresh_install))
   = (Some 1, SyncService.storeId (Installation.service fresh_install))) /\
  (snd (Installation.initialize None "tillB" [] fresh_install) = Ok tt /\
   Installation.getTerminalInfo
     (fst (Installation.initialize None "tillB" [] fresh_install))
   = (Some 1, SyncService.storeId (Installation.service fresh_install))).
Proof.
  assert (H3 : In (SyncService.storeId (Installation.service fresh_install))
                  (Local.stores
                     (SyncService.db (Installation.service fresh_install))))
    by (cbn; auto).
  split; [reflexivity|split; [reflexivity|split; [exact H3|split]]].
  - apply (fresh_installs_share_terminal_id None "tillA" [] fresh_install
             eq_refl eq_refl H3).
  - apply (fresh_installs_share_terminal_id None "tillB" [] fresh_install
             eq_refl eq_refl H3).
Defined.

Lemma pushed_batch_reaches_peer_unless_ids_collide_witness :
  let A := till_A in
  let B := till_B in
  let syncState := {| SyncState.id := 1; SyncState.terminal_id := 1;
                      SyncState.last_pull_at := None;
                      SyncState.last_push_at := None;
                      SyncState.last_sync_version := 0 |} in
  numbered Relay.empty /\
  SyncService.terminalId A = Some 1 /\ 1 <> 0 /\
  SyncService.storeId A <> 0 /\
  SyncService.unsyncedItems A <> [] /\
  sample_length (SyncService.push_request A (SyncService.unsyncedItems A))
  <= SyncService.body_limit /\
  SyncService.terminalId B = Some 1 /\
  find (SyncState.of_terminal (Some 1)) (SyncService.sync_state B)
  = Some syncState /\
  SyncState.last_sync_version syncState = Relay.latest_version Relay.empty /\
  let batch := SyncService.unsyncedItems A in
  let pushed := SyncService.pushChanges
                  (SyncService.relay_push sample_length 9) 9 A Relay.empty in
  let pulled := SyncService.pullChanges SyncService.relay_pull 12 B
                  (snd (fst pushed)) in
  snd pushed = Ok tt /\ snd pulled = Ok tt /\
  exists rows row,
    Relay.sync_changes (snd (fst pushed))
    = Relay.sync_changes Relay.empty ++ rows /\
    Forall2 (carries 1 (SyncService.storeId A)) batch rows /\
    find (SyncState.of_terminal (Some 1))
         (SyncService.sync_state (fst (fst pulled))) = Some row /\
    SyncState.last_sync_version row
    = Relay.latest_version Relay.empty + Z.of_nat (length batch) /\
    (1 <> 1 ->
     SyncService.db (fst (fst pulled))
     = fold_left (fun st change => replay 12 change st) rows
         (SyncService.db B)) /\
    (1 = 1 ->
     SyncService.db (fst (fst pulled)) = SyncService.db B /\
     forall later r,
       In r rows ->
       ~ In r (Relay.select_changes (SyncState.last_sync_version row) 1
                 later)).
Proof.
  assert (H0 : numbered Relay.empty) by (repeat split).
  assert (H1 : SyncService.terminalId till_A = Some 1) by reflexivity.
  assert (H2 : 1 <> 0) by lia.
  assert (H3 : SyncService.storeId till_A <> 0)
    by (vm_compute; discriminate).
  assert (H4 : SyncService.unsyncedItems till_A <> [])
    by (vm_compute; discriminate).
  assert (H5 : sample_length
                 (SyncService.push_request till_A
                    (SyncService.unsyncedItems till_A))
               <= SyncService.body_limit)
    by (vm_compute; discriminate).
  assert (H6 : SyncService.terminalId till_B = Some 1) by reflexivity.
  assert (H8 : SyncState.last_sync_version
                 {| SyncState.id := 1; SyncState.terminal_id := 1;
                    SyncState.last_pull_at := None;
                    SyncState.last_push_at := None;
                    SyncState.last_sync_version := 0 |}
               = Relay.latest_version Relay.empty) by reflexivity.
  repeat (split; [assumption || reflexivity|]).
  apply (pushed_batch_reaches_peer_unless_ids_collide sample_length 9 9 12
           1 1 Relay.empty till_A till_B _ H0 H1 H2 H3 H4 H5 H6 H2 eq_refl
           H8).
Defined.

(** ** getLocalIP *)

Lemma first_external_none l :
  (forall i, In i l -> external i = false) -> first_external l = None.
Proof.
  induction l as [|i l IH]; simpl; intros H; [reflexivity|].
  fold (external i); rewrite (H i) by now left.
  apply IH; intros; apply H; now right.
Qed.

Lemma first_external_found before i after :
  (forall j, In j before -> external j = false) -> external i = true ->
  first_external (before ++ i :: after) = Some (address i).
Proof.
  induction before as [|j l IH]; simpl; intros Hb Hi.
  - fold (external i); now rewrite Hi.
  - fold (external j); rewrite (Hb j) by now left.
    apply IH; auto.
Qed.

Lemma first_external_app l l' :
  first_external (l ++ l')
  = match first_external l with
    | Some a => Some a
    | None => first_external l'
    end.
Proof.
  induction l as [|i l IH]; simpl; [reflexivity|].
  destruct (String.eqb (family i) "IPv4" && negb (internal i)); auto.
Qed.

Lemma getLocalIP_concat interfaces :
  getLocalIP interfaces
  = match first_external (concat (map snd interfaces)) with
    | Some a => a
    | None => "127.0.0.1"
    end.
Proof.
  induction interfaces as [|[name l] rest IH]; simpl; [reflexivity|].
  rewrite first_external_app.
  destruct (first_external l); [reflexivity|exact IH].
Qed.

(** X25: getLocalIP returns the address of the first entry, in the order of
    the interfaces and of their addresses, that is IPv4 and not internal, and
    127.0.0.1 when there is none. *)
Theorem getLocalIP_is_first_external interfaces :
  let entries := concat (map snd interfaces) in
  ((forall i, In i entries -> external i = false) ->
   getLocalIP interfaces = "127.0.0.1") /\
  (forall before i after,
     entries = before ++ i :: after ->
     (forall j, In j before -> external j = false) ->
     external i = true ->
     getLocalIP interfaces = address i).
Proof.
  cbv zeta; rewrite getLocalIP_concat; split.
  - intros H; now rewrite first_external_none.
  - intros before i after -> Hb Hi.
    now rewrite first_external_found.
Qed.

Lemma getLocalIP_is_first_external_witness :
  let entries := concat (map snd two_interfaces) in
  let wired := {| family := "IPv4"; internal := false;
                  address := "192.168.1.20" |} in
  entries = firstn 2 entries ++ wired :: [] /\
  (forall j, In j (firstn 2 entries) -> external j = false) /\
  external wired = true /\
  getLocalIP two_interfaces = address wired.
Proof.
  split; [reflexivity|].
  assert (H : forall j, In j (firstn 2 (concat (map snd two_interfaces))) ->
                        external j = false).
  { intros j Hj; cbn in Hj.
    destruct Hj as [<-|[<-|[]]]; reflexivity. }
  split; [exact H|split; [reflexivity|]].
  apply (proj2 (getLocalIP_is_first_external two_interfaces)
           (firstn 2 (concat (map snd two_interfaces)))
           {| family := "IPv4"; internal := false; address := "192.168.1.20" |}
           [] eq_refl H eq_refl).
Defined.

(** ** addToOutbox after initialize *)

(** X26: once initialize has registered the terminal, addToOutbox never
    hits a foreign-key error: every mutation handed to it is appended to the
    outbox as one pending row with no attempts, stamped with the terminal's
    id and store and the time of the call, holding the mutation as given;
    nothing is written to the console. *)
Theorem initialized_terminal_enqueues u hostname interfaces i
    now entityType entityId action data :
  registered i ->
  unknown_host hostname i ->
  In (SyncService.storeId (Installation.service i))
     (Local.stores (SyncService.db (Installation.service i))) ->
  let c := Installation.service
             (fst (Installation.initialize u hostname interfaces i)) in
  let c' := SyncService.addToOutbox now entityType entityId action data c in
  exists t row,
    SyncService.terminalId c = Some t /\
    SyncService.sync_outbox c' = SyncService.sync_outbox c ++ [row] /\
    SyncService.console c' = SyncService.console c /\
    Outbox.terminal_id row = Some t /\
    Outbox.store_id row = SyncService.storeId (Installation.service i) /\
    Outbox.synced row = false /\
    Outbox.sync_attempts row = 0 /\
    Outbox.created_at row = now /\
    Outbox.entity_type row = entityType /\
    Outbox.entity_id row = entityId /\
    Outbox.action row = action /\
    Outbox.data row = data.
Proof.
  intros (Hrows & Hfk) Hunknown Hstore c c'.
  unfold c', c, Installation.initialize.
  rewrite (unknown_host_find _ _ Hunknown).
  pose proof (serverUrl_choice u (Installation.service i)) as Hc.
  cbv zeta in Hc.
  set (c0 := match u with
             | Some s => if String.eqb s "" then Installation.service i
                         else Installation.set_serverUrl s
                                (Installation.service i)
             | None => Installation.service i
             end) in *.
  destruct Hc as (Ht & Hs & Ho & Hst & Hterm & Hdb & Hurl).
  rewrite Hs, Hdb.
  apply existsb_eqb_In in Hstore; rewrite Hstore.
  cbn [fst Installation.service].
  unfold SyncService.addToOutbox.
  cbn [SyncService.storeId SyncService.db SyncService.terminalId
       SyncService.terminals SyncService.with_sync_state
       SyncService.with_terminals Installation.set_terminal].
  rewrite Hs, Hdb, Hstore.
  rewrite map_app, existsb_app; cbn [map existsb terminal_rowid].
  rewrite Z.eqb_refl, orb_true_r; cbn [andb orb].
  cbn [SyncService.sync_outbox SyncService.console SyncService.with_outbox].
  do 2 eexists; repeat split.
Qed.

Lemma initialized_terminal_enqueues_witness :
  registered fresh_install /\
  unknown_host "till" fresh_install /\
  In (SyncService.storeId (Installation.service fresh_install))
     (Local.stores (SyncService.db (Installation.service fresh_install))) /\
  let c := Installation.service
             (fst (Installation.initialize None "till" two_interfaces
                     fresh_install)) in
  let c' := SyncService.addToOutbox 100 "product" 3 update (tea (JNum 3)) c in
  exists t row,
    SyncService.terminalId c = Some t /\
    SyncService.sync_outbox c' = SyncService.sync_outbox c ++ [row] /\
    SyncService.console c' = SyncService.console c /\
    Outbox.terminal_id row = Some t /\
    Outbox.store_id row
    = SyncService.storeId (Installation.service fresh_install) /\
    Outbox.synced row = false /\
    Outbox.sync_attempts row = 0 /\
    Outbox.created_at row = 100 /\
    Outbox.entity_type row = "product" /\
    Outbox.entity_id row = 3 /\
    Outbox.action row = update /\
    Outbox.data row = tea (JNum 3).
Proof.
  assert (H1 : registered fresh_install)
    by (split; [reflexivity|intros r []]).
  assert (H2 : unknown_host "till" fresh_install) by (intros e []).
  assert (H3 : In (SyncService.storeId (Installation.service fresh_install))
                  (Local.stores
                     (SyncService.db (Installation.service fresh_install))))
    by (cbn; auto).
  split; [exact H1|split; [exact H2|split; [exact H3|]]].
  apply (initialized_terminal_enqueues None "till" two_interfaces
           fresh_install 100 "product" 3 update (tea (JNum 3)) H1 H2 H3).
Defined.

(** ** The theorems above on sample data *)

Lemma push_accepted_iff_acceptable_witness :
  spread_free two_changes = true /\
  sample_length two_changes <= SyncService.body_limit /\
  acceptable two_changes = true /\
  exists st' v n,
    Relay.body_changes two_changes = Some (JArr n) /\
    Relay.push 7 mixed_log two_changes
    = (st', Relay.PushOk (Z.of_nat (length n)) v) /\
    SyncService.relay_push sample_length 7 two_changes mixed_log
    = (st', Responded 200 tt).
Proof.
  assert (H1 : spread_free two_changes = true) by reflexivity.
  assert (H2 : sample_length two_changes <= SyncService.body_limit)
    by (vm_compute; discriminate).
  assert (H3 : acceptable two_changes = true) by reflexivity.
  split; [exact H1|split; [exact H2|split; [exact H3|]]].
  apply (proj1 (push_accepted_iff_acceptable sample_length 7 mixed_log
                  two_changes H1) H2 H3).
Defined.


Lemma sync_only_advances_outbox_witness :
  Forall2 advanced (SyncService.sync_outbox terminal5_busy)
    (SyncService.sync_outbox
       (fst (fst (SyncService.sync (SyncService.relay_push sample_length 9)
                    SyncService.relay_pull 200 terminal5_busy mixed_log)))).
Proof.
  apply (sync_only_advances_outbox (SyncService.relay_push sample_length 9)
           SyncService.relay_pull 200 terminal5_busy mixed_log).
Defined.

Lemma batch_is_oldest_hundred_witness :
  let batch := SyncService.unsyncedItems terminal5_busy in
  StronglySorted (le_by Outbox.created_at) batch /\
  length batch = Nat.min 100 (length (pending terminal5_busy)) /\
  (forall r, In r batch -> In r (pending terminal5_busy)) /\
  ((length (pending terminal5_busy) <= 100)%nat ->
   Permutation batch (pending terminal5_busy)) /\
  (forall r r', In r (pending terminal5_busy) -> ~ In r batch -> In r' batch ->
                Outbox.created_at r' <= Outbox.created_at r).
Proof.
  apply (batch_is_oldest_hundred terminal5_busy).
Defined.

Lemma sync_stamps_terminal_on_success_only_witness :
  let run := SyncService.sync (SyncService.relay_push sample_length 9) SyncService.relay_pull
               200 terminal5_busy mixed_log in
  SyncService.serverUrl terminal5_busy <> "" /\
  snd run = Ok tt /\
  stamped 200 (SyncService.terminalId terminal5_busy)
    (SyncService.terminals terminal5_busy)
    (SyncService.terminals (fst (fst run))).
Proof.
  assert (H1 : SyncService.serverUrl terminal5_busy <> "")
    by (vm_compute; discriminate).
  assert (H2 : snd (SyncService.sync (SyncService.relay_push sample_length 9)
                      SyncService.relay_pull 200 terminal5_busy mixed_log)
               = Ok tt) by (vm_compute; reflexivity).
  split; [exact H1|split; [exact H2|]].
  apply (sync_stamps_terminal_on_success_only (SyncService.relay_push sample_length 9)
           SyncService.relay_pull 200 terminal5_busy mixed_log); assumption.
Defined.

Lemma replay_touches_own_table_only_witness :
  let st' := replay 9 rename_drinks shop in
  is_text (Relay.entity_type rename_drinks) "category" = true /\
  Local.users st' = Local.users shop /\
  SqlTable.seq (Local.products st') = SqlTable.seq (Local.products shop) /\
  Forall2 same_but_category (SqlTable.rows (Local.products shop))
    (SqlTable.rows (Local.products st')).
Proof.
  split; [reflexivity|].
  apply (replay_touches_own_table_only 9 rename_drinks shop); reflexivity.
Defined.
